(** * The graph store of vue-flow: state, getters and actions

    A shallow embedding of the store engine (state, the deprecated getters
    of [useGetters], the lookup maps built in [Storage.create] and the
    actions of [useActions]) together with the properties the specification
    states about it.

    Conventions.
    - A JavaScript object is a record; an optional field is an [option].
    - The reactive [state] is threaded explicitly: an action is a function
      from the state to a result, the next state and the list of events it
      triggered on the hooks, in order.
    - The helpers imported from [../utils] and the DOM are the store's
      collaborators.  The ones whose behaviour the specification pins down
      are modelled from it (each says so); the others are variables of the
      section that holds the actions. *)

From stdpp Require Import gmap strings list fin_maps pretty.
From Stdlib Require Import ZArith.

Local Open Scope string_scope.
Local Open Scope list_scope.

(** ** Values *)

(** The content of a numeric slot.  Finite numbers are represented by
    integers: the actions below copy and compare them and never compute
    with them.  [Null] is what [JSON.parse] puts where [JSON.stringify]
    met [NaN]. *)
Inductive number := NaN | Null | Fin (z : Z).

#[global] Instance number_eq_dec : EqDecision number.
Proof. solve_decision. Defined.

(** [a !== b] *)
Definition strict_neq (a b : number) : bool :=
  match a, b with
  | Fin x, Fin y => negb (x =? y)%Z
  | Null, Null => false
  | _, _ => true
  end.

(** Truthiness of a numeric slot: [0], [NaN] and [null] are falsy. *)
Definition truthy (a : number) : bool :=
  match a with
  | Fin z => negb (z =? 0)%Z
  | _ => false
  end.

(** Truthiness of a string: only the empty string is falsy. *)
Definition nonempty (s : string) : bool :=
  match s with
  | EmptyString => false
  | _ => true
  end.

(** [isDef(v) ? v : true], the reading of an optional override flag. *)
Definition flagOrTrue (v : option bool) : bool :=
  match v with
  | Some b => b
  | None => true
  end.

Record XYPosition := { x : number; y : number }.
Record XYZPosition := { px : number; py : number; pz : number }.
Record Dimensions := { width : number; height : number }.
Record ViewportTransform := { vx : number; vy : number; zoom : number }.

Inductive HandleType := source | target.

#[global] Instance HandleType_eq_dec : EqDecision HandleType.
Proof. solve_decision. Defined.

#[global] Instance HandleType_countable : Countable HandleType.
Proof.
  refine (inj_countable' (fun t => match t with source => true | target => false end)
                         (fun b : bool => if b then source else target) _).
  by intros [].
Defined.

Inductive ConnectionStatus := valid | invalid.

Record ConnectingHandle := {
  nodeId : string;
  handleType : HandleType;
  handleId : option string;
}.

Inductive ErrorCode :=
| EDGE_SOURCE_MISSING
| EDGE_TARGET_MISSING
| EDGE_SOURCE_TARGET_MISSING
| EDGE_ORPHANED
| NODE_TYPE_MISSING
| OTHER_CODE (name : string).

(** [new VueFlowError(code, ...args)] *)
Record VueFlowError := { code : ErrorCode; args : list string }.

(** [nodes instanceof Function ? nodes(prev) : nodes] *)
Inductive OrFunction (P A : Type) :=
| Literal (a : A)
| Function (f : P -> A).
Arguments Literal {P A} a.
Arguments Function {P A} f.

Definition resolve {P A} (arg : OrFunction P A) (prev : P) : A :=
  match arg with
  | Literal a => a
  | Function f => f prev
  end.

(** [Array.isArray(v) ? v : [v]] *)
Inductive MaybeArray (A : Type) :=
| Single (a : A)
| Array (l : list A).
Arguments Single {A} a.
Arguments Array {A} l.

Definition toArray {A} (v : MaybeArray A) : list A :=
  match v with
  | Single a => [a]
  | Array l => l
  end.

(** [new Map(entries)]: a later entry overwrites an earlier one with the
    same key. *)
Definition newMap {V} (entries : list (string * V)) : gmap string V :=
  foldl (fun m kv => <[kv.1 := kv.2]> m) ∅ entries.

(** ** User payload and JSON *)

(** A JavaScript value, as far as the payload of a node or an edge goes. *)
#[warnings="-register-all"]
Inductive value :=
| VUndefined
| VNull
| VBool (b : bool)
| VNumber (n : number)
| VString (s : string)
| VFunction
| VArray (items : list value)
| VObject (props : list (string * value)).

(** [JSON.parse(JSON.stringify(n))] on a numeric slot. *)
Definition jsonNumber (n : number) : number :=
  match n with
  | Fin z => Fin z
  | _ => Null
  end.

(** [JSON.parse(JSON.stringify(v))] on a value held by a property:
    [VUndefined] as the result means the property is left out.  Inside an
    array, what would be left out becomes [null]. *)
Fixpoint jsonValue (v : value) : value :=
  match v with
  | VUndefined | VFunction => VUndefined
  | VNull => VNull
  | VBool b => VBool b
  | VNumber (Fin z) => VNumber (Fin z)
  | VNumber _ => VNull
  | VString s => VString s
  | VArray items =>
      VArray (map (fun i => match jsonValue i with
                            | VUndefined => VNull
                            | w => w
                            end) items)
  | VObject props =>
      VObject (omap (fun kv => match jsonValue kv.2 with
                               | VUndefined => None
                               | w => Some (kv.1, w)
                               end) props)
  end.

(** The geometry of one handle, as measured on the DOM. *)
Record HandleElement := {
  h_id : option string;
  h_x : number;
  h_y : number;
  h_width : number;
  h_height : number;
}.

(** A DOM element, by handle. *)
Definition HTMLElement := nat.

(** The optional fields an edge inherits when it sets none of its own. *)
Record DefaultEdgeOptions := {
  deo_type : option string;
  deo_hidden : option bool;
  deo_deletable : option bool;
}.

(** ** Nodes and edges *)

(** The loose record a user declares; also what is left of a graph node
    once the internal properties are omitted. *)
Record Node := {
  n_id : string;
  n_type : option string;
  n_position : XYPosition;
  n_data : value;
  n_parentNode : option string;
  n_hidden : option bool;
  n_deletable : option bool;
}.

Record NodeHandleBounds := {
  hb_source : option (list HandleElement);
  hb_target : option (list HandleElement);
}.

Record GraphNode := {
  gn_id : string;
  gn_type : option string;
  gn_position : XYPosition;
  gn_data : value;
  gn_parentNode : option string;
  gn_hidden : option bool;
  gn_deletable : option bool;
  gn_computedPosition : XYZPosition;
  gn_handleBounds : NodeHandleBounds;
  gn_selected : bool;
  gn_dimensions : Dimensions;
  gn_isParent : bool;
  gn_resizing : bool;
  gn_dragging : bool;
  gn_initialized : bool;
  gn_events : list string;
}.

Record Edge := {
  e_id : string;
  e_type : option string;
  e_source : string;
  e_target : string;
  e_sourceHandle : option string;
  e_targetHandle : option string;
  e_data : value;
  e_hidden : option bool;
  e_deletable : option bool;
}.

Record GraphEdge := {
  ge_id : string;
  ge_type : option string;
  ge_source : string;
  ge_target : string;
  ge_sourceHandle : option string;
  ge_targetHandle : option string;
  ge_data : value;
  ge_hidden : option bool;
  ge_deletable : option bool;
  ge_selected : bool;
  ge_sourceNode : option GraphNode;
  ge_targetNode : option GraphNode;
  ge_events : list string;
}.

(** [const { computedPosition, handleBounds, selected, dimensions,
    isParent, resizing, dragging, initialized, events, ...rest } = n] *)
Definition nodeRest (n : GraphNode) : Node :=
  {| n_id := gn_id n; n_type := gn_type n; n_position := gn_position n;
     n_data := gn_data n; n_parentNode := gn_parentNode n;
     n_hidden := gn_hidden n; n_deletable := gn_deletable n |}.

(** [const { selected, sourceNode, targetNode, events, ...rest } = e] *)
Definition edgeRest (e : GraphEdge) : Edge :=
  {| e_id := ge_id e; e_type := ge_type e; e_source := ge_source e;
     e_target := ge_target e; e_sourceHandle := ge_sourceHandle e;
     e_targetHandle := ge_targetHandle e; e_data := ge_data e;
     e_hidden := ge_hidden e; e_deletable := ge_deletable e |}.

(** [{ ...edge, sourceNode, targetNode }].  The source stores the two node
    objects themselves; here the edge holds the two nodes by value, as they
    are when the edge is built.  What a later write to a node object shows
    through an edge that caches it is therefore outside this model, and no
    property below speaks of the cached nodes after such a write. *)
Definition withEndpoints (e : GraphEdge) (s t : GraphNode) : GraphEdge :=
  {| ge_id := ge_id e; ge_type := ge_type e; ge_source := ge_source e;
     ge_target := ge_target e; ge_sourceHandle := ge_sourceHandle e;
     ge_targetHandle := ge_targetHandle e; ge_data := ge_data e;
     ge_hidden := ge_hidden e; ge_deletable := ge_deletable e;
     ge_selected := ge_selected e; ge_sourceNode := Some s;
     ge_targetNode := Some t; ge_events := ge_events e |}.

Inductive Element :=
| NodeElement (n : Node)
| EdgeElement (e : Edge).

Inductive GraphElement :=
| GraphNodeElement (n : GraphNode)
| GraphEdgeElement (e : GraphEdge).

(** ** Change descriptors *)

(** [{ id, type: 'select', selected }], for a node or an edge. *)
Record SelectionChange := { sc_id : string; sc_selected : bool }.

Inductive NodeChange :=
| NodePositionChange (id : string) (position : option XYPosition) (dragging : option bool)
| NodeDimensionChange (id : string) (dimensions : Dimensions)
| NodeSelectionChange (c : SelectionChange)
| NodeAddChange (item : GraphNode)
| NodeRemoveChange (id : string).

Inductive EdgeChange :=
| EdgeSelectionChange (c : SelectionChange)
| EdgeAddChange (item : GraphEdge)
| EdgeRemoveChange (id src tgt : string) (sourceHandle targetHandle : option string).

(** What an action hands over: the payload triggered on a hook
    ([nodesChange], [edgesChange], [error]), the fit-view callback given to
    [nextTick], and the viewport to set once the viewport helper is ready. *)
Inductive Event :=
| NodesChange (changes : list NodeChange)
| EdgesChange (changes : list EdgeChange)
| Error (e : VueFlowError)
| NextTickFitView
| UntilViewportInitialized (v : ViewportTransform).

(** ** The state *)

Abbreviation ConnectionKey := (string * option string * HandleType)%type.

Record ValidConnectionContext := {
  vc_edges : list GraphEdge;
  vc_nodes : list GraphNode;
  vc_sourceNode : option GraphNode;
  vc_targetNode : option GraphNode;
}.

Record State := {
  nodes : list GraphNode;
  edges : list GraphEdge;
  initialized : bool;
  multiSelectionActive : bool;
  isValidConnection : option (Edge -> ValidConnectionContext -> bool);
  connectionLookup : gmap ConnectionKey (gset string);
  defaultEdgeOptions : option DefaultEdgeOptions;
  viewport : ViewportTransform;
  connectionPosition : XYPosition;
  connectionStartHandle : option ConnectingHandle;
  connectionClickStartHandle : option ConnectingHandle;
  connectionEndHandle : option ConnectingHandle;
  connectionStatus : option ConnectionStatus;
  vueFlowRef : option HTMLElement;
  fitViewOnInit : bool;
  fitViewOnInitDone : bool;
}.

Definition set_nodes (v : list GraphNode) (s : State) : State :=
  {| nodes := v; edges := edges s; initialized := initialized s;
     multiSelectionActive := multiSelectionActive s;
     isValidConnection := isValidConnection s;
     connectionLookup := connectionLookup s;
     defaultEdgeOptions := defaultEdgeOptions s; viewport := viewport s;
     connectionPosition := connectionPosition s;
     connectionStartHandle := connectionStartHandle s;
     connectionClickStartHandle := connectionClickStartHandle s;
     connectionEndHandle := connectionEndHandle s;
     connectionStatus := connectionStatus s; vueFlowRef := vueFlowRef s;
     fitViewOnInit := fitViewOnInit s;
     fitViewOnInitDone := fitViewOnInitDone s |}.

Definition set_edges (v : list GraphEdge) (s : State) : State :=
  {| nodes := nodes s; edges := v; initialized := initialized s;
     multiSelectionActive := multiSelectionActive s;
     isValidConnection := isValidConnection s;
     connectionLookup := connectionLookup s;
     defaultEdgeOptions := defaultEdgeOptions s; viewport := viewport s;
     connectionPosition := connectionPosition s;
     connectionStartHandle := connectionStartHandle s;
     connectionClickStartHandle := connectionClickStartHandle s;
     connectionEndHandle := connectionEndHandle s;
     connectionStatus := connectionStatus s; vueFlowRef := vueFlowRef s;
     fitViewOnInit := fitViewOnInit s;
     fitViewOnInitDone := fitViewOnInitDone s |}.

Definition set_connectionLookup (v : gmap ConnectionKey (gset string)) (s : State) : State :=
  {| nodes := nodes s; edges := edges s; initialized := initialized s;
     multiSelectionActive := multiSelectionActive s;
     isValidConnection := isValidConnection s;
     connectionLookup := v;
     defaultEdgeOptions := defaultEdgeOptions s; viewport := viewport s;
     connectionPosition := connectionPosition s;
     connectionStartHandle := connectionStartHandle s;
     connectionClickStartHandle := connectionClickStartHandle s;
     connectionEndHandle := connectionEndHandle s;
     connectionStatus := connectionStatus s; vueFlowRef := vueFlowRef s;
     fitViewOnInit := fitViewOnInit s;
     fitViewOnInitDone := fitViewOnInitDone s |}.

Definition set_connectionPosition (v : XYPosition) (s : State) : State :=
  {| nodes := nodes s; edges := edges s; initialized := initialized s;
     multiSelectionActive := multiSelectionActive s;
     isValidConnection := isValidConnection s;
     connectionLookup := connectionLookup s;
     defaultEdgeOptions := defaultEdgeOptions s; viewport := viewport s;
     connectionPosition := v;
     connectionStartHandle := connectionStartHandle s;
     connectionClickStartHandle := connectionClickStartHandle s;
     connectionEndHandle := connectionEndHandle s;
     connectionStatus := connectionStatus s; vueFlowRef := vueFlowRef s;
     fitViewOnInit := fitViewOnInit s;
     fitViewOnInitDone := fitViewOnInitDone s |}.

Definition set_connectionStartHandle (v : option ConnectingHandle) (s : State) : State :=
  {| nodes := nodes s; edges := edges s; initialized := initialized s;
     multiSelectionActive := multiSelectionActive s;
     isValidConnection := isValidConnection s;
     connectionLookup := connectionLookup s;
     defaultEdgeOptions := defaultEdgeOptions s; viewport := viewport s;
     connectionPosition := connectionPosition s;
     connectionStartHandle := v;
     connectionClickStartHandle := connectionClickStartHandle s;
     connectionEndHandle := connectionEndHandle s;
     connectionStatus := connectionStatus s; vueFlowRef := vueFlowRef s;
     fitViewOnInit := fitViewOnInit s;
     fitViewOnInitDone := fitViewOnInitDone s |}.

Definition set_connectionClickStartHandle (v : option ConnectingHandle) (s : State) : State :=
  {| nodes := nodes s; edges := edges s; initialized := initialized s;
     multiSelectionActive := multiSelectionActive s;
     isValidConnection := isValidConnection s;
     connectionLookup := connectionLookup s;
     defaultEdgeOptions := defaultEdgeOptions s; viewport := viewport s;
     connectionPosition := connectionPosition s;
     connectionStartHandle := connectionStartHandle s;
     connectionClickStartHandle := v;
     connectionEndHandle := connectionEndHandle s;
     connectionStatus := connectionStatus s; vueFlowRef := vueFlowRef s;
     fitViewOnInit := fitViewOnInit s;
     fitViewOnInitDone := fitViewOnInitDone s |}.

Definition set_connectionEndHandle (v : option ConnectingHandle) (s : State) : State :=
  {| nodes := nodes s; edges := edges s; initialized := initialized s;
     multiSelectionActive := multiSelectionActive s;
     isValidConnection := isValidConnection s;
     connectionLookup := connectionLookup s;
     defaultEdgeOptions := defaultEdgeOptions s; viewport := viewport s;
     connectionPosition := connectionPosition s;
     connectionStartHandle := connectionStartHandle s;
     connectionClickStartHandle := connectionClickStartHandle s;
     connectionEndHandle := v;
     connectionStatus := connectionStatus s; vueFlowRef := vueFlowRef s;
     fitViewOnInit := fitViewOnInit s;
     fitViewOnInitDone := fitViewOnInitDone s |}.

Definition set_connectionStatus (v : option ConnectionStatus) (s : State) : State :=
  {| nodes := nodes s; edges := edges s; initialized := initialized s;
     multiSelectionActive := multiSelectionActive s;
     isValidConnection := isValidConnection s;
     connectionLookup := connectionLookup s;
     defaultEdgeOptions := defaultEdgeOptions s; viewport := viewport s;
     connectionPosition := connectionPosition s;
     connectionStartHandle := connectionStartHandle s;
     connectionClickStartHandle := connectionClickStartHandle s;
     connectionEndHandle := connectionEndHandle s;
     connectionStatus := v; vueFlowRef := vueFlowRef s;
     fitViewOnInit := fitViewOnInit s;
     fitViewOnInitDone := fitViewOnInitDone s |}.


(** Field updates used by the actions below. *)
Definition gn_with_selected (v : bool) (n : GraphNode) : GraphNode :=
  {| gn_id := gn_id n; gn_type := gn_type n; gn_position := gn_position n;
     gn_data := gn_data n; gn_parentNode := gn_parentNode n;
     gn_hidden := gn_hidden n; gn_deletable := gn_deletable n;
     gn_computedPosition := gn_computedPosition n;
     gn_handleBounds := gn_handleBounds n; gn_selected := v;
     gn_dimensions := gn_dimensions n; gn_isParent := gn_isParent n;
     gn_resizing := gn_resizing n; gn_dragging := gn_dragging n;
     gn_initialized := gn_initialized n; gn_events := gn_events n |}.

Definition gn_with_position (v : XYPosition) (n : GraphNode) : GraphNode :=
  {| gn_id := gn_id n; gn_type := gn_type n; gn_position := v;
     gn_data := gn_data n; gn_parentNode := gn_parentNode n;
     gn_hidden := gn_hidden n; gn_deletable := gn_deletable n;
     gn_computedPosition := gn_computedPosition n;
     gn_handleBounds := gn_handleBounds n; gn_selected := gn_selected n;
     gn_dimensions := gn_dimensions n; gn_isParent := gn_isParent n;
     gn_resizing := gn_resizing n; gn_dragging := gn_dragging n;
     gn_initialized := gn_initialized n; gn_events := gn_events n |}.

Definition gn_with_dragging (v : bool) (n : GraphNode) : GraphNode :=
  {| gn_id := gn_id n; gn_type := gn_type n; gn_position := gn_position n;
     gn_data := gn_data n; gn_parentNode := gn_parentNode n;
     gn_hidden := gn_hidden n; gn_deletable := gn_deletable n;
     gn_computedPosition := gn_computedPosition n;
     gn_handleBounds := gn_handleBounds n; gn_selected := gn_selected n;
     gn_dimensions := gn_dimensions n; gn_isParent := gn_isParent n;
     gn_resizing := gn_resizing n; gn_dragging := v;
     gn_initialized := gn_initialized n; gn_events := gn_events n |}.

(** [node.handleBounds.source = s; node.handleBounds.target = t;
    node.dimensions = d; node.initialized = true] *)
Definition gn_measured (hs ht : option (list HandleElement)) (d : Dimensions)
    (n : GraphNode) : GraphNode :=
  {| gn_id := gn_id n; gn_type := gn_type n; gn_position := gn_position n;
     gn_data := gn_data n; gn_parentNode := gn_parentNode n;
     gn_hidden := gn_hidden n; gn_deletable := gn_deletable n;
     gn_computedPosition := gn_computedPosition n;
     gn_handleBounds := {| hb_source := hs; hb_target := ht |};
     gn_selected := gn_selected n;
     gn_dimensions := d; gn_isParent := gn_isParent n;
     gn_resizing := gn_resizing n; gn_dragging := gn_dragging n;
     gn_initialized := true; gn_events := gn_events n |}.

(** [node.dimensions = d; node.initialized = true] *)
Definition gn_with_dimensions (d : Dimensions) (n : GraphNode) : GraphNode :=
  gn_measured (hb_source (gn_handleBounds n)) (hb_target (gn_handleBounds n)) d n.

Definition ge_with_selected (v : bool) (e : GraphEdge) : GraphEdge :=
  {| ge_id := ge_id e; ge_type := ge_type e; ge_source := ge_source e;
     ge_target := ge_target e; ge_sourceHandle := ge_sourceHandle e;
     ge_targetHandle := ge_targetHandle e; ge_data := ge_data e;
     ge_hidden := ge_hidden e; ge_deletable := ge_deletable e;
     ge_selected := v; ge_sourceNode := ge_sourceNode e;
     ge_targetNode := ge_targetNode e; ge_events := ge_events e |}.

(** ** Export format *)

(** The object [toObject] returns and [fromObject] reads; [fromObject]
    tests each field for presence. *)
Record FlowExportObject := {
  fo_nodes : option (list Node);
  fo_edges : option (list Edge);
  fo_position : option (number * number);
  fo_zoom : option number;
  fo_viewport : option ViewportTransform;
}.

Definition jsonPosition (p : XYPosition) : XYPosition :=
  {| x := jsonNumber (x p); y := jsonNumber (y p) |}.

Definition jsonViewport (v : ViewportTransform) : ViewportTransform :=
  {| vx := jsonNumber (vx v); vy := jsonNumber (vy v); zoom := jsonNumber (zoom v) |}.

(** [JSON.parse(JSON.stringify(n))]: strings, booleans and absent fields
    come back as they are. *)
Definition jsonNode (n : Node) : Node :=
  {| n_id := n_id n; n_type := n_type n; n_position := jsonPosition (n_position n);
     n_data := jsonValue (n_data n); n_parentNode := n_parentNode n;
     n_hidden := n_hidden n; n_deletable := n_deletable n |}.

Definition jsonEdge (e : Edge) : Edge :=
  {| e_id := e_id e; e_type := e_type e; e_source := e_source e;
     e_target := e_target e; e_sourceHandle := e_sourceHandle e;
     e_targetHandle := e_targetHandle e; e_data := jsonValue (e_data e);
     e_hidden := e_hidden e; e_deletable := e_deletable e |}.

Definition jsonExport (o : FlowExportObject) : FlowExportObject :=
  {| fo_nodes := map jsonNode <$> fo_nodes o;
     fo_edges := map jsonEdge <$> fo_edges o;
     fo_position := (fun p => (jsonNumber p.1, jsonNumber p.2)) <$> fo_position o;
     fo_zoom := jsonNumber <$> fo_zoom o;
     fo_viewport := jsonViewport <$> fo_viewport o |}.

(** ** Parameters of the calls *)

Inductive NodesOrId :=
| Nodes (l : list Node)
| Id (id : string).

Record UpdateNodeDimensionsParams := {
  u_id : string;
  u_nodeElement : HTMLElement;
  u_forceUpdate : option bool;
}.

Inductive GestureEvent := MouseEvent | TouchEvent.

(** ** Partial nodes, drag items, options *)

(** [Partial<GraphNode>]: the keys an update object holds. *)
Record GraphNodePatch := {
  p_id : option string;
  p_type : option (option string);
  p_position : option XYPosition;
  p_data : option value;
  p_parentNode : option (option string);
  p_hidden : option (option bool);
  p_deletable : option (option bool);
  p_computedPosition : option XYZPosition;
  p_handleBounds : option NodeHandleBounds;
  p_selected : option bool;
  p_dimensions : option Dimensions;
  p_isParent : option bool;
  p_resizing : option bool;
  p_dragging : option bool;
  p_initialized : option bool;
  p_events : option (list string);
}.

(** [Object.assign(node, patch)] *)
Definition assign (node : GraphNode) (patch : GraphNodePatch) : GraphNode :=
  {| gn_id := default (gn_id node) (p_id patch);
     gn_type := default (gn_type node) (p_type patch);
     gn_position := default (gn_position node) (p_position patch);
     gn_data := default (gn_data node) (p_data patch);
     gn_parentNode := default (gn_parentNode node) (p_parentNode patch);
     gn_hidden := default (gn_hidden node) (p_hidden patch);
     gn_deletable := default (gn_deletable node) (p_deletable patch);
     gn_computedPosition := default (gn_computedPosition node) (p_computedPosition patch);
     gn_handleBounds := default (gn_handleBounds node) (p_handleBounds patch);
     gn_selected := default (gn_selected node) (p_selected patch);
     gn_dimensions := default (gn_dimensions node) (p_dimensions patch);
     gn_isParent := default (gn_isParent node) (p_isParent patch);
     gn_resizing := default (gn_resizing node) (p_resizing patch);
     gn_dragging := default (gn_dragging node) (p_dragging patch);
     gn_initialized := default (gn_initialized node) (p_initialized patch);
     gn_events := default (gn_events node) (p_events patch) |}.

(** [patch as GraphNode]: the node an update object is when it is put in
    the collection as it stands.  A missing flag reads as false, missing
    data as undefined, a missing optional field as absent; without an id,
    a position, a computed position, handle bounds or dimensions the
    object is not a node the records here can hold. *)
Definition asGraphNode (patch : GraphNodePatch) : option GraphNode :=
  id ← p_id patch;
  position ← p_position patch;
  computedPosition ← p_computedPosition patch;
  handleBounds ← p_handleBounds patch;
  dimensions ← p_dimensions patch;
  Some {| gn_id := id;
          gn_type := default None (p_type patch);
          gn_position := position;
          gn_data := default VUndefined (p_data patch);
          gn_parentNode := default None (p_parentNode patch);
          gn_hidden := default None (p_hidden patch);
          gn_deletable := default None (p_deletable patch);
          gn_computedPosition := computedPosition;
          gn_handleBounds := handleBounds;
          gn_selected := default false (p_selected patch);
          gn_dimensions := dimensions;
          gn_isParent := default false (p_isParent patch);
          gn_resizing := default false (p_resizing patch);
          gn_dragging := default false (p_dragging patch);
          gn_initialized := default false (p_initialized patch);
          gn_events := default [] (p_events patch) |}.

(** [{ ...node }] *)
Definition spreadNode (node : GraphNode) : GraphNodePatch :=
  {| p_id := Some (gn_id node); p_type := Some (gn_type node);
     p_position := Some (gn_position node); p_data := Some (gn_data node);
     p_parentNode := Some (gn_parentNode node); p_hidden := Some (gn_hidden node);
     p_deletable := Some (gn_deletable node);
     p_computedPosition := Some (gn_computedPosition node);
     p_handleBounds := Some (gn_handleBounds node);
     p_selected := Some (gn_selected node);
     p_dimensions := Some (gn_dimensions node);
     p_isParent := Some (gn_isParent node); p_resizing := Some (gn_resizing node);
     p_dragging := Some (gn_dragging node);
     p_initialized := Some (gn_initialized node);
     p_events := Some (gn_events node) |}.

(** [{ ...patch, data }] *)
Definition withData (patch : GraphNodePatch) (data : value) : GraphNodePatch :=
  {| p_id := p_id patch; p_type := p_type patch; p_position := p_position patch;
     p_data := Some data; p_parentNode := p_parentNode patch;
     p_hidden := p_hidden patch; p_deletable := p_deletable patch;
     p_computedPosition := p_computedPosition patch;
     p_handleBounds := p_handleBounds patch; p_selected := p_selected patch;
     p_dimensions := p_dimensions patch; p_isParent := p_isParent patch;
     p_resizing := p_resizing patch; p_dragging := p_dragging patch;
     p_initialized := p_initialized patch; p_events := p_events patch |}.

Definition gn_with_data (v : value) (n : GraphNode) : GraphNode :=
  {| gn_id := gn_id n; gn_type := gn_type n; gn_position := gn_position n;
     gn_data := v; gn_parentNode := gn_parentNode n;
     gn_hidden := gn_hidden n; gn_deletable := gn_deletable n;
     gn_computedPosition := gn_computedPosition n;
     gn_handleBounds := gn_handleBounds n; gn_selected := gn_selected n;
     gn_dimensions := gn_dimensions n; gn_isParent := gn_isParent n;
     gn_resizing := gn_resizing n; gn_dragging := gn_dragging n;
     gn_initialized := gn_initialized n; gn_events := gn_events n |}.

(** The options of [updateNode] and [updateNodeData]. *)
Record UpdateOptions := { replace : option bool }.

(** [options = { replace: false }] by default, then [options.replace] as a
    condition. *)
Definition replaceOf (options : option UpdateOptions) : bool :=
  match options with
  | Some o => default false (replace o)
  | None => false
  end.

(** What [updateNodePositions] reads of a node being dragged.  The change
    descriptors here do not carry the [from] position it passes on. *)
Record NodeDragItem := {
  d_id : string;
  d_position : XYPosition;
  d_from : XYPosition;
  d_parentNode : option string;
}.

(** [v ?? 0] on a numeric slot that may be absent. *)
Definition orZero (v : option number) : number :=
  match v with
  | Some Null | None => Fin 0
  | Some n => n
  end.

(** ** What the getters read *)

(** A registered component of a node or edge type. *)
Definition Component := nat.

(** A value of the [Record<string, any>] the type getters build: a
    registered component, or the name of a type standing for itself.  Such
    an object is given by its own enumerable properties, a finite map:
    they are what a spread copies and what [Object.keys] lists.  What a
    read of a key that is not an own property finds on [Object.prototype]
    is not modelled. *)
Inductive TypeEntry :=
| ComponentEntry (c : Component)
| NameEntry (name : string).

(** The fields of the state that the getters read and none of the actions
    modelled here writes.  The order of the keys of [nodeTypes] and
    [edgeTypes] is not modelled. *)
Record GetterState := {
  g_onlyRenderVisibleElements : bool;
  g_dimensions : Dimensions;
  g_nodeTypes : gmap string TypeEntry;
  g_edgeTypes : gmap string TypeEntry;
}.

Record Rect := { r_x : number; r_y : number; r_width : number; r_height : number }.

(** The argument of [isEdgeVisible]. *)
Record EdgeVisibility := {
  ev_sourcePos : XYZPosition;
  ev_targetPos : XYZPosition;
  ev_sourceWidth : number;
  ev_sourceHeight : number;
  ev_targetWidth : number;
  ev_targetHeight : number;
  ev_width : number;
  ev_height : number;
  ev_viewport : ViewportTransform;
}.

(** [!v] on an optional flag. *)
Definition isSet (v : option bool) : bool := default false v.

(** ** The registry of stores ([Storage]) *)

(** [currentId] and the keys of [flows]; the stores themselves are left
    abstract. *)
Record Storage (Flow : Type) := {
  currentId : N;
  flows : gmap string Flow;
}.
Arguments currentId {Flow} _.
Arguments flows {Flow} _.

(** [n++] on a number holding a natural number: doubles are exact up to
    [2^53], where adding one rounds back to [2^53]. *)
Definition increment (n : N) : N :=
  if (n <? 2 ^ 53)%N then (n + 1)%N else n.

(** [Storage.getId]: [`vue-flow-${this.currentId++}`]. *)
Definition getId {Flow} (st : Storage Flow) : string * Storage Flow :=
  ("vue-flow-" +:+ pretty (currentId st),
   {| currentId := increment (currentId st); flows := flows st |}).

(** [Storage.set], [Storage.get] and [Storage.remove] ([Map.delete] answers
    whether the key was there). *)
Definition storageSet {Flow} (id : string) (flow : Flow) (st : Storage Flow) : Storage Flow :=
  {| currentId := currentId st; flows := <[id := flow]> (flows st) |}.

Definition storageGet {Flow} (id : string) (st : Storage Flow) : option Flow :=
  flows st !! id.

Definition storageRemove {Flow} (id : string) (st : Storage Flow) : bool * Storage Flow :=
  (bool_decide (is_Some (flows st !! id)),
   {| currentId := currentId st; flows := delete id (flows st) |}).

(** [n] calls of [getId], one after the other: the ids, in order, and the
    registry left. *)
Fixpoint getIds {Flow} (n : nat) (st : Storage Flow) : list string * Storage Flow :=
  match n with
  | O => ([], st)
  | S n' => let '(id, st1) := getId st in
            let '(ids, st2) := getIds n' st1 in
            (id :: ids, st2)
  end.

(** ** A reference instance of the collaborators, and small stores

    The actions take the collaborators outside the modelled files as
    variables.  The definitions here instantiate them, so that the actions
    can be evaluated on the small stores that follow. *)

Definition origin : XYPosition := {| x := Fin 0; y := Fin 0 |}.

Definition sampleNode (id : string) (parent : option string) (deletable : option bool)
    : GraphNode :=
  {| gn_id := id; gn_type := None; gn_position := origin; gn_data := VNull;
     gn_parentNode := parent; gn_hidden := None; gn_deletable := deletable;
     gn_computedPosition := {| px := Fin 0; py := Fin 0; pz := Fin 0 |};
     gn_handleBounds := {| hb_source := None; hb_target := None |};
     gn_selected := false;
     gn_dimensions := {| width := Fin 10; height := Fin 10 |};
     gn_isParent := false; gn_resizing := false; gn_dragging := false;
     gn_initialized := false; gn_events := [] |}.

Definition sampleEdge (id src tgt : string) (deletable : option bool) : GraphEdge :=
  {| ge_id := id; ge_type := None; ge_source := src; ge_target := tgt;
     ge_sourceHandle := None; ge_targetHandle := None; ge_data := VNull;
     ge_hidden := None; ge_deletable := deletable; ge_selected := false;
     ge_sourceNode := None; ge_targetNode := None; ge_events := [] |}.

Definition sampleStore (ns : list GraphNode) (es : list GraphEdge)
    (isInitialized multi : bool) : State :=
  {| nodes := ns; edges := es; initialized := isInitialized;
     multiSelectionActive := multi; isValidConnection := None;
     connectionLookup := ∅; defaultEdgeOptions := None;
     viewport := {| vx := Fin 0; vy := Fin 0; zoom := Fin 1 |};
     connectionPosition := origin;
     connectionStartHandle := None; connectionClickStartHandle := None;
     connectionEndHandle := None; connectionStatus := None;
     vueFlowRef := Some 0%nat; fitViewOnInit := false;
     fitViewOnInitDone := false |}.

(** An edge builder that copies the declared fields and keeps the
    selection of the edge it replaces. *)
Definition sample_parseEdge (edge : Edge) (existingEdge : option GraphEdge)
    (defaults : option DefaultEdgeOptions) : GraphEdge :=
  {| ge_id := e_id edge; ge_type := e_type edge; ge_source := e_source edge;
     ge_target := e_target edge; ge_sourceHandle := e_sourceHandle edge;
     ge_targetHandle := e_targetHandle edge; ge_data := e_data edge;
     ge_hidden := e_hidden edge; ge_deletable := e_deletable edge;
     ge_selected := from_option ge_selected false existingEdge;
     ge_sourceNode := None; ge_targetNode := None; ge_events := [] |}.

(** A node builder that copies the declared fields and keeps the internal
    ones of the node it replaces. *)
Definition sample_parseNode (node : Node) (existing : option GraphNode) : GraphNode :=
  let fresh := sampleNode (n_id node) None None in
  let prior := default fresh existing in
  {| gn_id := n_id node; gn_type := n_type node; gn_position := n_position node;
     gn_data := n_data node; gn_parentNode := n_parentNode node;
     gn_hidden := n_hidden node; gn_deletable := n_deletable node;
     gn_computedPosition := gn_computedPosition prior;
     gn_handleBounds := gn_handleBounds prior; gn_selected := gn_selected prior;
     gn_dimensions := gn_dimensions prior; gn_isParent := gn_isParent prior;
     gn_resizing := gn_resizing prior; gn_dragging := gn_dragging prior;
     gn_initialized := gn_initialized prior; gn_events := gn_events prior |}.

Definition sample_createGraphNodes (l : list Node) (current : list GraphNode)
    (find : string -> option GraphNode) : list GraphNode * list VueFlowError :=
  (map (fun node => sample_parseNode node (find (n_id node))) l, []).

(** A page where every element is found, the pane is not scaled, every
    node element measures 10 by 10 and has no handles. *)
Definition sample_querySelector (el : HTMLElement) (selector : string) : option HTMLElement :=
  Some el.
Definition sample_transformM22 (el : HTMLElement) : number := Fin 1.
Definition sample_getDimensions (el : HTMLElement) : Dimensions :=
  {| width := Fin 10; height := Fin 10 |}.
Definition sample_getHandleBounds (selector : string) (el : HTMLElement) (zoom : number)
    : option (list HandleElement) := None.

(** A rank for the store of three generations used below: ["p"] is the
    parent of ["c"], which is the parent of ["g"]. *)
Definition sampleRank (id : string) : nat :=
  if String.eqb id "p" then 2 else if String.eqb id "c" then 1 else 0.

Definition familyStore (parentDeletable edgeDeletable : option bool) : State :=
  sampleStore
    [sampleNode "p" None parentDeletable; sampleNode "c" (Some "p") None;
     sampleNode "g" (Some "c") None; sampleNode "x" None None]
    [sampleEdge "e1" "p" "x" None; sampleEdge "e2" "x" "g" edgeDeletable]
    true false.

(** Two nodes that name each other as parent. *)
Definition cyclicStore : State :=
  sampleStore [sampleNode "a" (Some "b") None; sampleNode "b" (Some "a") None] []
              true false.

(** An update object that only sets the [selected] and [hidden] keys. *)
Definition samplePatch : GraphNodePatch :=
  {| p_id := None; p_type := None; p_position := None; p_data := None;
     p_parentNode := None; p_hidden := Some (Some true); p_deletable := None;
     p_computedPosition := None; p_handleBounds := None; p_selected := Some true;
     p_dimensions := None; p_isParent := None; p_resizing := None;
     p_dragging := None; p_initialized := None; p_events := None |}.

(** Everything is rendered, on a pane of 100 by 100, with no registered
    types. *)
Definition sampleGetters : GetterState :=
  {| g_onlyRenderVisibleElements := false;
     g_dimensions := {| width := Fin 100; height := Fin 100 |};
     g_nodeTypes := ∅; g_edgeTypes := ∅ |}.

(** The family of three generations next to two nodes that name each other
    as parent. *)
Definition familyBesideCycleStore : State :=
  sampleStore
    [sampleNode "p" None None; sampleNode "c" (Some "p") None;
     sampleNode "g" (Some "c") None; sampleNode "x" None None;
     sampleNode "a" (Some "b") None; sampleNode "b" (Some "a") None]
    [sampleEdge "e1" "p" "x" None; sampleEdge "e2" "x" "g" None]
    true false.

(** A store with a validity predicate that rejects the edges from a node
    to itself; one of its two edges has a target that is not among the
    nodes. *)
Definition guardedStore : State :=
  {| nodes := [sampleNode "a" None None; sampleNode "b" None None];
     edges := [sampleEdge "e1" "a" "b" None; sampleEdge "e2" "a" "gone" None];
     initialized := true;
     multiSelectionActive := false;
     isValidConnection :=
       Some (fun edge _ => negb (String.eqb (e_source edge) (e_target edge)));
     connectionLookup := ∅; defaultEdgeOptions := None;
     viewport := {| vx := Fin 0; vy := Fin 0; zoom := Fin 1 |};
     connectionPosition := origin;
     connectionStartHandle := None; connectionClickStartHandle := None;
     connectionEndHandle := None; connectionStatus := None;
     vueFlowRef := Some 0%nat; fitViewOnInit := false;
     fitViewOnInitDone := false |}.


Section Store.

(** ** Collaborators outside the modelled files *)

(** [parseEdge(edge, existingEdge, defaultEdgeOptions)] of [../utils]. *)
Variable parseEdge : Edge -> option GraphEdge -> option DefaultEdgeOptions -> GraphEdge.

(** [createGraphNodes(nodes, currGraphNodes, findNode, triggerError)] of
    [../utils]: the graph nodes it builds and the errors it hands to
    [triggerError], in order. *)
Variable createGraphNodes :
  list Node -> list GraphNode -> (string -> option GraphNode) ->
  list GraphNode * list VueFlowError.

(** The DOM: [el.querySelector(selector)], the [m22] entry of the matrix of
    [window.getComputedStyle(el).transform], and the two measurements of
    [../utils]. *)
Variable querySelector : HTMLElement -> string -> option HTMLElement.
Variable transformM22 : HTMLElement -> number.
Variable getDimensions : HTMLElement -> Dimensions.
Variable getHandleBounds : string -> HTMLElement -> number -> option (list HandleElement).

(** ** Actions as state transformers with an event log *)

Definition Action (A : Type) : Type := State -> A * State * list Event.

Definition ret {A} (a : A) : Action A := fun s => (a, s, []).

Definition bind {A B} (c : Action A) (k : A -> Action B) : Action B :=
  fun s =>
    let '(a, s1, log1) := c s in
    let '(b, s2, log2) := k a s1 in
    (b, s2, log1 ++ log2).

Definition get : Action State := fun s => (s, s, []).

Definition modify (f : State -> State) : Action unit := fun s => (tt, f s, []).

(** [state.hooks.<hook>.trigger(payload)] *)
Definition trigger (ev : Event) : Action unit := fun s => (tt, s, [ev]).

(** [if (cond) { body }] *)
Definition when (cond : bool) (body : Action unit) : Action unit :=
  if cond then body else ret tt.

(** [list.reduce(step, init)] with a step that has effects. *)
Fixpoint reduce {A B} (step : B -> A -> Action B) (l : list A) (init : B) : Action B :=
  match l with
  | [] => ret init
  | a :: rest => bind (step init a) (fun acc => reduce step rest acc)
  end.

(** [array.length] as a condition *)
Definition hasLength {A} (l : list A) : bool :=
  match l with
  | [] => false
  | _ => true
  end.

(** The state an action leaves and the events it triggered. *)
Definition exec {A} (c : Action A) (s : State) : State := (c s).1.2.
Definition events {A} (c : Action A) (s : State) : list Event := (c s).2.
Definition result {A} (c : Action A) (s : State) : A := (c s).1.1.

Notation "x <- c ;; k" := (bind c (fun x => k))
  (at level 100, c at next level, right associativity).
Notation "c ;; k" := (bind c (fun _ => k))
  (at level 100, right associativity).

(** [for (const a of l) body(a)] *)
Fixpoint forEach {A} (body : A -> Action unit) (l : list A) : Action unit :=
  match l with
  | [] => ret tt
  | a :: rest => body a ;; forEach body rest
  end.

(** ** Lookup maps ([Storage.create]) and finders *)

(** [computed(() => new Map(state.nodes.map((n) => [n.id, n])))] *)
Definition nodesMap (s : State) : gmap string GraphNode :=
  newMap (map (fun n => (gn_id n, n)) (nodes s)).

(** [computed(() => new Map(state.edges.map((e) => [e.id, e])))] *)
Definition edgesMap (s : State) : gmap string GraphEdge :=
  newMap (map (fun e => (ge_id e, e)) (edges s)).

Definition findNode (s : State) (id : string) : option GraphNode :=
  if negb (nonempty id) then None else nodesMap s !! id.

Definition findEdge (s : State) (id : string) : option GraphEdge :=
  if negb (nonempty id) then None else edgesMap s !! id.

(** The deprecated getters of [useGetters]. *)
Definition getNode (s : State) (id : string) : option GraphNode :=
  nodesMap s !! id.


(** The object [findNode] returns is the element of [state.nodes] the map
    points to, the last one with that id; writing to its fields writes to
    that element. *)
Fixpoint updateNodeObject (id : string) (f : GraphNode -> GraphNode)
    (l : list GraphNode) : list GraphNode :=
  match l with
  | [] => []
  | n :: rest =>
      if existsb (fun m => bool_decide (gn_id m = id)) rest
      then n :: updateNodeObject id f rest
      else if bool_decide (gn_id n = id) then f n :: rest else n :: rest
  end.

(** ** Helpers of [../utils] *)

Definition addConnection (k : ConnectionKey) (edgeId : string)
    (m : gmap ConnectionKey (gset string)) : gmap ConnectionKey (gset string) :=
  <[k := {[edgeId]} ∪ default ∅ (m !! k)]> m.

(** Modelled from the spec: [updateConnectionLookup(index, edges)], which is
    not among the modelled files, "rebuilds a mapping from (nodeId,
    handleId-or-null, handleType) to the set of edge ids touching that
    point, by scanning the full edge list".  The rebuilt index is the
    result. *)
Definition updateConnectionLookup (edges : list Edge) : gmap ConnectionKey (gset string) :=
  foldl (fun m e =>
           addConnection (e_target e, e_targetHandle e, target) (e_id e)
             (addConnection (e_source e, e_sourceHandle e, source) (e_id e) m))
        ∅ edges.

(** Modelled from the spec: [getConnectedEdges(nodesOrId, edges)], which is
    not among the modelled files, computes "every edge incident on the
    node (via the edge collection scan, not the lookup index)". *)
Definition getConnectedEdgesBase (nodesOrId : NodesOrId) (edges : list GraphEdge) : list GraphEdge :=
  let nodeIds := match nodesOrId with
                 | Nodes l => map n_id l
                 | Id id => [id]
                 end in
  filter (fun e => ge_source e ∈ nodeIds ∨ ge_target e ∈ nodeIds) edges.

(** Modelled from the spec: the constructors of change descriptors, which
    carry "only the fields needed to apply the mutation". *)
Definition createSelectionChange (id : string) (selected : bool) : SelectionChange :=
  {| sc_id := id; sc_selected := selected |}.

Definition createNodeRemoveChange (id : string) : NodeChange := NodeRemoveChange id.

Definition createEdgeRemoveChange (id src tgt : string)
    (sourceHandle targetHandle : option string) : EdgeChange :=
  EdgeRemoveChange id src tgt sourceHandle targetHandle.

Definition elementId (el : GraphElement) : string :=
  match el with
  | GraphNodeElement n => gn_id n
  | GraphEdgeElement e => ge_id e
  end.

(** Modelled from the spec: [getSelectionChanges(elements, selectedIds)],
    which is not among the modelled files, "computes a full selection diff
    across all nodes and edges (deselect everything not in the target set,
    select the target set) in one pass". *)
Definition getSelectionChanges (elements : list GraphElement) (selectedIds : list string)
    : list NodeChange * list EdgeChange :=
  foldl (fun acc el =>
           let change := createSelectionChange (elementId el)
                           (bool_decide (elementId el ∈ selectedIds)) in
           match el with
           | GraphNodeElement _ => (acc.1 ++ [NodeSelectionChange change], acc.2)
           | GraphEdgeElement _ => (acc.1, acc.2 ++ [EdgeSelectionChange change])
           end)
        ([], []) elements.

(** Modelled from the spec: [applyChanges(changes, collection)], which is
    not among the modelled files, for nodes: "add: append the carried
    entity; remove: drop the entity with matching id; select: set selected
    boolean on matching entity; position: if dragging is set, update
    transient dragging flag; if a position payload is present, overwrite
    position; dimensions: overwrite dimensions, [...] mark initialized =
    true"; a change with an id no entity has is skipped. *)
Definition onNode (id : string) (f : GraphNode -> GraphNode) (l : list GraphNode) : list GraphNode :=
  map (fun n => if bool_decide (gn_id n = id) then f n else n) l.

Definition applyNodeChange (l : list GraphNode) (c : NodeChange) : list GraphNode :=
  match c with
  | NodeAddChange item => l ++ [item]
  | NodeRemoveChange id => filter (fun n => gn_id n ≠ id) l
  | NodeSelectionChange c => onNode (sc_id c) (gn_with_selected (sc_selected c)) l
  | NodePositionChange id position dragging =>
      onNode id (fun n =>
                   let n1 := match dragging with
                             | Some d => gn_with_dragging d n
                             | None => n
                             end in
                   match position with
                   | Some p => gn_with_position p n1
                   | None => n1
                   end) l
  | NodeDimensionChange id d => onNode id (gn_with_dimensions d) l
  end.

(** Modelled from the spec: [applyChanges] for edges (add, remove, select). *)
Definition applyEdgeChange (l : list GraphEdge) (c : EdgeChange) : list GraphEdge :=
  match c with
  | EdgeAddChange item => l ++ [item]
  | EdgeRemoveChange id _ _ _ _ => filter (fun e => ge_id e ≠ id) l
  | EdgeSelectionChange c =>
      map (fun e => if bool_decide (ge_id e = sc_id c)
                    then ge_with_selected (sc_selected c) e else e) l
  end.

(** ** Actions *)

Definition applyNodeChanges (changes : list NodeChange) : Action (list GraphNode) :=
  s <- get ;;
  let changed := foldl applyNodeChange (nodes s) changes in
  modify (set_nodes changed) ;;
  ret changed.

Definition applyEdgeChanges (changes : list EdgeChange) : Action (list GraphEdge) :=
  s <- get ;;
  let changedEdges := foldl applyEdgeChange (edges s) changes in
  modify (set_edges changedEdges) ;;
  modify (set_connectionLookup (updateConnectionLookup (map edgeRest changedEdges))) ;;
  ret changedEdges.

(** Modelled from the spec: the listener wired to the change hooks by
    default, which is not among the modelled files: "the hook, in the
    default wiring, immediately applies the changes via the Diff Engine". *)
Definition defaultListener (ev : Event) : Action unit :=
  match ev with
  | NodesChange changes => applyNodeChanges changes ;; ret tt
  | EdgesChange changes => applyEdgeChanges changes ;; ret tt
  | _ => ret tt
  end.

Definition getConnectedEdges (s : State) (nodesOrId : NodesOrId) : list GraphEdge :=
  getConnectedEdgesBase nodesOrId (edges s).

Definition setNodes (arg : OrFunction (list GraphNode) (list Node)) : Action unit :=
  s <- get ;;
  let nextNodes := resolve arg (nodes s) in
  if negb (initialized s) && negb (hasLength nextNodes) then ret tt
  else
    let built := createGraphNodes nextNodes (nodes s) (findNode s) in
    forEach (fun e => trigger (Error e)) built.2 ;;
    modify (set_nodes built.1).

(** The body of the [reduce] of [setEdges]. *)
Definition setEdges_step (res : list GraphEdge) (edge : Edge) : Action (list GraphEdge) :=
  s <- get ;;
  let sourceNode := findNode s (e_source edge) in
  let targetNode := findNode s (e_target edge) in
  let missingSource := negb (bool_decide (is_Some sourceNode)) in
  let missingTarget := negb (bool_decide (is_Some targetNode)) in
  (if missingSource && missingTarget
   then trigger (Error {| code := EDGE_SOURCE_TARGET_MISSING;
                          args := [e_id edge; e_source edge; e_target edge] |})
   else
     when missingSource
       (trigger (Error {| code := EDGE_SOURCE_MISSING;
                          args := [e_id edge; e_source edge] |})) ;;
     when missingTarget
       (trigger (Error {| code := EDGE_TARGET_MISSING;
                          args := [e_id edge; e_target edge] |}))) ;;
  match sourceNode, targetNode with
  | Some sn, Some tn =>
      let existingEdge := findEdge s (e_id edge) in
      ret (res ++ [withEndpoints (parseEdge edge existingEdge (defaultEdgeOptions s)) sn tn])
  | _, _ => ret res
  end.

(** [nextEdges.filter((edge) => state.isValidConnection(edge, {...}))] when
    a validity predicate is set, [nextEdges] otherwise. *)
Definition validEdgesOf (s : State) (nextEdges : list Edge) : list Edge :=
  match isValidConnection s with
  | Some isValid =>
      filter (fun edge =>
                isValid edge {| vc_edges := edges s; vc_nodes := nodes s;
                                vc_sourceNode := findNode s (e_source edge);
                                vc_targetNode := findNode s (e_target edge) |} = true)
             nextEdges
  | None => nextEdges
  end.

Definition setEdges (arg : OrFunction (list GraphEdge) (list Edge)) : Action unit :=
  s <- get ;;
  let nextEdges := resolve arg (edges s) in
  if negb (initialized s) && negb (hasLength nextEdges) then ret tt
  else
    let validEdges := validEdgesOf s nextEdges in
    modify (set_connectionLookup (updateConnectionLookup validEdges)) ;;
    res <- reduce setEdges_step validEdges [] ;;
    modify (set_edges res).

(** [elements.filter(isNode)] and [elements.filter(isEdge)] *)
Definition filterNodes (l : list Element) : list Node :=
  omap (fun el => match el with NodeElement n => Some n | _ => None end) l.

Definition filterEdges (l : list Element) : list Edge :=
  omap (fun el => match el with EdgeElement e => Some e | _ => None end) l.

Definition setElements (arg : OrFunction (list GraphElement) (list Element)) : Action unit :=
  s <- get ;;
  let nextElements :=
    resolve arg (map GraphNodeElement (nodes s) ++ map GraphEdgeElement (edges s)) in
  if negb (initialized s) && negb (hasLength nextElements) then ret tt
  else
    setNodes (Literal (filterNodes nextElements)) ;;
    setEdges (Literal (filterEdges nextElements)).

(** *** Removal *)

(** [createEdgeRemoveChange(connection.id, connection.source,
    connection.target, connection.sourceHandle, connection.targetHandle)] *)
Definition edgeRemoveChangeOf (connection : GraphEdge) : EdgeChange :=
  createEdgeRemoveChange (ge_id connection) (ge_source connection)
    (ge_target connection) (ge_sourceHandle connection) (ge_targetHandle connection).

(** The local function [createEdgeRemovalChanges] of [removeNodes]; the
    array [edgeChanges] it pushes to is passed and returned. *)
Definition createEdgeRemovalChanges (s : State) (nodes : list Node)
    (edgeChanges : list EdgeChange) : list EdgeChange :=
  let connections :=
    filter (fun edge => flagOrTrue (ge_deletable edge) = true)
           (getConnectedEdges s (Nodes nodes)) in
  edgeChanges ++ map edgeRemoveChangeOf connections.

(** The local function [createChildrenRemovalChanges] of [removeNodes].  It
    calls itself on every child; [fuel] bounds the depth of the calls and
    [None] is the answer when it is used up.  The arrays [nodeChanges] and
    [edgeChanges] are passed and returned as a pair. *)
Fixpoint createChildrenRemovalChanges (fuel : nat) (s : State)
    (removeConnectedEdges : bool) (id : string)
    (changes : list NodeChange * list EdgeChange)
    : option (list NodeChange * list EdgeChange) :=
  match fuel with
  | O => None
  | S fuel' =>
      let children := filter (fun n => gn_parentNode n = Some id) (nodes s) in
      if hasLength children then
        let childIds := map gn_id children in
        let nodeChanges := changes.1 ++ map createNodeRemoveChange childIds in
        let edgeChanges :=
          if removeConnectedEdges
          then createEdgeRemovalChanges s (map nodeRest children) changes.2
          else changes.2 in
        foldl (fun acc child =>
                 acc ≫= createChildrenRemovalChanges fuel' s removeConnectedEdges (gn_id child))
              (Some (nodeChanges, edgeChanges)) children
      else Some changes
  end.

(** [typeof item === 'string' ? findNode(item) : item] *)
Definition currNodeOf (s : State) (item : string + Node) : option Node :=
  match item with
  | inl id => nodeRest <$> findNode s id
  | inr node => Some node
  end.

(** One turn of the loop of [removeNodes] over [nodesToRemove]. *)
Definition removeNodes_item (fuel : nat) (s : State)
    (removeConnectedEdges removeChildren : bool)
    (changes : list NodeChange * list EdgeChange) (item : string + Node)
    : option (list NodeChange * list EdgeChange) :=
  match currNodeOf s item with
  | None => Some changes
  | Some currNode =>
      match n_deletable currNode with
      | Some false => Some changes
      | _ =>
          let nodeChanges := changes.1 ++ [createNodeRemoveChange (n_id currNode)] in
          let edgeChanges :=
            if removeConnectedEdges
            then createEdgeRemovalChanges s [currNode] changes.2
            else changes.2 in
          if removeChildren
          then createChildrenRemovalChanges fuel s removeConnectedEdges
                 (n_id currNode) (nodeChanges, edgeChanges)
          else Some (nodeChanges, edgeChanges)
      end
  end.

Definition removeNodes (fuel : nat)
    (arg : OrFunction (list GraphNode) (MaybeArray (string + Node)))
    (removeConnectedEdges removeChildren : option bool)
    : State -> option (unit * State * list Event) :=
  fun s =>
    let removeConnectedEdges := default true removeConnectedEdges in
    let removeChildren := default false removeChildren in
    let nodesToRemove := toArray (resolve arg (nodes s)) in
    changes ← foldl (fun acc item =>
                       acc ≫= fun changes =>
                         removeNodes_item fuel s removeConnectedEdges removeChildren changes item)
                    (Some ([], [])) nodesToRemove;
    Some ((when (hasLength changes.2) (trigger (EdgesChange changes.2)) ;;
           when (hasLength changes.1) (trigger (NodesChange changes.1))) s).

(** *** Selection *)

Definition nodeSelectionHandler (nodes' : list GraphNode) (selected : bool) : Action unit :=
  s <- get ;;
  let nodeIds := map gn_id nodes' in
  let changed :=
    if multiSelectionActive s
    then (map (fun nodeId => NodeSelectionChange (createSelectionChange nodeId selected)) nodeIds,
          [])
    else getSelectionChanges
           (map GraphNodeElement (nodes s) ++ map GraphEdgeElement (edges s))
           nodeIds in
  when (hasLength changed.1) (trigger (NodesChange changed.1)) ;;
  when (hasLength changed.2) (trigger (EdgesChange changed.2)).

Definition addSelectedNodes (nodes' : list GraphNode) : Action unit :=
  nodeSelectionHandler nodes' true.

(** *** Measured dimensions *)

(** The body of the [reduce] of [updateNodeDimensions].  The source writes
    the measurement to the node object, which the edges that cache the node
    share; here the write goes to the node in the collection, and the
    nodes held by the edges (see [withEndpoints]) are left out of it. *)
Definition updateNodeDimensions_step (zoom : number) (res : list NodeChange)
    (update : UpdateNodeDimensionsParams) : Action (list NodeChange) :=
  s <- get ;;
  match findNode s (u_id update) with
  | Some node =>
      let dimensions := getDimensions (u_nodeElement update) in
      let doUpdate :=
        truthy (width dimensions) && truthy (height dimensions) &&
        (strict_neq (width (gn_dimensions node)) (width dimensions)
         || strict_neq (height (gn_dimensions node)) (height dimensions)
         || default false (u_forceUpdate update)) in
      if doUpdate then
        modify (fun s =>
                  set_nodes
                    (updateNodeObject (u_id update)
                       (gn_measured
                          (getHandleBounds ".source" (u_nodeElement update) zoom)
                          (getHandleBounds ".target" (u_nodeElement update) zoom)
                          dimensions)
                       (nodes s)) s) ;;
        ret (res ++ [NodeDimensionChange (gn_id node) dimensions])
      else ret res
  | None => ret res
  end.

Definition updateNodeDimensions (updates : list UpdateNodeDimensionsParams) : Action unit :=
  s <- get ;;
  match vueFlowRef s with
  | None => ret tt
  | Some ref =>
      match querySelector ref ".vue-flow__transformationpane" with
      | None => ret tt
      | Some viewportNode =>
          let zoom := transformM22 viewportNode in
          changes <- reduce (updateNodeDimensions_step zoom) updates [] ;;
          s1 <- get ;;
          when (negb (fitViewOnInitDone s1) && fitViewOnInit s1) (trigger NextTickFitView) ;;
          when (hasLength changes) (trigger (NodesChange changes))
      end
  end.

(** *** Connection gesture *)

Definition startConnection (startHandle : ConnectingHandle) (position : option XYPosition)
    (event : option GestureEvent) (isClick : option bool) : Action unit :=
  (if default false isClick
   then modify (set_connectionClickStartHandle (Some startHandle))
   else modify (set_connectionStartHandle (Some startHandle))) ;;
  modify (set_connectionEndHandle None) ;;
  modify (set_connectionStatus None) ;;
  match position with
  | Some p => modify (set_connectionPosition p)
  | None => ret tt
  end.

Definition updateConnection (position : XYPosition) (result : option ConnectingHandle)
    (status : option ConnectionStatus) : Action unit :=
  s <- get ;;
  when (bool_decide (is_Some (connectionStartHandle s)))
    (modify (set_connectionPosition position) ;;
     modify (set_connectionEndHandle result) ;;
     modify (set_connectionStatus status)).

Definition endConnection (event : option GestureEvent) (isClick : option bool) : Action unit :=
  modify (set_connectionPosition {| x := NaN; y := NaN |}) ;;
  modify (set_connectionEndHandle None) ;;
  modify (set_connectionStatus None) ;;
  if default false isClick
  then modify (set_connectionClickStartHandle None)
  else modify (set_connectionStartHandle None).

(** *** Export and import *)

Definition toObject (s : State) : FlowExportObject :=
  jsonExport
    {| fo_nodes := Some (map nodeRest (nodes s));
       fo_edges := Some (map edgeRest (edges s));
       fo_position := Some (vx (viewport s), vy (viewport s));
       fo_zoom := Some (zoom (viewport s));
       fo_viewport := Some (viewport s) |}.

(** [a || b] on numeric slots that may be absent. *)
Definition orElse (a b : option number) : option number :=
  match a with
  | Some n => if truthy n then a else b
  | None => b
  end.

(** What [fromObject] does before its promise settles: the two collections
    are set at once, the viewport is handed over to be set when the
    viewport helper is ready.  Where the test on the viewport passes, [x],
    [y] and [nextZoom] are all present; the last branch is never taken. *)
Definition fromObject (obj : FlowExportObject) : Action unit :=
  match fo_nodes obj with
  | Some nodes => setNodes (Literal nodes)
  | None => ret tt
  end ;;
  match fo_edges obj with
  | Some edges => setEdges (Literal edges)
  | None => ret tt
  end ;;
  s <- get ;;
  let viewportGiven :=
    match fo_viewport obj with
    | Some v => truthy (vx v) && truthy (vy v)
    | None => false
    end in
  if viewportGiven || bool_decide (is_Some (fo_position obj)) then
    let x := orElse (vx <$> fo_viewport obj) (fst <$> fo_position obj) in
    let y := orElse (vy <$> fo_viewport obj) (snd <$> fo_position obj) in
    let nextZoom :=
      orElse (orElse (zoom <$> fo_viewport obj) (fo_zoom obj))
             (Some (zoom (viewport s))) in
    match x, y, nextZoom with
    | Some x, Some y, Some z =>
        trigger (UntilViewportInitialized {| vx := x; vy := y; zoom := z |})
    | _, _, _ => ret tt
    end
  else ret tt.

(** *** Selection of edges and elements, unselection *)

Definition edgeSelectionHandler (edges' : list GraphEdge) (selected : bool) : Action unit :=
  s <- get ;;
  let edgeIds := map ge_id edges' in
  let changed :=
    if multiSelectionActive s
    then ([],
          map (fun edgeId => EdgeSelectionChange (createSelectionChange edgeId selected)) edgeIds)
    else getSelectionChanges
           (map GraphNodeElement (nodes s) ++ map GraphEdgeElement (edges s))
           edgeIds in
  when (hasLength changed.1) (trigger (NodesChange changed.1)) ;;
  when (hasLength changed.2) (trigger (EdgesChange changed.2)).

Definition elementSelectionHandler (elements : list Element) (selected : bool) : Action unit :=
  s <- get ;;
  let nodeIds := map n_id (filterNodes elements) in
  let edgeIds := map e_id (filterEdges elements) in
  let computed :=
    getSelectionChanges
      (map GraphNodeElement (nodes s) ++ map GraphEdgeElement (edges s))
      (nodeIds ++ edgeIds) in
  let changed :=
    if multiSelectionActive s
    then (map (fun nodeId => NodeSelectionChange (createSelectionChange nodeId selected)) nodeIds,
          map (fun edgeId => EdgeSelectionChange (createSelectionChange edgeId selected)) edgeIds)
    else computed in
  when (hasLength changed.1) (trigger (NodesChange changed.1)) ;;
  when (hasLength changed.2) (trigger (EdgesChange changed.2)).

Definition addSelectedEdges (edges' : list GraphEdge) : Action unit :=
  edgeSelectionHandler edges' true.

Definition addSelectedElements (elements : list Element) : Action unit :=
  elementSelectionHandler elements true.

Definition removeSelectedNodes (nodes' : list GraphNode) : Action unit :=
  if negb (hasLength nodes') then nodeSelectionHandler nodes' false
  else
    let nodeIds := map gn_id nodes' in
    let changedNodes :=
      map (fun nodeId => NodeSelectionChange (createSelectionChange nodeId false)) nodeIds in
    when (hasLength changedNodes) (trigger (NodesChange changedNodes)).

Definition removeSelectedEdges (edges' : list GraphEdge) : Action unit :=
  if negb (hasLength edges') then edgeSelectionHandler edges' false
  else
    let edgeIds := map ge_id edges' in
    let changedEdges :=
      map (fun edgeId => EdgeSelectionChange (createSelectionChange edgeId false)) edgeIds in
    when (hasLength changedEdges) (trigger (EdgesChange changedEdges)).

(** The body of the [reduce] of [removeSelectedElements]. *)
Definition removeSelectedElements_step (changes : list NodeChange * list EdgeChange)
    (curr : Element) : list NodeChange * list EdgeChange :=
  match curr with
  | NodeElement n =>
      (changes.1 ++ [NodeSelectionChange (createSelectionChange (n_id n) false)], changes.2)
  | EdgeElement e =>
      (changes.1, changes.2 ++ [EdgeSelectionChange (createSelectionChange (e_id e) false)])
  end.

Definition removeSelectedElements (elements : option (list Element)) : Action unit :=
  match elements with
  | None => elementSelectionHandler [] false
  | Some elements =>
      if negb (hasLength elements) then elementSelectionHandler [] false
      else
        let changes := foldl removeSelectedElements_step ([], []) elements in
        when (hasLength changes.1) (trigger (NodesChange changes.1)) ;;
        when (hasLength changes.2) (trigger (EdgesChange changes.2))
  end.

(** The change lists the selection actions trigger, spelled out: a change
    for every element of the store, selecting the ids of [ids]; and a change
    with the same flag for every id of a list. *)
Definition fullNodeSelection (s : State) (ids : list string) : list NodeChange :=
  map (fun n => NodeSelectionChange
                  (createSelectionChange (gn_id n) (bool_decide (gn_id n ∈ ids))))
      (nodes s).

Definition fullEdgeSelection (s : State) (ids : list string) : list EdgeChange :=
  map (fun e => EdgeSelectionChange
                  (createSelectionChange (ge_id e) (bool_decide (ge_id e ∈ ids))))
      (edges s).

Definition nodeSelectionOf (ids : list string) (selected : bool) : list NodeChange :=
  map (fun i => NodeSelectionChange (createSelectionChange i selected)) ids.

Definition edgeSelectionOf (ids : list string) (selected : bool) : list EdgeChange :=
  map (fun i => EdgeSelectionChange (createSelectionChange i selected)) ids.


(** The array [edgeChanges] is left as it is. *)
Definition sameEdgeChanges (a b : list NodeChange * list EdgeChange) : Prop :=
  a.2 = b.2.

(** *** Removal of edges, addition of nodes *)

(** [typeof item === 'string' ? findEdge(item) : item] *)
Definition currEdgeOf (s : State) (item : string + Edge) : option Edge :=
  match item with
  | inl id => edgeRest <$> findEdge s id
  | inr edge => Some edge
  end.

(** One turn of the loop of [removeEdges] over [edgesToRemove]. *)
Definition removeEdges_item (s : State) (changes : list EdgeChange) (item : string + Edge)
    : list EdgeChange :=
  match currEdgeOf s item with
  | None => changes
  | Some currEdge =>
      match e_deletable currEdge with
      | Some false => changes
      | _ =>
          changes ++
          [createEdgeRemoveChange
             (match item with inl id => id | inr edge => e_id edge end)
             (e_source currEdge) (e_target currEdge)
             (e_sourceHandle currEdge) (e_targetHandle currEdge)]
      end
  end.

Definition removeEdges (arg : OrFunction (list GraphEdge) (MaybeArray (string + Edge)))
    : Action unit :=
  s <- get ;;
  let edgesToRemove := toArray (resolve arg (edges s)) in
  let changes := foldl (removeEdges_item s) [] edgesToRemove in
  trigger (EdgesChange changes).

(** The ids [removeEdges] asks to remove: those of the items that resolve
    to an edge whose [deletable] flag is not false. *)
Definition removableEdgeIds (s : State) (items : list (string + Edge)) : list string :=
  omap (fun item =>
          match currEdgeOf s item with
          | Some currEdge =>
              match e_deletable currEdge with
              | Some false => None
              | _ => Some (match item with inl id => id | inr edge => e_id edge end)
              end
          | None => None
          end) items.

(** The id a change removes, for a remove change. *)
Definition removedId (c : EdgeChange) : option string :=
  match c with
  | EdgeRemoveChange id _ _ _ _ => Some id
  | _ => None
  end.

(** Modelled from the spec: [createAdditionChange(item)], which is not
    among the modelled files, makes the [add] change that carries the
    entity. *)
Definition createAdditionChange (item : GraphNode) : NodeChange := NodeAddChange item.

Definition addNodes (arg : OrFunction (list GraphNode) (MaybeArray Node)) : Action unit :=
  s <- get ;;
  let nextNodes := toArray (resolve arg (nodes s)) in
  let graphNodes := createGraphNodes nextNodes (nodes s) (findNode s) in
  forEach (fun e => trigger (Error e)) graphNodes.2 ;;
  let changes := map createAdditionChange graphNodes.1 in
  when (hasLength changes) (trigger (NodesChange changes)).

(** *** Positions of dragged nodes *)

(** [a - b] on numbers. *)
Variable minus : number -> number -> number.

(** The change [updateNodePositions] makes for one drag item. *)
Definition positionChangeOf (s : State) (changed dragging : bool) (node : NodeDragItem)
    : NodeChange :=
  NodePositionChange (d_id node)
    (if changed then
       Some (match d_parentNode node with
             | Some parent =>
                 if nonempty parent then
                   let parentNode := findNode s parent in
                   {| x := minus (x (d_position node))
                                 (orZero (px <$> (gn_computedPosition <$> parentNode)));
                      y := minus (y (d_position node))
                                 (orZero (py <$> (gn_computedPosition <$> parentNode))) |}
                 else d_position node
             | None => d_position node
             end)
     else None)
    (Some dragging).

Definition updateNodePositions (dragItems : list NodeDragItem) (changed dragging : bool)
    : Action unit :=
  s <- get ;;
  let changes := foldl (fun changes node => changes ++ [positionChangeOf s changed dragging node])
                       [] dragItems in
  when (hasLength changes) (trigger (NodesChange changes)).

(** *** Direct updates of a node *)

(** [{ ...a, ...b }] on the payload of a node. *)
Variable spreadData : value -> value -> value.

(** [updateNode]; the answer is [None] when [replace] is asked for with an
    update that is not a whole node (see [asGraphNode]).  Without
    [replace] the source assigns to the node object, which the edges that
    cache the node share; here the write goes to the node in the
    collection, and the nodes held by the edges (see [withEndpoints]) are
    left out of it. *)
Definition updateNode (id : string) (nodeUpdate : OrFunction GraphNode GraphNodePatch)
    (options : option UpdateOptions) : State -> option (unit * State * list Event) :=
  fun s =>
    match findNode s id with
    | None => Some (tt, s, [])
    | Some node =>
        let nextNode := resolve nodeUpdate node in
        if replaceOf options then
          match asGraphNode nextNode with
          | Some next =>
              Some (tt, set_nodes (updateNodeObject id (fun _ => next) (nodes s)) s, [])
          | None => None
          end
        else
          Some (tt, set_nodes (updateNodeObject id (fun n => assign n nextNode) (nodes s)) s, [])
    end.

Definition updateNodeData (id : string) (dataUpdate : OrFunction GraphNode value)
    (options : option UpdateOptions) : State -> option (unit * State * list Event) :=
  updateNode id
    (Function (fun node =>
                 let nextData := resolve dataUpdate node in
                 if replaceOf options
                 then withData (spreadNode node) nextData
                 else withData (spreadNode node) (spreadData (gn_data node) nextData)))
    options.

(** *** The getters of [useGetters] *)

(** [getNodesInside(nodes, rect, viewport, partially)] and
    [isEdgeVisible(args)] of the utilities. *)
Variable getNodesInside : list GraphNode -> Rect -> ViewportTransform -> bool -> list GraphNode.
Variable isEdgeVisible : EdgeVisibility -> bool.

(** [defaultNodeTypes] and [defaultEdgeTypes]. *)
Variable defaultNodeTypes : gmap string TypeEntry.
Variable defaultEdgeTypes : gmap string TypeEntry.

(** [list.filter(p)] with a callback that triggers hooks. *)
Fixpoint filterA {A} (p : A -> Action bool) (l : list A) : Action (list A) :=
  match l with
  | [] => ret []
  | a :: rest =>
      keep <- p a ;;
      kept <- filterA p rest ;;
      ret (if keep then a :: kept else kept)
  end.

(** [types[key] = name], a string assigned to a key of a plain object, on
    the own properties.  The key [__proto__], unless it is an own property
    already, is the accessor of [Object.prototype], whose setter ignores a
    value that is not an object: no own property is made.  Any other key
    becomes, or stays, an own property. *)
Definition assignName (key name : string) (types : gmap string TypeEntry)
    : gmap string TypeEntry :=
  if bool_decide (key = "__proto__") && negb (bool_decide (is_Some (types !! key)))
  then types
  else <[key := NameEntry name]> types.

(** The loop of [getNodeTypes] and [getEdgeTypes]:
    [t && !keys.includes(t) && (types[t] = t)] for the type [t] of each
    element, [keys] being the keys before the loop. *)
Definition addOwnTypes (types : gmap string TypeEntry) (elementTypes : list (option string))
    : gmap string TypeEntry :=
  let keys := dom types in
  foldl (fun types t =>
           match t with
           | Some t => if nonempty t && negb (bool_decide (t ∈ keys))
                       then assignName t t types else types
           | None => types
           end)
        types elementTypes.

(** [{ ...defaultEdgeTypes, ...state.edgeTypes }], then the loop. *)
Definition getEdgeTypes (g : GetterState) (s : State) : gmap string TypeEntry :=
  addOwnTypes (g_edgeTypes g ∪ defaultEdgeTypes) (map ge_type (edges s)).

Definition getNodeTypes (g : GetterState) (s : State) : gmap string TypeEntry :=
  addOwnTypes (g_nodeTypes g ∪ defaultNodeTypes) (map gn_type (nodes s)).

Definition getNodes (g : GetterState) (s : State) : list GraphNode :=
  let nodes := List.filter (fun n => negb (isSet (gn_hidden n))) (nodes s) in
  if g_onlyRenderVisibleElements g
  then getNodesInside nodes
         {| r_x := Fin 0; r_y := Fin 0;
            r_width := width (g_dimensions g); r_height := height (g_dimensions g) |}
         (viewport s) true
  else nodes.

(** [edgeHidden(e, source, target)]: undefined, after an [EDGE_ORPHANED]
    error, when an endpoint is not in the node map; whether the edge and
    both its endpoints are shown otherwise. *)
Definition edgeHidden (e : GraphEdge) (sourceNode targetNode : option GraphNode)
    : Action (option bool) :=
  s <- get ;;
  let sourceNode := match sourceNode with
                    | Some n => Some n
                    | None => getNode s (ge_source e)
                    end in
  let targetNode := match targetNode with
                    | Some n => Some n
                    | None => getNode s (ge_target e)
                    end in
  match sourceNode, targetNode with
  | Some sourceNode, Some targetNode =>
      ret (Some (negb (isSet (ge_hidden e)) && negb (isSet (gn_hidden targetNode))
                 && negb (isSet (gn_hidden sourceNode))))
  | _, _ =>
      trigger (Error {| code := EDGE_ORPHANED; args := [ge_id e] |}) ;;
      ret None
  end.

(** With [onlyRenderVisibleElements] the second operand of [&&] reads the
    endpoints; it is only reached when [edgeHidden] found both. *)
Definition getEdges (g : GetterState) : Action (list GraphEdge) :=
  s <- get ;;
  if negb (g_onlyRenderVisibleElements g)
  then filterA (fun edge => shown <- edgeHidden edge None None ;;
                            ret (default false shown)) (edges s)
  else filterA (fun e =>
                  s <- get ;;
                  let sourceNode := getNode s (ge_source e) in
                  let targetNode := getNode s (ge_target e) in
                  shown <- edgeHidden e sourceNode targetNode ;;
                  ret (default false shown
                       && match sourceNode, targetNode with
                          | Some sourceNode, Some targetNode =>
                              isEdgeVisible
                                {| ev_sourcePos := gn_computedPosition sourceNode;
                                   ev_targetPos := gn_computedPosition targetNode;
                                   ev_sourceWidth := width (gn_dimensions sourceNode);
                                   ev_sourceHeight := height (gn_dimensions sourceNode);
                                   ev_targetWidth := width (gn_dimensions targetNode);
                                   ev_targetHeight := height (gn_dimensions targetNode);
                                   ev_width := width (g_dimensions g);
                                   ev_height := height (g_dimensions g);
                                   ev_viewport := viewport s |}
                          | _, _ => false
                          end))
               (edges s).

Definition getElements (g : GetterState) : Action (list GraphElement) :=
  shownEdges <- getEdges g ;;
  s <- get ;;
  ret (map GraphNodeElement (getNodes g s) ++ map GraphEdgeElement shownEdges).

Definition getSelectedNodes (s : State) : list GraphNode :=
  List.filter gn_selected (nodes s).

Definition getSelectedEdges (s : State) : list GraphEdge :=
  List.filter ge_selected (edges s).

Definition getSelectedElements (s : State) : list GraphElement :=
  map GraphNodeElement (getSelectedNodes s) ++ map GraphEdgeElement (getSelectedEdges s).

(** The handle bounds of the nodes here are never undefined. *)
Definition getNodesInitialized (g : GetterState) (s : State) : list GraphNode :=
  List.filter (fun n => gn_initialized n) (getNodes g s).

Definition areNodesInitialized (g : GetterState) (s : State) : bool :=
  (0 <? length (getNodes g s))%nat
  && (length (getNodesInitialized g s) =? length (getNodes g s))%nat.

(** Whether [getEdges] keeps an edge, read off the state. *)
Definition rendersEdge (g : GetterState) (s : State) (e : GraphEdge) : bool :=
  match getNode s (ge_source e), getNode s (ge_target e) with
  | Some sourceNode, Some targetNode =>
      negb (isSet (ge_hidden e)) && negb (isSet (gn_hidden targetNode))
      && negb (isSet (gn_hidden sourceNode))
      && (negb (g_onlyRenderVisibleElements g)
          || isEdgeVisible
               {| ev_sourcePos := gn_computedPosition sourceNode;
                  ev_targetPos := gn_computedPosition targetNode;
                  ev_sourceWidth := width (gn_dimensions sourceNode);
                  ev_sourceHeight := height (gn_dimensions sourceNode);
                  ev_targetWidth := width (gn_dimensions targetNode);
                  ev_targetHeight := height (gn_dimensions targetNode);
                  ev_width := width (g_dimensions g);
                  ev_height := height (g_dimensions g);
                  ev_viewport := viewport s |})
  | _, _ => false
  end.

(** Whether an endpoint of the edge is not a key of the node map. *)
Definition orphaned (s : State) (e : GraphEdge) : bool :=
  negb (bool_decide (is_Some (getNode s (ge_source e))))
  || negb (bool_decide (is_Some (getNode s (ge_target e)))).

(** *** The specification's reading of [setEdges] *)

(** The graph edge [setEdges] stores for an edge whose two endpoints are
    found. *)
Definition retainedEdge (s : State) (edge : Edge) : option GraphEdge :=
  match findNode s (e_source edge), findNode s (e_target edge) with
  | Some sn, Some tn =>
      Some (withEndpoints
              (parseEdge edge (findEdge s (e_id edge)) (defaultEdgeOptions s)) sn tn)
  | _, _ => None
  end.

(** The error the specification assigns to an edge: none when both
    endpoints are found, [EDGE_SOURCE_MISSING] when only the source is
    missing, [EDGE_TARGET_MISSING] when only the target is missing,
    [EDGE_SOURCE_TARGET_MISSING] when both are. *)
Definition missingEndpointError (s : State) (edge : Edge) : option VueFlowError :=
  match findNode s (e_source edge), findNode s (e_target edge) with
  | Some _, Some _ => None
  | None, Some _ =>
      Some {| code := EDGE_SOURCE_MISSING; args := [e_id edge; e_source edge] |}
  | Some _, None =>
      Some {| code := EDGE_TARGET_MISSING; args := [e_id edge; e_target edge] |}
  | None, None =>
      Some {| code := EDGE_SOURCE_TARGET_MISSING;
              args := [e_id edge; e_source edge; e_target edge] |}
  end.

(** The events of [if (changes.length) hook.trigger(changes)]. *)
Definition notifyIf {A} (hook : list A -> Event) (changes : list A) : list Event :=
  if hasLength changes then [hook changes] else [].

(** The state left once the default listener has handled the events, in
    the order they were triggered. *)
Definition deliver (log : list Event) (s : State) : State :=
  exec (forEach defaultListener log) s.

(** *** What a round trip through the export format is compared on *)

Definition nodeCore (n : GraphNode) : string * XYPosition * value :=
  (gn_id n, gn_position n, gn_data n).

Definition declaredNodeCore (n : Node) : string * XYPosition * value :=
  (n_id n, n_position n, n_data n).

Definition edgeCore (e : GraphEdge) : string * string * string * value :=
  (ge_id e, ge_source e, ge_target e, ge_data e).

Definition declaredEdgeCore (e : Edge) : string * string * string * value :=
  (e_id e, e_source e, e_target e, e_data e).

(** The validity predicate of the store, if one is set, accepts the edge
    in the context [setEdges] hands it in the state [s]. *)
Definition acceptsEdge (s : State) (edge : Edge) : Prop :=
  match isValidConnection s with
  | Some isValid =>
      isValid edge {| vc_edges := edges s; vc_nodes := nodes s;
                      vc_sourceNode := findNode s (e_source edge);
                      vc_targetNode := findNode s (e_target edge) |} = true
  | None => True
  end.

(** Both endpoints of the edge are found among the nodes of the store. *)
Definition endpointsFound (s : State) (e : GraphEdge) : Prop :=
  is_Some (findNode s (ge_source e)) ∧ is_Some (findNode s (ge_target e)).

#[local] Instance endpointsFound_dec (s : State) (e : GraphEdge) :
  Decision (endpointsFound s e).
Proof. unfold endpointsFound. apply _. Defined.

(** *** The specification's reading of cascading removal *)

(** A node "whose parentNode chain reaches the target": its parent is the
    target, or its parent is the id of such a node. *)
Inductive descendant (s : State) (root : string) : GraphNode -> Prop :=
| descendant_child n :
    n ∈ nodes s -> gn_parentNode n = Some root -> descendant s root n
| descendant_below n p :
    n ∈ nodes s -> descendant s root p -> gn_parentNode n = Some (gn_id p) ->
    descendant s root n.

(** The same nodes, found from the target downwards, the way
    [createChildrenRemovalChanges] visits them. *)
Inductive below (s : State) : string -> GraphNode -> Prop :=
| below_child root n :
    n ∈ nodes s -> gn_parentNode n = Some root -> below s root n
| below_deeper root c n :
    c ∈ nodes s -> gn_parentNode c = Some root -> below s (gn_id c) n ->
    below s root n.

Definition incidentOn (e : GraphEdge) (id : string) : Prop :=
  ge_source e = id ∨ ge_target e = id.

(** The parent links below [root] have no cycle: ids can be ranked so that
    every node whose parent is [root], or a node whose parent chain reaches
    [root], ranks below its parent.  Nothing is asked of the other nodes of
    the store, which may well name each other as parent. *)
Definition parentRankBelow (s : State) (root : string) (rank : string -> nat) : Prop :=
  forall n p, n ∈ nodes s -> gn_parentNode n = Some p ->
              p = root ∨ (exists d, descendant s root d ∧ gn_id d = p) ->
              rank (gn_id n) < rank p.

(** A target the loop of [removeNodes] passes over: it does not resolve to
    a node, or the [deletable] flag of the node is false. *)
Definition skippedTarget (s : State) (item : string + Node) : bool :=
  match currNodeOf s item with
  | None => true
  | Some currNode =>
      match n_deletable currNode with
      | Some false => true
      | _ => false
      end
  end.


(** What accounts for an edge change, given the node changes made so far:
    it is the remove change of an edge of the store whose [deletable] flag
    is not false, and that edge is incident on a node that has a remove
    change. *)
Definition accountedFor (s : State) (nodeChanges : list NodeChange) (c : EdgeChange) : Prop :=
  exists e id,
    e ∈ edges s ∧ flagOrTrue (ge_deletable e) = true ∧ c = edgeRemoveChangeOf e
    ∧ incidentOn e id ∧ NodeRemoveChange id ∈ nodeChanges.

(** Two invariants of the arrays [nodeChanges] and [edgeChanges]: both only
    grow, and every edge change stays accounted for. *)
Definition grows (a b : list NodeChange * list EdgeChange) : Prop :=
  a.1 ⊆ b.1 ∧ a.2 ⊆ b.2.

Definition staysAccounted (s : State) (a b : list NodeChange * list EdgeChange) : Prop :=
  Forall (accountedFor s a.1) a.2 -> Forall (accountedFor s b.1) b.2.

(** ** Properties *)

(** *** The lookup maps *)

Lemma newMap_snoc {V} (entries : list (string * V)) (k : string) (v : V) :
  newMap (entries ++ [(k, v)]) = <[k := v]> (newMap entries).
Proof. unfold newMap. by rewrite foldl_app. Qed.

Lemma newMap_lookup_Some {V} (key : V -> string) (l : list V) (id : string) (v : V) :
  newMap (map (fun a => (key a, a)) l) !! id = Some v -> v ∈ l ∧ key v = id.
Proof.
  induction l as [|a l IH] using rev_ind.
  - unfold newMap; simpl. by rewrite lookup_empty.
  - rewrite map_app. simpl. rewrite newMap_snoc.
    destruct (decide (key a = id)) as [Heq|Hne].
    + rewrite Heq, lookup_insert_eq. intros [= <-].
      split; [apply elem_of_app; right; by apply list_elem_of_singleton | done].
    + rewrite lookup_insert_ne by done. intros H.
      destruct (IH H) as [Hin Hk]. split; [apply elem_of_app; by left | done].
Qed.

Lemma newMap_lookup_is_Some {V} (key : V -> string) (l : list V) (id : string) :
  is_Some (newMap (map (fun a => (key a, a)) l) !! id) <-> id ∈ map key l.
Proof.
  induction l as [|a l IH] using rev_ind.
  - unfold newMap; simpl. rewrite lookup_empty. split; [by intros [? ?] | by intros ?%elem_of_nil].
  - rewrite !map_app. simpl. rewrite newMap_snoc, elem_of_app, list_elem_of_singleton.
    destruct (decide (key a = id)) as [Heq|Hne].
    + rewrite Heq, lookup_insert_eq. split; [by right | by eexists].
    + rewrite lookup_insert_ne by done. rewrite IH. split; [by left |].
      intros [?|?]; [done | congruence].
Qed.

Lemma findNode_Some s id n :
  findNode s id = Some n -> n ∈ nodes s ∧ gn_id n = id ∧ id ≠ "".
Proof.
  unfold findNode. destruct id as [|c id]; simpl; [done |].
  intros H. apply newMap_lookup_Some in H. by destruct H.
Qed.

Lemma findNode_is_Some s id :
  is_Some (findNode s id) <-> id ≠ "" ∧ id ∈ map gn_id (nodes s).
Proof.
  unfold findNode, nodesMap. destruct id as [|c id]; simpl.
  - split; [by intros [? ?] | by intros [? _]].
  - rewrite newMap_lookup_is_Some. split; [by intros H | by intros [_ H]].
Qed.

(** *** Running actions *)

Lemma forEach_trigger_events {A} (f : A -> Event) (l : list A) s :
  forEach (fun a => trigger (f a)) l s = (tt, s, map f l).
Proof.
  induction l as [|a l IH]; [done |].
  simpl. unfold bind at 1. simpl. by rewrite IH.
Qed.

(** *** Full replacement of the edges *)

Lemma setEdges_step_run (res : list GraphEdge) (e : Edge) (s : State) :
  setEdges_step res e s
  = (res ++ from_option (fun g => [g]) [] (retainedEdge s e), s,
     from_option (fun err => [Error err]) [] (missingEndpointError s e)).
Proof.
  unfold setEdges_step, retainedEdge, missingEndpointError, bind, get, when, trigger, ret.
  cbn.
  destruct (findNode s (e_source e)), (findNode s (e_target e)); cbn;
    by rewrite ?app_nil_r.
Qed.

Lemma reduce_setEdges_step (l : list Edge) (res : list GraphEdge) (s : State) :
  reduce setEdges_step l res s
  = (res ++ omap (retainedEdge s) l, s, map Error (omap (missingEndpointError s) l)).
Proof.
  revert res. induction l as [|e l IH]; intros res.
  - simpl. unfold ret. by rewrite app_nil_r.
  - simpl. unfold bind. rewrite setEdges_step_run, IH.
    destruct (retainedEdge s e), (missingEndpointError s e); cbn;
      by rewrite <- ?app_assoc, ?app_nil_r.
Qed.


Lemma setEdges_run (s : State) (arg : OrFunction (list GraphEdge) (list Edge)) :
  setEdges arg s =
  if negb (initialized s) && negb (hasLength (resolve arg (edges s)))
  then (tt, s, [])
  else
    let validEdges := validEdgesOf s (resolve arg (edges s)) in
    (tt,
     set_edges (omap (retainedEdge s) validEdges)
       (set_connectionLookup (updateConnectionLookup validEdges) s),
     map Error (omap (missingEndpointError s) validEdges)).
Proof.
  unfold setEdges. unfold bind at 1. cbn -[reduce].
  destruct (negb (initialized s) && negb (hasLength (resolve arg (edges s)))); [done |].
  unfold bind. cbn -[reduce]. rewrite reduce_setEdges_step. cbn.
  by rewrite app_nil_r.
Qed.


(** The index [setEdges] leaves is built from the edges that passed the
    validity predicate, before any is dropped for a missing endpoint. *)
Lemma setEdges_connectionLookup (s : State) (arg : OrFunction (list GraphEdge) (list Edge)) :
  initialized s || hasLength (resolve arg (edges s)) = true ->
  connectionLookup (exec (setEdges arg) s)
  = updateConnectionLookup (validEdgesOf s (resolve arg (edges s))).
Proof.
  intros Hguard. unfold exec. rewrite setEdges_run.
  destruct (initialized s), (hasLength (resolve arg (edges s))); done.
Qed.

(** *** Measured dimensions *)

Lemma strict_neq_same (a : number) : truthy a = true -> strict_neq a a = false.
Proof.
  destruct a as [| |z]; simpl; try done.
  intros _. by rewrite Z.eqb_refl.
Qed.

Lemma updateNodeDimensions_step_unchanged (zoom : number) (res : list NodeChange)
    (u : UpdateNodeDimensionsParams) (s : State) :
  (forall n, findNode s (u_id u) = Some n ->
             getDimensions (u_nodeElement u) = gn_dimensions n
             ∧ default false (u_forceUpdate u) = false) ->
  updateNodeDimensions_step zoom res u s = (res, s, []).
Proof.
  intros H. unfold updateNodeDimensions_step, bind, get. cbn.
  destruct (findNode s (u_id u)) as [n|]; [|done].
  destruct (H n eq_refl) as [-> ->].
  destruct (truthy (width (gn_dimensions n))) eqn:Hw; [|done].
  destruct (truthy (height (gn_dimensions n))) eqn:Hh; [|done].
  by rewrite !strict_neq_same.
Qed.

Lemma reduce_updateNodeDimensions_unchanged (zoom : number)
    (updates : list UpdateNodeDimensionsParams) (res : list NodeChange) (s : State) :
  (forall u n, u ∈ updates -> findNode s (u_id u) = Some n ->
               getDimensions (u_nodeElement u) = gn_dimensions n
               ∧ default false (u_forceUpdate u) = false) ->
  reduce (updateNodeDimensions_step zoom) updates res s = (res, s, []).
Proof.
  induction updates as [|u updates IH]; intros H; [done |].
  simpl. unfold bind.
  rewrite updateNodeDimensions_step_unchanged.
  - rewrite IH; [done |]. intros u' n Hin. apply H. by right.
  - intros n. apply H. by left.
Qed.

(** C5.  When every update of a call to [updateNodeDimensions] measures
    exactly the dimensions its node has and does not force the update, the
    call leaves the state as it was (so each node keeps its [dimensions],
    [handleBounds] and [initialized]) and triggers no [nodesChange]: the
    only thing it may hand over is the pending fit-view-on-init. *)
Theorem updateNodeDimensions_suppresses_unchanged (s : State)
    (updates : list UpdateNodeDimensionsParams) :
  (forall u n, u ∈ updates -> findNode s (u_id u) = Some n ->
               getDimensions (u_nodeElement u) = gn_dimensions n
               ∧ default false (u_forceUpdate u) = false) ->
  exec (updateNodeDimensions updates) s = s
  ∧ (forall ev, ev ∈ events (updateNodeDimensions updates) s -> ev = NextTickFitView)
  ∧ (forall changes, NodesChange changes ∉ events (updateNodeDimensions updates) s).
Proof.
  intros H.
  assert (updateNodeDimensions updates s
          = (tt, s, if bool_decide (is_Some (vueFlowRef s
                                               ≫= fun r => querySelector r ".vue-flow__transformationpane"))
                       && (negb (fitViewOnInitDone s) && fitViewOnInit s)
                    then [NextTickFitView] else [])) as Hrun.
  { unfold updateNodeDimensions, bind, get. cbn.
    destruct (vueFlowRef s) as [r|]; [|done]. cbn.
    destruct (querySelector r ".vue-flow__transformationpane") as [v|]; [|done].
    rewrite reduce_updateNodeDimensions_unchanged by done. cbn.
    by destruct (negb (fitViewOnInitDone s) && fitViewOnInit s). }
  unfold exec, events. rewrite Hrun. cbn.
  split; [done |].
  destruct (_ && _); split.
  - intros ev Hev. by apply list_elem_of_singleton in Hev.
  - intros changes Hin. by apply list_elem_of_singleton in Hin.
  - intros ev Hev. by apply elem_of_nil in Hev.
  - intros changes Hin. by apply elem_of_nil in Hin.
Qed.

(** *** Selection *)

Lemma getSelectionChanges_fold (els : list GraphElement) (ids : list string)
    (acc : list NodeChange * list EdgeChange) :
  foldl (fun acc el =>
           let change := createSelectionChange (elementId el)
                           (bool_decide (elementId el ∈ ids)) in
           match el with
           | GraphNodeElement _ => (acc.1 ++ [NodeSelectionChange change], acc.2)
           | GraphEdgeElement _ => (acc.1, acc.2 ++ [EdgeSelectionChange change])
           end) acc els
  = (acc.1 ++ omap (fun el => match el with
                              | GraphNodeElement n =>
                                  Some (NodeSelectionChange
                                          (createSelectionChange (gn_id n)
                                             (bool_decide (gn_id n ∈ ids))))
                              | _ => None
                              end) els,
     acc.2 ++ omap (fun el => match el with
                              | GraphEdgeElement e =>
                                  Some (EdgeSelectionChange
                                          (createSelectionChange (ge_id e)
                                             (bool_decide (ge_id e ∈ ids))))
                              | _ => None
                              end) els).
Proof.
  revert acc. induction els as [|el els IH]; intros [ns es].
  - cbn. by rewrite !app_nil_r.
  - cbn [foldl]. rewrite IH. destruct el; cbn; by rewrite <- ?app_assoc.
Qed.

Lemma omap_map_Some {A B C} (f : A -> B) (g : B -> option C) (h : A -> C) (l : list A) :
  (forall a, g (f a) = Some (h a)) -> omap g (map f l) = map h l.
Proof. intros H. induction l as [|a l IH]; cbn; [done |]. by rewrite H, IH. Qed.

Lemma omap_map_None {A B C} (f : A -> B) (g : B -> option C) (l : list A) :
  (forall a, g (f a) = None) -> omap g (map f l) = [].
Proof. intros H. induction l as [|a l IH]; cbn; [done |]. by rewrite H, IH. Qed.

Lemma getSelectionChanges_all (ns : list GraphNode) (es : list GraphEdge) (ids : list string) :
  getSelectionChanges (map GraphNodeElement ns ++ map GraphEdgeElement es) ids
  = (map (fun n => NodeSelectionChange
                     (createSelectionChange (gn_id n) (bool_decide (gn_id n ∈ ids)))) ns,
     map (fun e => EdgeSelectionChange
                     (createSelectionChange (ge_id e) (bool_decide (ge_id e ∈ ids)))) es).
Proof.
  unfold getSelectionChanges. rewrite getSelectionChanges_fold. cbn.
  rewrite !omap_app.
  rewrite (omap_map_Some GraphNodeElement _
             (fun n => NodeSelectionChange
                         (createSelectionChange (gn_id n) (bool_decide (gn_id n ∈ ids)))))
    by done.
  rewrite (omap_map_None GraphEdgeElement) by done.
  rewrite (omap_map_None GraphNodeElement) by done.
  rewrite (omap_map_Some GraphEdgeElement _
             (fun e => EdgeSelectionChange
                         (createSelectionChange (ge_id e) (bool_decide (ge_id e ∈ ids)))))
    by done.
  by rewrite app_nil_r.
Qed.

Lemma foldl_select_nodes (value : string -> bool) (ids : list string) (l : list GraphNode) :
  foldl applyNodeChange l
        (map (fun i => NodeSelectionChange (createSelectionChange i (value i))) ids)
  = map (fun n => if bool_decide (gn_id n ∈ ids)
                  then gn_with_selected (value (gn_id n)) n else n) l.
Proof.
  induction ids as [|i ids IH] using rev_ind.
  - cbn. induction l as [|n l IHl]; cbn; [done |]. by rewrite <- IHl.
  - rewrite map_app, foldl_app, IH. cbn. unfold onNode. rewrite map_map.
    apply map_ext. intros n.
    destruct (decide (gn_id n ∈ ids)) as [Hin|Hnin].
    + rewrite (bool_decide_eq_true_2 _ Hin).
      rewrite (bool_decide_eq_true_2 (gn_id n ∈ ids ++ [i])) by (apply elem_of_app; by left).
      cbn. destruct (decide (gn_id n = i)) as [<-|Hne].
      * by rewrite bool_decide_eq_true_2.
      * by rewrite bool_decide_eq_false_2.
    + rewrite (bool_decide_eq_false_2 _ Hnin).
      destruct (decide (gn_id n = i)) as [<-|Hne].
      * rewrite bool_decide_eq_true_2 by done.
        by rewrite bool_decide_eq_true_2
          by (apply elem_of_app; right; by apply list_elem_of_singleton).
      * rewrite bool_decide_eq_false_2 by done.
        rewrite bool_decide_eq_false_2; [done |].
        rewrite elem_of_app, list_elem_of_singleton. by intros [?|?].
Qed.

Lemma foldl_select_edges (value : string -> bool) (ids : list string) (l : list GraphEdge) :
  foldl applyEdgeChange l
        (map (fun i => EdgeSelectionChange (createSelectionChange i (value i))) ids)
  = map (fun e => if bool_decide (ge_id e ∈ ids)
                  then ge_with_selected (value (ge_id e)) e else e) l.
Proof.
  induction ids as [|i ids IH] using rev_ind.
  - cbn. induction l as [|n l IHl]; cbn; [done |]. by rewrite <- IHl.
  - rewrite map_app, foldl_app, IH. cbn. rewrite map_map.
    apply map_ext. intros e.
    destruct (decide (ge_id e ∈ ids)) as [Hin|Hnin].
    + rewrite (bool_decide_eq_true_2 _ Hin).
      rewrite (bool_decide_eq_true_2 (ge_id e ∈ ids ++ [i])) by (apply elem_of_app; by left).
      cbn. destruct (decide (ge_id e = i)) as [<-|Hne].
      * by rewrite bool_decide_eq_true_2.
      * by rewrite bool_decide_eq_false_2.
    + rewrite (bool_decide_eq_false_2 _ Hnin).
      destruct (decide (ge_id e = i)) as [<-|Hne].
      * rewrite bool_decide_eq_true_2 by done.
        by rewrite bool_decide_eq_true_2
          by (apply elem_of_app; right; by apply list_elem_of_singleton).
      * rewrite bool_decide_eq_false_2 by done.
        rewrite bool_decide_eq_false_2; [done |].
        rewrite elem_of_app, list_elem_of_singleton. by intros [?|?].
Qed.

Lemma deliver_changes (cn : list NodeChange) (ce : list EdgeChange) (s : State) :
  nodes (deliver (notifyIf NodesChange cn ++ notifyIf EdgesChange ce) s)
  = foldl applyNodeChange (nodes s) cn
  ∧ edges (deliver (notifyIf NodesChange cn ++ notifyIf EdgesChange ce) s)
    = foldl applyEdgeChange (edges s) ce.
Proof. by destruct cn, ce. Qed.

Lemma map_ext_elem_of {A B} (f g : A -> B) (l : list A) :
  (forall a, a ∈ l -> f a = g a) -> map f l = map g l.
Proof.
  intros H. apply map_ext_in. intros a Ha. apply H. by apply list_elem_of_In.
Qed.

Lemma foldl_select_all_nodes (value : string -> bool) (l : list GraphNode) :
  foldl applyNodeChange l
        (map (fun n => NodeSelectionChange (createSelectionChange (gn_id n) (value (gn_id n)))) l)
  = map (fun n => gn_with_selected (value (gn_id n)) n) l.
Proof.
  rewrite <- (map_map gn_id
               (fun i => NodeSelectionChange (createSelectionChange i (value i)))).
  rewrite foldl_select_nodes. apply map_ext_elem_of. intros n Hn.
  rewrite bool_decide_eq_true_2; [done |]. by apply list_elem_of_fmap_2.
Qed.

Lemma foldl_select_all_edges (value : string -> bool) (l : list GraphEdge) :
  foldl applyEdgeChange l
        (map (fun e => EdgeSelectionChange (createSelectionChange (ge_id e) (value (ge_id e)))) l)
  = map (fun e => ge_with_selected (value (ge_id e)) e) l.
Proof.
  rewrite <- (map_map ge_id
               (fun i => EdgeSelectionChange (createSelectionChange i (value i)))).
  rewrite foldl_select_edges. apply map_ext_elem_of. intros e He.
  rewrite bool_decide_eq_true_2; [done |]. by apply list_elem_of_fmap_2.
Qed.

Lemma nodeSelectionHandler_run (targets : list GraphNode) (selected : bool) (s : State) :
  nodeSelectionHandler targets selected s
  = (tt, s,
     if multiSelectionActive s
     then notifyIf NodesChange
            (map (fun i => NodeSelectionChange (createSelectionChange i selected))
                 (map gn_id targets))
          ++ notifyIf EdgesChange []
     else notifyIf NodesChange
            (map (fun n => NodeSelectionChange
                             (createSelectionChange (gn_id n)
                                (bool_decide (gn_id n ∈ map gn_id targets))))
                 (nodes s))
          ++ notifyIf EdgesChange
               (map (fun e => EdgeSelectionChange
                                (createSelectionChange (ge_id e)
                                   (bool_decide (ge_id e ∈ map gn_id targets))))
                    (edges s))).
Proof.
  unfold nodeSelectionHandler, bind, get. cbn.
  destruct (multiSelectionActive s).
  - cbn. unfold notifyIf, when. by destruct (hasLength _).
  - rewrite getSelectionChanges_all. cbn. unfold notifyIf, when.
    by do 2 destruct (hasLength _).
Qed.

(** C4 (as amended).  [addSelectedNodes] does not write to the state
    itself; what it triggers, and the selection left once the default
    listener has applied it, depend on [multiSelectionActive].  When it is
    false, every node and every edge of the store gets one selection
    change, in one batch per hook: select when its id is the id of a target
    node, unselect otherwise; so afterwards an element is selected exactly
    when its id is a target's, an edge that shares its id with a target
    node included.  When it is true, only the target ids get a (select)
    change, nothing is triggered for the edges, and every element with
    another id keeps its flag. *)
Theorem addSelectedNodes_selects_exactly_targets (s : State) (targets : list GraphNode) :
  let ids := map gn_id targets in
  let log := events (addSelectedNodes targets) s in
  let s' := deliver log (exec (addSelectedNodes targets) s) in
  exec (addSelectedNodes targets) s = s
  ∧ if multiSelectionActive s
    then log = notifyIf NodesChange
                 (map (fun i => NodeSelectionChange (createSelectionChange i true)) ids)
         ∧ nodes s' = map (fun n => if bool_decide (gn_id n ∈ ids)
                                    then gn_with_selected true n else n) (nodes s)
         ∧ edges s' = edges s
    else log = notifyIf NodesChange
                 (map (fun n => NodeSelectionChange
                                  (createSelectionChange (gn_id n)
                                     (bool_decide (gn_id n ∈ ids)))) (nodes s))
               ++ notifyIf EdgesChange
                    (map (fun e => EdgeSelectionChange
                                     (createSelectionChange (ge_id e)
                                        (bool_decide (ge_id e ∈ ids)))) (edges s))
         ∧ nodes s' = map (fun n => gn_with_selected (bool_decide (gn_id n ∈ ids)) n)
                          (nodes s)
         ∧ edges s' = map (fun e => ge_with_selected (bool_decide (ge_id e ∈ ids)) e)
                          (edges s).
Proof.
  intros ids log s'. subst log s'. unfold addSelectedNodes, exec, events.
  rewrite nodeSelectionHandler_run. cbn [fst snd]. fold ids.
  split; [done |].
  destruct (multiSelectionActive s).
  - split; [by rewrite app_nil_r |].
    match goal with
    | |- context [deliver (notifyIf NodesChange ?a ++ notifyIf EdgesChange ?b) s] =>
        destruct (deliver_changes a b s) as [Hn He]
    end.
    rewrite Hn, He. by rewrite foldl_select_nodes.
  - split; [done |].
    match goal with
    | |- context [deliver (notifyIf NodesChange ?a ++ notifyIf EdgesChange ?b) s] =>
        destruct (deliver_changes a b s) as [Hn He]
    end.
    rewrite Hn, He.
    pose (value := fun i : string => bool_decide (i ∈ ids)).
    split.
    + exact (foldl_select_all_nodes value (nodes s)).
    + exact (foldl_select_all_edges value (edges s)).
Qed.

(** *** Export and import *)

Lemma setNodes_run (s : State) (arg : OrFunction (list GraphNode) (list Node)) :
  setNodes arg s =
  if negb (initialized s) && negb (hasLength (resolve arg (nodes s)))
  then (tt, s, [])
  else
    let built := createGraphNodes (resolve arg (nodes s)) (nodes s) (findNode s) in
    (tt, set_nodes built.1 s, map Error built.2).
Proof.
  unfold setNodes. unfold bind at 1. cbn.
  destruct (negb (initialized s) && negb (hasLength (resolve arg (nodes s)))); [done |].
  unfold bind. rewrite forEach_trigger_events. cbn. by rewrite app_nil_r.
Qed.

Lemma fromObject_state (obj : FlowExportObject) (s : State) :
  exec (fromObject obj) s
  = exec (match fo_edges obj with
          | Some es => setEdges (Literal es)
          | None => ret tt
          end)
         (exec (match fo_nodes obj with
                | Some ns => setNodes (Literal ns)
                | None => ret tt
                end) s).
Proof.
  unfold fromObject, exec, bind, get.
  destruct (match fo_nodes obj with Some ns => setNodes (Literal ns) | None => ret tt end s)
    as [[[] s1] log1].
  cbn [fst snd].
  destruct (match fo_edges obj with Some es => setEdges (Literal es) | None => ret tt end s1)
    as [[[] s2] log2].
  cbn [fst snd].
  destruct (_ || _); [|done].
  repeat match goal with
         | |- context [match orElse ?a ?b with _ => _ end] => destruct (orElse a b)
         end; done.
Qed.

Lemma filter_accepts_all {A} (P : A -> Prop) `{forall a, Decision (P a)} (l : list A) :
  (forall a, P a) -> filter P l = l.
Proof.
  intros HP. induction l as [|a l IH]; [done |].
  rewrite filter_cons_True by done. by rewrite IH.
Qed.

Lemma filter_all {A} (P : A -> Prop) `{forall a, Decision (P a)} (l : list A) :
  Forall P l -> filter P l = l.
Proof.
  induction 1 as [|a l Ha _ IH]; [done |].
  rewrite filter_cons_True by done. by rewrite IH.
Qed.

Lemma validEdgesOf_accepted (s : State) (l : list Edge) :
  (forall e, e ∈ l -> acceptsEdge s e) -> validEdgesOf s l = l.
Proof.
  unfold validEdgesOf, acceptsEdge. destruct (isValidConnection s) as [isValid|]; [|done].
  induction l as [|e l IH]; intros Hl; [done |].
  rewrite filter_cons_True by (apply Hl; by left).
  f_equal. apply IH. intros e' He'. apply Hl. by right.
Qed.

Lemma missingEndpointError_same (s s1 : State) (e : Edge) :
  (forall id, is_Some (findNode s1 id) <-> is_Some (findNode s id)) ->
  missingEndpointError s1 e = missingEndpointError s e.
Proof.
  intros Hfind. unfold missingEndpointError.
  pose proof (Hfind (e_source e)) as [Hs1 Hs2].
  pose proof (Hfind (e_target e)) as [Ht1 Ht2].
  destruct (findNode s1 (e_source e)) as [?|], (findNode s (e_source e)) as [?|],
           (findNode s1 (e_target e)) as [?|], (findNode s (e_target e)) as [?|];
    try done;
    solve [ destruct Hs1 as [? [=]]; by eexists
          | destruct Hs2 as [? [=]]; by eexists
          | destruct Ht1 as [? [=]]; by eexists
          | destruct Ht2 as [? [=]]; by eexists ].
Qed.

Lemma fromObject_events_of_setters (obj : FlowExportObject) (s : State) :
  exists rest,
    events (fromObject obj) s
    = events (match fo_nodes obj with
              | Some ns => setNodes (Literal ns)
              | None => ret tt
              end) s
      ++ events (match fo_edges obj with
                 | Some es => setEdges (Literal es)
                 | None => ret tt
                 end)
                (exec (match fo_nodes obj with
                       | Some ns => setNodes (Literal ns)
                       | None => ret tt
                       end) s)
      ++ rest.
Proof.
  unfold fromObject, events, exec, bind, get.
  destruct (match fo_nodes obj with Some ns => setNodes (Literal ns) | None => ret tt end s)
    as [[[] s1] log1].
  cbn [fst snd].
  destruct (match fo_edges obj with Some es => setEdges (Literal es) | None => ret tt end s1)
    as [[[] s2] log2].
  cbn [fst snd].
  destruct (_ || _); [|by exists []].
  repeat match goal with
         | |- context [match orElse ?a ?b with _ => _ end] => destruct (orElse a b)
         end; by eexists.
Qed.

(** C6 (as amended).  [toObject] returns the nodes and edges without their
    internal properties, and the viewport three times over, all as JSON
    gives them back.  Importing that object into the same store with
    [fromObject] gives nodes with the ids, positions and data of the
    original ones, and edges with the ids, endpoints and data of the
    original edges whose two endpoints are found among the nodes (all of
    them, when every edge has its endpoints found), provided that the
    positions and data are values JSON gives back unchanged and that the
    validity predicate of the store, if there is one, accepts the exported
    edges when the import asks it.  An edge with an endpoint that is not
    found is dropped by the import, and the error that tells which endpoint
    is missing is triggered for it.  The two builders are assumed to keep
    what is declared. *)
Theorem export_import_roundtrip (s : State) :
  (forall l current find,
      map nodeCore (createGraphNodes l current find).1 = map declaredNodeCore l) ->
  (forall e existing defaults,
      edgeCore (parseEdge e existing defaults) = declaredEdgeCore e) ->
  (forall n, n ∈ nodes s ->
             jsonPosition (gn_position n) = gn_position n
             ∧ jsonValue (gn_data n) = gn_data n) ->
  (forall e, e ∈ edges s -> jsonValue (ge_data e) = ge_data e) ->
  (forall e, e ∈ default [] (fo_edges (toObject s)) ->
             acceptsEdge (exec (setNodes (Literal (default [] (fo_nodes (toObject s))))) s) e) ->
  let s' := exec (fromObject (toObject s)) s in
  toObject s
  = {| fo_nodes := Some (map (fun n => jsonNode (nodeRest n)) (nodes s));
       fo_edges := Some (map (fun e => jsonEdge (edgeRest e)) (edges s));
       fo_position := Some (jsonNumber (vx (viewport s)), jsonNumber (vy (viewport s)));
       fo_zoom := Some (jsonNumber (zoom (viewport s)));
       fo_viewport := Some (jsonViewport (viewport s)) |}
  ∧ map nodeCore (nodes s') = map nodeCore (nodes s)
  ∧ map edgeCore (edges s') = map edgeCore (filter (endpointsFound s) (edges s))
  ∧ (Forall (endpointsFound s) (edges s) ->
     map edgeCore (edges s') = map edgeCore (edges s))
  ∧ (forall e, e ∈ edges s -> ¬ endpointsFound s e ->
        exists err,
          missingEndpointError s (edgeRest e) = Some err
          ∧ Error err ∈ events (fromObject (toObject s)) s).
Proof.
  intros Hbuild Hparse Hjn Hje Hvalid s'.
  assert (toObject s
          = {| fo_nodes := Some (map (fun n => jsonNode (nodeRest n)) (nodes s));
               fo_edges := Some (map (fun e => jsonEdge (edgeRest e)) (edges s));
               fo_position := Some (jsonNumber (vx (viewport s)), jsonNumber (vy (viewport s)));
               fo_zoom := Some (jsonNumber (zoom (viewport s)));
               fo_viewport := Some (jsonViewport (viewport s)) |}) as Hobj.
  { unfold toObject, jsonExport. cbn. by rewrite !map_map. }
  split; [exact Hobj |].
  destruct (fromObject_events_of_setters (toObject s) s) as [rest Hevents].
  subst s'. rewrite fromObject_state. rewrite Hobj in Hvalid, Hevents |- *.
  cbn [fo_nodes fo_edges default] in Hvalid, Hevents |- *.
  set (ns := map (fun n => jsonNode (nodeRest n)) (nodes s)) in *.
  set (es := map (fun e => jsonEdge (edgeRest e)) (edges s)) in *.
  set (s1 := exec (setNodes (Literal ns)) s) in *.
  assert (map declaredNodeCore ns = map nodeCore (nodes s)) as Hns.
  { subst ns. rewrite map_map. apply map_ext_elem_of. intros n Hn.
    destruct (Hjn n Hn) as [Hp Hd]. unfold declaredNodeCore, nodeCore. cbn.
    by rewrite Hp, Hd. }
  assert (map nodeCore (nodes s1) = map nodeCore (nodes s)) as Hnodes.
  { subst s1. unfold exec. rewrite setNodes_run. cbn [resolve].
    destruct (negb (initialized s) && negb (hasLength ns)); [done |].
    cbn. by rewrite Hbuild. }
  assert (edges s1 = edges s ∧ initialized s1 = initialized s) as (Hedges1 & Hinit1).
  { subst s1. unfold exec. rewrite setNodes_run.
    by destruct (negb (initialized s) && negb (hasLength (resolve (Literal ns) (nodes s)))). }
  assert (forall id, is_Some (findNode s1 id) <-> is_Some (findNode s id)) as Hfind.
  { intros id. rewrite !findNode_is_Some.
    assert (forall l, map gn_id l
                      = map (fun c : string * XYPosition * value => c.1.1) (map nodeCore l))
      as Hids by (intros l; by rewrite map_map).
    by rewrite (Hids (nodes s1)), (Hids (nodes s)), Hnodes. }
  assert (forall l, (forall e, e ∈ l -> jsonValue (ge_data e) = ge_data e) ->
                    map edgeCore (omap (retainedEdge s1)
                                       (map (fun e => jsonEdge (edgeRest e)) l))
                    = map edgeCore (filter (endpointsFound s) l)) as Hkept.
  { induction l as [|e l IH]; intros Hl; [done |].
    assert (map edgeCore (omap (retainedEdge s1) (map (fun e => jsonEdge (edgeRest e)) l))
            = map edgeCore (filter (endpointsFound s) l)) as IH'
      by (apply IH; intros e' He'; apply Hl; by right).
    cbn [map].
    change (omap (retainedEdge s1)
                 (jsonEdge (edgeRest e) :: map (fun e => jsonEdge (edgeRest e)) l))
      with (match retainedEdge s1 (jsonEdge (edgeRest e)) with
            | Some ge => ge :: omap (retainedEdge s1) (map (fun e => jsonEdge (edgeRest e)) l)
            | None => omap (retainedEdge s1) (map (fun e => jsonEdge (edgeRest e)) l)
            end).
    unfold retainedEdge at 1. cbn [e_source e_target jsonEdge edgeRest].
    destruct (decide (endpointsFound s e)) as [Hfound|Hmissing].
    - rewrite filter_cons_True by done.
      destruct Hfound as [Hs Ht].
      apply Hfind in Hs as [sn ->]. apply Hfind in Ht as [tn ->].
      cbn [map]. rewrite IH'. f_equal.
      transitivity (edgeCore (parseEdge (jsonEdge (edgeRest e))
                                (findEdge s1 (e_id (jsonEdge (edgeRest e))))
                                (defaultEdgeOptions s1))); [done |].
      rewrite Hparse. unfold declaredEdgeCore, edgeCore. cbn.
      rewrite (Hl e); [done | by left].
    - rewrite filter_cons_False by done.
      destruct (findNode s1 (ge_source e)) as [sn|] eqn:Hs;
        [destruct (findNode s1 (ge_target e)) as [tn|] eqn:Ht |]; [| exact IH' ..].
      exfalso. apply Hmissing. split; apply Hfind; by eexists. }
  assert (map edgeCore (edges (exec (setEdges (Literal es)) s1))
          = map edgeCore (filter (endpointsFound s) (edges s))) as Hroundtrip.
  { unfold exec. rewrite setEdges_run. cbn [resolve].
    destruct (negb (initialized s1) && negb (hasLength es)) eqn:Hguard.
    - cbn. rewrite Hedges1.
      apply andb_true_iff in Hguard as [_ Hlen]. apply negb_true_iff in Hlen.
      subst es. by destruct (edges s).
    - cbn. rewrite validEdgesOf_accepted by exact Hvalid.
      subst es. by apply Hkept. }
  split; [|split; [exact Hroundtrip | split]].
  - unfold exec. rewrite setEdges_run. cbn [resolve].
    destruct (negb (initialized s1) && negb (hasLength es)); exact Hnodes.
  - intros Hall. rewrite Hroundtrip. f_equal. by apply filter_all.
  - intros e He Hmissing.
    assert (is_Some (missingEndpointError s (edgeRest e))) as [err Herr].
    { unfold missingEndpointError. cbn [e_source e_target edgeRest].
      destruct (findNode s (ge_source e)) as [sn|] eqn:Hs;
        destruct (findNode s (ge_target e)) as [tn|] eqn:Ht; try (by eexists).
      exfalso. apply Hmissing. split; by eexists. }
    exists err. split; [exact Herr |].
    rewrite Hevents. apply elem_of_app. right. apply elem_of_app. left.
    unfold events. rewrite setEdges_run. cbn [resolve].
    assert (jsonEdge (edgeRest e) ∈ es) as Hin
      by (subst es; by apply (list_elem_of_fmap_2 (fun e => jsonEdge (edgeRest e)))).
    assert (negb (initialized s1) && negb (hasLength es) = false) as ->.
    { destruct es; [by apply elem_of_nil in Hin |]. cbn. by rewrite andb_false_r. }
    cbn. rewrite validEdgesOf_accepted by exact Hvalid.
    apply (list_elem_of_fmap_2 Error).
    apply list_elem_of_omap. exists (jsonEdge (edgeRest e)). split; [exact Hin |].
    rewrite (missingEndpointError_same s s1) by exact Hfind.
    exact Herr.
Qed.

(** *** Cascading removal *)

Section OptionFold.
Context {A B : Type} (g : B -> A -> option A).

Lemma foldl_mbind_None (l : list B) :
  foldl (fun acc b => acc ≫= g b) None l = None.
Proof. induction l as [|b l IH]; [done |]. exact IH. Qed.

Lemma foldl_mbind_inv (R : A -> A -> Prop) `{!Reflexive R} `{!Transitive R}
    (l : list B) (a r : A) :
  (forall b x y, b ∈ l -> g b x = Some y -> R x y) ->
  foldl (fun acc b => acc ≫= g b) (Some a) l = Some r -> R a r.
Proof.
  revert a. induction l as [|b l IH]; intros a Hstep Hrun.
  - cbn in Hrun. by injection Hrun as <-.
  - cbn in Hrun. destruct (g b a) as [a1|] eqn:Hb.
    + transitivity a1.
      * apply (Hstep b); [by left | done].
      * apply IH; [|done]. intros b' x y Hin. apply Hstep. by right.
    + by rewrite foldl_mbind_None in Hrun.
Qed.

Lemma foldl_mbind_split (l1 : list B) (b : B) (l2 : list B) (a r : A) :
  foldl (fun acc b => acc ≫= g b) (Some a) (l1 ++ b :: l2) = Some r ->
  exists a1 a2,
    foldl (fun acc b => acc ≫= g b) (Some a) l1 = Some a1
    ∧ g b a1 = Some a2
    ∧ foldl (fun acc b => acc ≫= g b) (Some a2) l2 = Some r.
Proof.
  rewrite foldl_app. cbn.
  destruct (foldl (fun acc b => acc ≫= g b) (Some a) l1) as [a1|]; cbn.
  - destruct (g b a1) as [a2|] eqn:Hb.
    + intros Hrun. by exists a1, a2.
    + by rewrite foldl_mbind_None.
  - by rewrite foldl_mbind_None.
Qed.

Lemma foldl_mbind_is_Some (l : list B) (a : A) :
  (forall b x, b ∈ l -> is_Some (g b x)) ->
  is_Some (foldl (fun acc b => acc ≫= g b) (Some a) l).
Proof.
  revert a. induction l as [|b l IH]; intros a H; [by eexists |].
  cbn. destruct (H b a) as [a1 ->]; [by left |].
  apply IH. intros b' x Hin. apply H. by right.
Qed.

End OptionFold.

#[local] Instance grows_refl : Reflexive grows.
Proof. intros a. by split. Qed.

#[local] Instance grows_trans : Transitive grows.
Proof. intros a b c [? ?] [? ?]. split; by etransitivity. Qed.

Lemma createChildrenRemovalChanges_S (fuel : nat) (s : State) (rce : bool) (id : string)
    (changes : list NodeChange * list EdgeChange) :
  createChildrenRemovalChanges (S fuel) s rce id changes
  = let children := filter (fun n => gn_parentNode n = Some id) (nodes s) in
    if hasLength children then
      foldl (fun acc child =>
               acc ≫= createChildrenRemovalChanges fuel s rce (gn_id child))
            (Some (changes.1 ++ map createNodeRemoveChange (map gn_id children),
                   if rce
                   then createEdgeRemovalChanges s (map nodeRest children) changes.2
                   else changes.2))
            children
    else Some changes.
Proof. reflexivity. Qed.

Lemma createEdgeRemovalChanges_grows (s : State) (l : list Node) (ec : list EdgeChange) :
  ec ⊆ createEdgeRemovalChanges s l ec.
Proof. intros c Hc. unfold createEdgeRemovalChanges. apply elem_of_app. by left. Qed.

Lemma createEdgeRemovalChanges_covers (s : State) (l : list Node) (ec : list EdgeChange)
    (n : Node) (e : GraphEdge) :
  n ∈ l -> e ∈ edges s -> flagOrTrue (ge_deletable e) = true -> incidentOn e (n_id n) ->
  edgeRemoveChangeOf e ∈ createEdgeRemovalChanges s l ec.
Proof.
  intros Hn He Hdel Hinc. unfold createEdgeRemovalChanges.
  apply elem_of_app. right. apply list_elem_of_fmap_2.
  apply list_elem_of_filter. split; [done |].
  unfold getConnectedEdges, getConnectedEdgesBase.
  apply list_elem_of_filter. split; [|done].
  destruct Hinc as [Hsrc|Htgt]; [left; rewrite Hsrc | right; rewrite Htgt];
    by apply (list_elem_of_fmap_2 n_id).
Qed.



Lemma createChildrenRemovalChanges_grows (s : State) (rce : bool) (fuel : nat) :
  forall id changes changes',
    createChildrenRemovalChanges fuel s rce id changes = Some changes' ->
    grows changes changes'.
Proof.
  induction fuel as [|fuel IH]; intros id changes changes' Hrun; [done |].
  rewrite createChildrenRemovalChanges_S in Hrun. cbv zeta in Hrun.
  destruct (hasLength _); [|by injection Hrun as <-].
  transitivity
    (changes.1 ++ map createNodeRemoveChange
                    (map gn_id (filter (fun n => gn_parentNode n = Some id) (nodes s))),
     if rce
     then createEdgeRemovalChanges s
            (map nodeRest (filter (fun n => gn_parentNode n = Some id) (nodes s)))
            changes.2
     else changes.2).
  - split; cbn.
    + intros c Hc. apply elem_of_app. by left.
    + destruct rce; [apply createEdgeRemovalChanges_grows | done].
  - eapply (foldl_mbind_inv
              (fun child => createChildrenRemovalChanges fuel s rce (gn_id child)) grows);
      [|exact Hrun].
    intros child x y _. apply IH.
Qed.

Lemma createChildrenRemovalChanges_grows_fold (s : State) (rce : bool) (fuel : nat)
    (children : list GraphNode) (a r : list NodeChange * list EdgeChange) :
  foldl (fun acc child => acc ≫= createChildrenRemovalChanges fuel s rce (gn_id child))
        (Some a) children = Some r ->
  grows a r.
Proof.
  apply (foldl_mbind_inv
           (fun child => createChildrenRemovalChanges fuel s rce (gn_id child)) grows).
  intros child x y _. apply createChildrenRemovalChanges_grows.
Qed.

#[local] Instance staysAccounted_refl s : Reflexive (staysAccounted s).
Proof. intros a Ha. exact Ha. Qed.

#[local] Instance staysAccounted_trans s : Transitive (staysAccounted s).
Proof. unfold staysAccounted. intros a b c Hab Hbc Ha. by apply Hbc, Hab. Qed.


Lemma createChildrenRemovalChanges_terminates (s : State) (rce : bool)
    (root : string) (rank : string -> nat) :
  parentRankBelow s root rank ->
  forall fuel id changes,
    id = root ∨ (exists d, descendant s root d ∧ gn_id d = id) ->
    rank id < fuel -> is_Some (createChildrenRemovalChanges fuel s rce id changes).
Proof.
  intros Hrank. induction fuel as [|fuel IH]; intros id changes Hid Hfuel; [lia |].
  rewrite createChildrenRemovalChanges_S. cbv zeta.
  destruct (hasLength _); [|by eexists].
  apply (foldl_mbind_is_Some
           (fun child => createChildrenRemovalChanges fuel s rce (gn_id child))).
  intros child x Hchild. apply list_elem_of_filter in Hchild as [Hparent Hin].
  apply IH.
  - right. exists child. split; [|done].
    destruct Hid as [->|(d & Hd & <-)].
    + by apply descendant_child.
    + by apply (descendant_below s root child d).
  - specialize (Hrank child id Hin Hparent Hid). lia.
Qed.

Lemma createChildrenRemovalChanges_covers (s : State) (rce : bool) (root : string)
    (n : GraphNode) :
  below s root n ->
  forall fuel changes changes',
    createChildrenRemovalChanges fuel s rce root changes = Some changes' ->
    NodeRemoveChange (gn_id n) ∈ changes'.1
    ∧ (rce = true ->
       forall e, e ∈ edges s -> flagOrTrue (ge_deletable e) = true ->
                 incidentOn e (gn_id n) -> edgeRemoveChangeOf e ∈ changes'.2).
Proof.
  induction 1 as [root n Hin Hparent | root c n Hin Hparent Hbelow IH];
    intros [|fuel] changes changes' Hrun; try done;
    rewrite createChildrenRemovalChanges_S in Hrun; cbv zeta in Hrun.
  - assert (n ∈ filter (fun m => gn_parentNode m = Some root) (nodes s)) as Hn
      by (by apply list_elem_of_filter).
    set (children := filter (fun m => gn_parentNode m = Some root) (nodes s)) in *.
    assert (hasLength children = true) as Hlen
      by (destruct children; [by apply elem_of_nil in Hn | done]).
    rewrite Hlen in Hrun.
    apply createChildrenRemovalChanges_grows_fold in Hrun as [Hg1 Hg2].
    cbn [fst snd] in Hg1, Hg2.
    split.
    + apply Hg1. apply elem_of_app. right.
      apply (list_elem_of_fmap_2 createNodeRemoveChange).
      by apply (list_elem_of_fmap_2 gn_id).
    + intros -> e He Hdel Hinc. apply Hg2.
      apply (createEdgeRemovalChanges_covers s _ _ (nodeRest n)); try done.
      by apply (list_elem_of_fmap_2 nodeRest).
  - assert (c ∈ filter (fun m => gn_parentNode m = Some root) (nodes s)) as Hc
      by (by apply list_elem_of_filter).
    set (children := filter (fun m => gn_parentNode m = Some root) (nodes s)) in *.
    assert (hasLength children = true) as Hlen
      by (destruct children; [by apply elem_of_nil in Hc | done]).
    rewrite Hlen in Hrun.
    apply list_elem_of_split in Hc as (l1 & l2 & Hsplit). rewrite Hsplit in Hrun.
    apply (foldl_mbind_split
             (fun child => createChildrenRemovalChanges fuel s rce (gn_id child)))
      in Hrun as (a1 & a2 & _ & Hcall & Hrest).
    destruct (IH _ _ _ Hcall) as [Hn Hedges].
    apply createChildrenRemovalChanges_grows_fold in Hrest as [Hg1 Hg2].
    split; [by apply Hg1 |].
    intros Hrce e He Hdel Hinc. apply Hg2. by apply Hedges.
Qed.

Lemma below_snoc (s : State) (root : string) (p n : GraphNode) :
  below s root p -> n ∈ nodes s -> gn_parentNode n = Some (gn_id p) -> below s root n.
Proof.
  induction 1 as [root p Hp Hparent | root c p Hc Hparent _ IH]; intros Hn Hn'.
  - apply (below_deeper s root p n); [done | done |]. by apply below_child.
  - apply (below_deeper s root c n); [done | done |]. by apply IH.
Qed.

Lemma descendant_is_below (s : State) (root : string) (n : GraphNode) :
  descendant s root n -> below s root n.
Proof.
  induction 1 as [n Hn Hparent | n p Hn _ IH Hparent].
  - by apply below_child.
  - by apply (below_snoc s root p n).
Qed.

Lemma descendant_lift (s : State) (root : string) (c n : GraphNode) :
  c ∈ nodes s -> gn_parentNode c = Some root -> descendant s (gn_id c) n ->
  descendant s root n.
Proof.
  intros Hc Hparent. induction 1 as [n Hn Hn' | n p Hn _ IH Hn'].
  - apply (descendant_below s root n c); [done | | done]. by apply descendant_child.
  - by apply (descendant_below s root n p).
Qed.

Lemma below_is_descendant (s : State) (root : string) (n : GraphNode) :
  below s root n -> descendant s root n.
Proof.
  induction 1 as [root n Hn Hparent | root c n Hc Hparent _ IH].
  - by apply descendant_child.
  - by apply (descendant_lift s root c n).
Qed.

Lemma flagOrTrue_true (d : option bool) : flagOrTrue d = true <-> d ≠ Some false.
Proof. destruct d as [[]|]; cbn; split; done. Qed.

Lemma emit_changes_run (ec : list EdgeChange) (nc : list NodeChange) (s : State) :
  (when (hasLength ec) (trigger (EdgesChange ec)) ;;
   when (hasLength nc) (trigger (NodesChange nc))) s
  = (tt, s, notifyIf EdgesChange ec ++ notifyIf NodesChange nc).
Proof. unfold bind, when, notifyIf. by destruct (hasLength ec), (hasLength nc). Qed.





Lemma removeNodes_loop_skips (fuel : nat) (s : State) (rce rc : bool)
    (items : list (string + Node)) (acc : option (list NodeChange * list EdgeChange)) :
  foldl (fun acc item =>
           acc ≫= fun changes => removeNodes_item fuel s rce rc changes item)
        acc items
  = foldl (fun acc item =>
             acc ≫= fun changes => removeNodes_item fuel s rce rc changes item)
          acc (List.filter (fun item => negb (skippedTarget s item)) items).
Proof.
  revert acc. induction items as [|item items IH]; intros acc; [done |].
  cbn [foldl List.filter].
  destruct (skippedTarget s item) eqn:Hskip; cbn [negb foldl]; [|apply IH].
  rewrite <- IH. f_equal. destruct acc as [changes|]; [|done]. cbn.
  unfold removeNodes_item. unfold skippedTarget in Hskip.
  destruct (currNodeOf s item) as [t|]; [|done].
  by destruct (n_deletable t) as [[]|].
Qed.



(** C3 (as amended).  Take a target that [removeNodes] resolves to a node
    whose [deletable] flag is not false, in a store where the parent links
    below the target have no cycle (elsewhere they may).  Called on that
    target with [removeConnectedEdges] and [removeChildren] both true,
    [removeNodes] returns having triggered first [edgesChange] (when there
    is an edge change at all) and then [nodesChange], each once; the node
    changes hold a remove change for the target and for every node whose
    parent chain reaches the target; the edge changes hold a remove change
    for every edge whose [deletable] flag is not false and that is incident
    on the target or on such a node.  A target that does not resolve, or
    whose [deletable] flag is false, is passed over: whatever the flags of
    the call, [removeNodes] does what it does without that target in the
    list, and a call with no other target returns with the state as it was
    and nothing triggered. *)
Theorem removeNodes_cascades_to_descendants_and_edges (s : State) (rank : string -> nat)
    (fuel : nat) (arg : OrFunction (list GraphNode) (MaybeArray (string + Node)))
    (item : string + Node) (t : Node) :
  (parentRankBelow s (n_id t) rank ->
   rank (n_id t) < fuel ->
   toArray (resolve arg (nodes s)) = [item] ->
   currNodeOf s item = Some t ->
   n_deletable t ≠ Some false ->
   exists nc ec,
     removeNodes fuel arg (Some true) (Some true) s
     = Some (tt, s, notifyIf EdgesChange ec ++ [NodesChange nc])
     ∧ NodeRemoveChange (n_id t) ∈ nc
     ∧ (forall d, descendant s (n_id t) d -> NodeRemoveChange (gn_id d) ∈ nc)
     ∧ (forall e, e ∈ edges s -> ge_deletable e ≠ Some false ->
                  incidentOn e (n_id t)
                  ∨ (exists d, descendant s (n_id t) d ∧ incidentOn e (gn_id d)) ->
                  edgeRemoveChangeOf e ∈ ec))
  ∧ (forall removeConnectedEdges removeChildren,
        removeNodes fuel arg removeConnectedEdges removeChildren s
        = removeNodes fuel
            (Literal (Array (List.filter (fun item => negb (skippedTarget s item))
                                         (toArray (resolve arg (nodes s))))))
            removeConnectedEdges removeChildren s)
  ∧ (forall removeConnectedEdges removeChildren,
        Forall (fun item => skippedTarget s item = true) (toArray (resolve arg (nodes s))) ->
        removeNodes fuel arg removeConnectedEdges removeChildren s = Some (tt, s, [])).
Proof.
  assert (forall rce rc,
             removeNodes fuel arg rce rc s
             = removeNodes fuel
                 (Literal (Array (List.filter (fun item => negb (skippedTarget s item))
                                              (toArray (resolve arg (nodes s))))))
                 rce rc s) as Hskip.
  { intros rce rc. unfold removeNodes. cbn [resolve toArray].
    by rewrite removeNodes_loop_skips. }
  split; [|split; [exact Hskip |]].
  - intros Hrank Hfuel Hitems Hcurr Hdel.
    destruct (createChildrenRemovalChanges_terminates s true (n_id t) rank Hrank fuel (n_id t)
                ([createNodeRemoveChange (n_id t)], createEdgeRemovalChanges s [t] [])
                (or_introl eq_refl) Hfuel) as [[nc ec] Hrun].
    assert (removeNodes_item fuel s true true ([], []) item = Some (nc, ec)) as Hitem.
    { unfold removeNodes_item. rewrite Hcurr. by destruct (n_deletable t) as [[]|]. }
    destruct (createChildrenRemovalChanges_grows s true fuel _ _ _ Hrun) as [Hg1 Hg2].
    cbn [fst snd] in Hg1, Hg2.
    assert (NodeRemoveChange (n_id t) ∈ nc) as Htarget by (apply Hg1; by left).
    exists nc, ec. split; [|split; [done | split]].
    + unfold removeNodes. rewrite Hitems. cbn -[removeNodes_item bind when].
      rewrite Hitem. cbn -[bind when]. rewrite emit_changes_run. unfold notifyIf at 2.
      destruct nc; [by apply elem_of_nil in Htarget | done].
    + intros d Hd. apply descendant_is_below in Hd.
      by destruct (createChildrenRemovalChanges_covers s true _ _ Hd _ _ _ Hrun).
    + intros e He Hflag [Hinc | (d & Hd & Hinc)].
      * apply Hg2.
        apply (createEdgeRemovalChanges_covers s [t] [] t); try done; [by left |].
        by apply flagOrTrue_true.
      * apply descendant_is_below in Hd.
        destruct (createChildrenRemovalChanges_covers s true _ _ Hd _ _ _ Hrun) as [_ Hedges].
        apply Hedges; try done. by apply flagOrTrue_true.
  - intros rce rc Hall. rewrite Hskip.
    assert (List.filter (fun item => negb (skippedTarget s item))
                        (toArray (resolve arg (nodes s))) = []) as ->.
    { clear Hskip. induction Hall as [|skipped items Hskipped _ IH]; [done |].
      cbn. by rewrite Hskipped. }
    reflexivity.
Qed.


(** *** Deprecated getters *)


(** *** The connection gesture *)

(** C8.  [endConnection] always leaves [connectionPosition] at NaN/NaN and
    [connectionEndHandle] and [connectionStatus] at null; called with a
    true [isClick] it clears [connectionClickStartHandle] and keeps
    [connectionStartHandle], otherwise it clears [connectionStartHandle]
    and keeps [connectionClickStartHandle].  It triggers nothing and leaves
    the collections alone. *)
Theorem endConnection_resets_gesture (s : State) (event : option GestureEvent)
    (isClick : option bool) :
  let s' := exec (endConnection event isClick) s in
  connectionPosition s' = {| x := NaN; y := NaN |}
  ∧ connectionEndHandle s' = None
  ∧ connectionStatus s' = None
  ∧ (if default false isClick
     then connectionClickStartHandle s' = None
          ∧ connectionStartHandle s' = connectionStartHandle s
     else connectionStartHandle s' = None
          ∧ connectionClickStartHandle s' = connectionClickStartHandle s)
  ∧ nodes s' = nodes s ∧ edges s' = edges s
  ∧ events (endConnection event isClick) s = [].
Proof. destruct isClick as [[]|]; repeat split. Qed.

(** A click start and a drag start are written to different fields; the
    other one is left as it was. *)
Lemma startConnection_tracks_starts_separately (s : State) (startHandle : ConnectingHandle)
    (position : option XYPosition) (event : option GestureEvent) (isClick : option bool) :
  let s' := exec (startConnection startHandle position event isClick) s in
  connectionEndHandle s' = None
  ∧ connectionStatus s' = None
  ∧ connectionPosition s' = default (connectionPosition s) position
  ∧ if default false isClick
    then connectionClickStartHandle s' = Some startHandle
         ∧ connectionStartHandle s' = connectionStartHandle s
    else connectionStartHandle s' = Some startHandle
         ∧ connectionClickStartHandle s' = connectionClickStartHandle s.
Proof. destruct isClick as [[]|], position; repeat split. Qed.

(** *** The guard of the full-collection setters *)

(** C9.  When the store is not initialized and the supplied collection is
    empty, [setNodes], [setEdges] and [setElements] each return with the
    state as it was (collections and lookup index included) and trigger
    nothing. *)
Theorem setters_noop_when_uninitialized_and_empty (s : State)
    (nodesArg : OrFunction (list GraphNode) (list Node))
    (edgesArg : OrFunction (list GraphEdge) (list Edge))
    (elementsArg : OrFunction (list GraphElement) (list Element)) :
  initialized s = false ->
  resolve nodesArg (nodes s) = [] ->
  resolve edgesArg (edges s) = [] ->
  resolve elementsArg (map GraphNodeElement (nodes s) ++ map GraphEdgeElement (edges s)) = [] ->
  setNodes nodesArg s = (tt, s, [])
  ∧ setEdges edgesArg s = (tt, s, [])
  ∧ setElements elementsArg s = (tt, s, []).
Proof.
  intros Hinit Hn He Hel.
  unfold setNodes, setEdges, setElements, bind, get; simpl.
  by rewrite Hinit, Hn, He, Hel.
Qed.

(** *** Selection of edges and elements, unselection *)

Lemma deliver_selection_lists (nodeIds edgeIds : list string) (v w : bool) (s : State) :
  nodes (deliver (notifyIf NodesChange (nodeSelectionOf nodeIds v)
                  ++ notifyIf EdgesChange (edgeSelectionOf edgeIds w)) s)
  = map (fun n => if bool_decide (gn_id n ∈ nodeIds) then gn_with_selected v n else n)
        (nodes s)
  ∧ edges (deliver (notifyIf NodesChange (nodeSelectionOf nodeIds v)
                    ++ notifyIf EdgesChange (edgeSelectionOf edgeIds w)) s)
    = map (fun e => if bool_decide (ge_id e ∈ edgeIds) then ge_with_selected w e else e)
          (edges s).
Proof.
  destruct (deliver_changes (nodeSelectionOf nodeIds v) (edgeSelectionOf edgeIds w) s)
    as [-> ->].
  split.
  - exact (foldl_select_nodes (fun _ => v) nodeIds (nodes s)).
  - exact (foldl_select_edges (fun _ => w) edgeIds (edges s)).
Qed.

Lemma deliver_full_selection (ids : list string) (s : State) :
  nodes (deliver (notifyIf NodesChange (fullNodeSelection s ids)
                  ++ notifyIf EdgesChange (fullEdgeSelection s ids)) s)
  = map (fun n => gn_with_selected (bool_decide (gn_id n ∈ ids)) n) (nodes s)
  ∧ edges (deliver (notifyIf NodesChange (fullNodeSelection s ids)
                    ++ notifyIf EdgesChange (fullEdgeSelection s ids)) s)
    = map (fun e => ge_with_selected (bool_decide (ge_id e ∈ ids)) e) (edges s).
Proof.
  destruct (deliver_changes (fullNodeSelection s ids) (fullEdgeSelection s ids) s)
    as [-> ->].
  pose (value := fun i : string => bool_decide (i ∈ ids)).
  split.
  - exact (foldl_select_all_nodes value (nodes s)).
  - exact (foldl_select_all_edges value (edges s)).
Qed.

Lemma edgeSelectionHandler_run (targets : list GraphEdge) (selected : bool) (s : State) :
  edgeSelectionHandler targets selected s
  = (tt, s,
     if multiSelectionActive s
     then notifyIf NodesChange (nodeSelectionOf [] selected)
          ++ notifyIf EdgesChange (edgeSelectionOf (map ge_id targets) selected)
     else notifyIf NodesChange (fullNodeSelection s (map ge_id targets))
          ++ notifyIf EdgesChange (fullEdgeSelection s (map ge_id targets))).
Proof.
  unfold edgeSelectionHandler, bind, get. cbn.
  destruct (multiSelectionActive s).
  - cbn. unfold notifyIf, when, edgeSelectionOf. by destruct (hasLength _).
  - rewrite getSelectionChanges_all. cbn.
    unfold notifyIf, when, fullNodeSelection, fullEdgeSelection.
    by do 2 destruct (hasLength _).
Qed.

Lemma elementSelectionHandler_run (elements : list Element) (selected : bool) (s : State) :
  elementSelectionHandler elements selected s
  = (tt, s,
     if multiSelectionActive s
     then notifyIf NodesChange (nodeSelectionOf (map n_id (filterNodes elements)) selected)
          ++ notifyIf EdgesChange (edgeSelectionOf (map e_id (filterEdges elements)) selected)
     else notifyIf NodesChange
            (fullNodeSelection s (map n_id (filterNodes elements)
                                  ++ map e_id (filterEdges elements)))
          ++ notifyIf EdgesChange
               (fullEdgeSelection s (map n_id (filterNodes elements)
                                     ++ map e_id (filterEdges elements)))).
Proof.
  unfold elementSelectionHandler, bind, get. cbn.
  destruct (multiSelectionActive s).
  - cbn. unfold notifyIf, when, nodeSelectionOf, edgeSelectionOf.
    by do 2 destruct (hasLength _).
  - rewrite getSelectionChanges_all. cbn.
    unfold notifyIf, when, fullNodeSelection, fullEdgeSelection.
    by do 2 destruct (hasLength _).
Qed.

(** [addSelectedEdges] mirrors [addSelectedNodes].  In single-selection
    mode every node and every edge of the store gets one change, select
    exactly when its id is the id of a target edge, so that afterwards the
    selected elements are the ones with such an id; in multi-selection mode
    only [edgesChange] is triggered, with a select change per target id,
    and the nodes and the other edges keep their flag. *)
Theorem addSelectedEdges_selects_exactly_targets (s : State) (targets : list GraphEdge) :
  let ids := map ge_id targets in
  let log := events (addSelectedEdges targets) s in
  let s' := deliver log (exec (addSelectedEdges targets) s) in
  exec (addSelectedEdges targets) s = s
  ∧ if multiSelectionActive s
    then log = notifyIf EdgesChange (edgeSelectionOf ids true)
         ∧ nodes s' = nodes s
         ∧ edges s' = map (fun e => if bool_decide (ge_id e ∈ ids)
                                    then ge_with_selected true e else e) (edges s)
    else log = notifyIf NodesChange (fullNodeSelection s ids)
               ++ notifyIf EdgesChange (fullEdgeSelection s ids)
         ∧ nodes s' = map (fun n => gn_with_selected (bool_decide (gn_id n ∈ ids)) n)
                          (nodes s)
         ∧ edges s' = map (fun e => ge_with_selected (bool_decide (ge_id e ∈ ids)) e)
                          (edges s).
Proof.
  intros ids log s'. subst log s'. unfold addSelectedEdges, exec, events.
  rewrite edgeSelectionHandler_run. cbn [fst snd]. fold ids.
  split; [done |].
  destruct (multiSelectionActive s).
  - split; [done |].
    destruct (deliver_selection_lists [] ids true true s) as [-> ->].
    split; [|done]. rewrite <- (map_id (nodes s)) at 2. by apply map_ext.
  - split; [done |]. apply deliver_full_selection.
Qed.

(** [addSelectedElements] takes nodes and edges together.  In
    single-selection mode the outcome is the one of the two actions above
    with the ids of all targets; in multi-selection mode the target nodes
    get a select change on [nodesChange] and the target edges one on
    [edgesChange], and every other element keeps its flag. *)
Theorem addSelectedElements_selects_exactly_targets (s : State) (targets : list Element) :
  let nodeIds := map n_id (filterNodes targets) in
  let edgeIds := map e_id (filterEdges targets) in
  let log := events (addSelectedElements targets) s in
  let s' := deliver log (exec (addSelectedElements targets) s) in
  exec (addSelectedElements targets) s = s
  ∧ if multiSelectionActive s
    then log = notifyIf NodesChange (nodeSelectionOf nodeIds true)
               ++ notifyIf EdgesChange (edgeSelectionOf edgeIds true)
         ∧ nodes s' = map (fun n => if bool_decide (gn_id n ∈ nodeIds)
                                    then gn_with_selected true n else n) (nodes s)
         ∧ edges s' = map (fun e => if bool_decide (ge_id e ∈ edgeIds)
                                    then ge_with_selected true e else e) (edges s)
    else log = notifyIf NodesChange (fullNodeSelection s (nodeIds ++ edgeIds))
               ++ notifyIf EdgesChange (fullEdgeSelection s (nodeIds ++ edgeIds))
         ∧ nodes s' = map (fun n => gn_with_selected
                                      (bool_decide (gn_id n ∈ nodeIds ++ edgeIds)) n)
                          (nodes s)
         ∧ edges s' = map (fun e => ge_with_selected
                                      (bool_decide (ge_id e ∈ nodeIds ++ edgeIds)) e)
                          (edges s).
Proof.
  intros nodeIds edgeIds log s'. subst log s'. unfold addSelectedElements, exec, events.
  rewrite elementSelectionHandler_run. cbn [fst snd]. fold nodeIds. fold edgeIds.
  split; [done |].
  destruct (multiSelectionActive s).
  - split; [done |]. apply deliver_selection_lists.
  - split; [done |]. apply deliver_full_selection.
Qed.

Lemma removeSelectedElements_fold (elements : list Element)
    (changes : list NodeChange * list EdgeChange) :
  foldl removeSelectedElements_step changes elements
  = (changes.1 ++ nodeSelectionOf (map n_id (filterNodes elements)) false,
     changes.2 ++ edgeSelectionOf (map e_id (filterEdges elements)) false).
Proof.
  revert changes. induction elements as [|el elements IH]; intros [nc ec].
  - cbn. by rewrite !app_nil_r.
  - cbn [foldl]. rewrite IH. destruct el; cbn; by rewrite <- ?app_assoc.
Qed.

(** Called with a list that is not empty, the three unselect actions do the
    same in both selection modes: one unselect change per listed element,
    nodes on [nodesChange] and edges on [edgesChange], and nothing for any
    other element; so afterwards the listed ids are unselected and every
    other element keeps its flag. *)
Theorem removeSelected_unselects_only_listed (s : State) (targetNodes : list GraphNode)
    (targetEdges : list GraphEdge) (targets : list Element) :
  targetNodes ≠ [] -> targetEdges ≠ [] -> targets ≠ [] ->
  (removeSelectedNodes targetNodes s
   = (tt, s, [NodesChange (nodeSelectionOf (map gn_id targetNodes) false)])
   ∧ removeSelectedEdges targetEdges s
     = (tt, s, [EdgesChange (edgeSelectionOf (map ge_id targetEdges) false)])
   ∧ removeSelectedElements (Some targets) s
     = (tt, s, notifyIf NodesChange (nodeSelectionOf (map n_id (filterNodes targets)) false)
               ++ notifyIf EdgesChange
                    (edgeSelectionOf (map e_id (filterEdges targets)) false)))
  ∧ (let s' := deliver (events (removeSelectedElements (Some targets)) s) s in
     nodes s' = map (fun n => if bool_decide (gn_id n ∈ map n_id (filterNodes targets))
                              then gn_with_selected false n else n) (nodes s)
     ∧ edges s' = map (fun e => if bool_decide (ge_id e ∈ map e_id (filterEdges targets))
                                then ge_with_selected false e else e) (edges s)).
Proof.
  intros Hn He Ht.
  assert (removeSelectedElements (Some targets) s
          = (tt, s, notifyIf NodesChange (nodeSelectionOf (map n_id (filterNodes targets)) false)
                    ++ notifyIf EdgesChange
                         (edgeSelectionOf (map e_id (filterEdges targets)) false))) as Hrun.
  { unfold removeSelectedElements. destruct targets as [|t targets]; [done |].
    cbn [hasLength negb]. rewrite removeSelectedElements_fold. cbn [fst snd app].
    unfold bind, when, notifyIf. by do 2 destruct (hasLength _). }
  split; [split; [|split; [|exact Hrun]] |].
  - destruct targetNodes as [|n l]; [done |]. reflexivity.
  - destruct targetEdges as [|e l]; [done |]. reflexivity.
  - unfold events. rewrite Hrun. cbn [snd]. apply deliver_selection_lists.
Qed.

(** Called with nothing to unselect (an empty list, or no list at all for
    [removeSelectedElements]), the unselect actions fall back to the
    selection handlers with no target: in multi-selection mode nothing is
    triggered, in single-selection mode every node and every edge of the
    store gets an unselect change, so that nothing is selected afterwards. *)
Theorem removeSelected_nothing_clears_in_single_mode (s : State) :
  let log := if multiSelectionActive s then []
             else notifyIf NodesChange (fullNodeSelection s [])
                  ++ notifyIf EdgesChange (fullEdgeSelection s []) in
  removeSelectedNodes [] s = (tt, s, log)
  ∧ removeSelectedEdges [] s = (tt, s, log)
  ∧ removeSelectedElements None s = (tt, s, log)
  ∧ removeSelectedElements (Some []) s = (tt, s, log)
  ∧ (if multiSelectionActive s then deliver log s = s
     else nodes (deliver log s) = map (gn_with_selected false) (nodes s)
          ∧ edges (deliver log s) = map (ge_with_selected false) (edges s)).
Proof.
  intros log. subst log.
  unfold removeSelectedNodes, removeSelectedEdges, removeSelectedElements.
  cbn [hasLength negb].
  rewrite nodeSelectionHandler_run, edgeSelectionHandler_run, elementSelectionHandler_run.
  cbn [map filterNodes filterEdges omap list_omap app].
  destruct (multiSelectionActive s); [by repeat split |].
  repeat split; apply (deliver_full_selection [] s).
Qed.

(** *** Removal without the descent into children, or without the edges *)



#[local] Instance sameEdgeChanges_refl : Reflexive sameEdgeChanges.
Proof. by intros a. Qed.

#[local] Instance sameEdgeChanges_trans : Transitive sameEdgeChanges.
Proof. unfold sameEdgeChanges. intros a b c Hab Hbc. by rewrite Hab. Qed.

Lemma createChildrenRemovalChanges_no_edges (s : State) (fuel : nat) :
  forall id changes changes',
    createChildrenRemovalChanges fuel s false id changes = Some changes' ->
    sameEdgeChanges changes changes'.
Proof.
  induction fuel as [|fuel IH]; intros id changes changes' Hrun; [done |].
  rewrite createChildrenRemovalChanges_S in Hrun. cbv zeta in Hrun.
  destruct (hasLength _); [|by injection Hrun as <-].
  apply (foldl_mbind_inv
           (fun child => createChildrenRemovalChanges fuel s false (gn_id child))
           sameEdgeChanges) in Hrun; [done |].
  intros child x y _. apply IH.
Qed.

(** With [removeConnectedEdges] false, [removeNodes] triggers nothing on
    [edgesChange], however deep it descends: what it triggers, if anything,
    is one batch of node changes. *)
Theorem removeNodes_without_edges_triggers_no_edge_change (fuel : nat) (s : State)
    (arg : OrFunction (list GraphNode) (MaybeArray (string + Node)))
    (removeChildren : option bool) (r : unit * State * list Event) :
  removeNodes fuel arg (Some false) removeChildren s = Some r ->
  exists nodeChanges, r = (tt, s, notifyIf NodesChange nodeChanges).
Proof.
  unfold removeNodes. cbn [default from_option id].
  destruct (foldl _ _ _) as [[nc ec]|] eqn:Hloop; [|done].
  cbn -[bind when]. rewrite emit_changes_run. intros [= <-].
  apply (foldl_mbind_inv
           (fun item changes =>
              removeNodes_item fuel s false (default false removeChildren) changes item)
           sameEdgeChanges) in Hloop.
  - unfold sameEdgeChanges in Hloop. cbn in Hloop. subst ec. by exists nc.
  - intros item x y _. unfold removeNodes_item.
    destruct (currNodeOf s item) as [t|]; [|by intros [= <-]].
    destruct (n_deletable t) as [[]|]; try (by intros [= <-]);
      destruct (default false removeChildren); try (by intros [= <-]);
      intros Hrun; by apply createChildrenRemovalChanges_no_edges in Hrun.
Qed.

(** *** The connection gesture, continued *)

(** [updateConnection] looks at [connectionStartHandle] only.  While no
    drag-started connection is pending it changes nothing, so the updates
    of a connection started by a click (from an idle state) are ignored;
    with a drag start pending it stores the position, the candidate end
    handle and the status, and leaves the two start handles alone. *)
Theorem updateConnection_needs_drag_start (s : State) (position : XYPosition)
    (result' : option ConnectingHandle) (status : option ConnectionStatus)
    (startHandle : ConnectingHandle) (startPosition : option XYPosition)
    (event : option GestureEvent) :
  match connectionStartHandle s with
  | None =>
      updateConnection position result' status s = (tt, s, [])
      ∧ (let s1 := exec (startConnection startHandle startPosition event (Some true)) s in
         updateConnection position result' status s1 = (tt, s1, []))
  | Some _ =>
      let s' := exec (updateConnection position result' status) s in
      connectionPosition s' = position
      ∧ connectionEndHandle s' = result'
      ∧ connectionStatus s' = status
      ∧ connectionStartHandle s' = connectionStartHandle s
      ∧ connectionClickStartHandle s' = connectionClickStartHandle s
      ∧ nodes s' = nodes s ∧ edges s' = edges s
      ∧ events (updateConnection position result' status) s = []
  end.
Proof.
  destruct (connectionStartHandle s) as [h|] eqn:Hstart.
  - unfold exec, events, updateConnection, bind, get. cbn. rewrite Hstart. by cbn.
  - split.
    + unfold updateConnection, bind, get. cbn. by rewrite Hstart.
    + unfold updateConnection, bind, get. cbn [fst snd].
      assert (connectionStartHandle
                (exec (startConnection startHandle startPosition event (Some true)) s)
              = None) as ->; [|done].
      by destruct startPosition.
Qed.

(** *** Import of the viewport *)

Lemma setEdges_events (s : State) (arg : OrFunction (list GraphEdge) (list Edge)) :
  exists errors, events (setEdges arg) s = map Error errors.
Proof.
  unfold events. rewrite setEdges_run.
  destruct (_ && _); [by exists [] | by eexists].
Qed.

Lemma setNodes_events (s : State) (arg : OrFunction (list GraphNode) (list Node)) :
  exists errors, events (setNodes arg) s = map Error errors.
Proof.
  unfold events. rewrite setNodes_run.
  destruct (_ && _); [by exists [] | by eexists].
Qed.

Lemma setNodes_frame (s : State) (arg : OrFunction (list GraphNode) (list Node)) :
  set_nodes (nodes s) (exec (setNodes arg) s) = s.
Proof.
  unfold exec. rewrite setNodes_run. destruct (_ && _); by destruct s.
Qed.

Lemma setEdges_viewport (s : State) (arg : OrFunction (list GraphEdge) (list Edge)) :
  viewport (exec (setEdges arg) s) = viewport s.
Proof. unfold exec. rewrite setEdges_run. by destruct (_ && _). Qed.

Lemma setNodes_viewport (s : State) (arg : OrFunction (list GraphNode) (list Node)) :
  viewport (exec (setNodes arg) s) = viewport s.
Proof. unfold exec. rewrite setNodes_run. by destruct (_ && _). Qed.

(** What [fromObject] triggers: the errors of the two setters, then the
    viewport to restore, if the test on the viewport passes. *)
Lemma fromObject_events (obj : FlowExportObject) (s : State) :
  exists errors,
    events (fromObject obj) s
    = map Error errors
      ++ (if (match fo_viewport obj with
              | Some v => truthy (vx v) && truthy (vy v)
              | None => false
              end) || bool_decide (is_Some (fo_position obj))
          then match orElse (vx <$> fo_viewport obj) (fst <$> fo_position obj),
                     orElse (vy <$> fo_viewport obj) (snd <$> fo_position obj),
                     orElse (orElse (zoom <$> fo_viewport obj) (fo_zoom obj))
                            (Some (zoom (viewport s)))
               with
               | Some x, Some y, Some z =>
                   [UntilViewportInitialized {| vx := x; vy := y; zoom := z |}]
               | _, _, _ => []
               end
          else []).
Proof.
  unfold fromObject, events, bind, get.
  set (A := match fo_nodes obj with Some ns => setNodes (Literal ns) | None => ret tt end).
  set (B := match fo_edges obj with Some es => setEdges (Literal es) | None => ret tt end).
  assert (exists e1, (A s).2 = map Error e1 ∧ viewport (A s).1.2 = viewport s)
    as (e1 & He1 & Hv1).
  { subst A. destruct (fo_nodes obj) as [ns|].
    - destruct (setNodes_events s (Literal ns)) as [e1 He1]. exists e1.
      split; [exact He1 | apply setNodes_viewport].
    - by exists []. }
  assert (exists e2, (B (A s).1.2).2 = map Error e2
                     ∧ viewport (B (A s).1.2).1.2 = viewport (A s).1.2)
    as (e2 & He2 & Hv2).
  { subst B. destruct (fo_edges obj) as [es|].
    - destruct (setEdges_events (A s).1.2 (Literal es)) as [e2 He2]. exists e2.
      split; [exact He2 | apply setEdges_viewport].
    - by exists []. }
  destruct (A s) as [[[] s1] log1]. cbn [fst snd] in *.
  destruct (B s1) as [[[] s2] log2]. cbn [fst snd] in *.
  exists (e1 ++ e2). rewrite map_app, He1, He2, Hv2, Hv1. rewrite <- !app_assoc.
  do 2 f_equal.
  destruct (_ || _); [|done].
  repeat match goal with
         | |- context [match orElse ?a ?b with _ => _ end] => destruct (orElse a b)
         end; done.
Qed.

(** [fromObject] restores a viewport only when the object has a [position],
    or a [viewport] whose [x] and [y] are both truthy: an object without
    [position] whose viewport has a zero (or missing) coordinate restores
    nothing, whatever its zoom, and all that is triggered are the errors of
    the setters. *)
Theorem fromObject_skips_viewport_with_zero_coordinate (obj : FlowExportObject) (s : State) :
  fo_position obj = None ->
  match fo_viewport obj with
  | Some v => truthy (vx v) && truthy (vy v) = false
  | None => True
  end ->
  forall ev, ev ∈ events (fromObject obj) s -> exists e, ev = Error e.
Proof.
  intros Hpos Hview ev Hev.
  destruct (fromObject_events obj s) as [errors Hrun]. rewrite Hrun, Hpos in Hev.
  assert ((match fo_viewport obj with
           | Some v => truthy (vx v) && truthy (vy v)
           | None => false
           end) = false) as Hfalse.
  { by destruct (fo_viewport obj). }
  rewrite Hfalse in Hev. cbn in Hev. rewrite app_nil_r in Hev.
  apply list_elem_of_fmap_1 in Hev as (e & -> & _). by exists e.
Qed.

(** Importing the export of a store into that store hands over, after the
    errors of the setters, exactly the viewport the store has, when its
    three numbers are finite (zero included). *)
Theorem fromObject_toObject_restores_viewport (s : State) (x y z : Z) :
  viewport s = {| vx := Fin x; vy := Fin y; zoom := Fin z |} ->
  exists errors,
    events (fromObject (toObject s)) s
    = map Error errors ++ [UntilViewportInitialized (viewport s)].
Proof.
  intros Hview. destruct (fromObject_events (toObject s) s) as [errors Hrun].
  exists errors. rewrite Hrun. f_equal.
  unfold toObject, jsonExport. cbn. rewrite Hview. cbn. unfold orElse, truthy.
  destruct (x =? 0)%Z, (y =? 0)%Z, (z =? 0)%Z eqn:Hz; cbn; rewrite ?Hz; reflexivity.
Qed.

(** *** What the setters leave alone *)

(** [setNodes] writes to [state.nodes] and to nothing else: the edges stay
    as they are, with the source and target nodes cached in them, and so
    does the connection index; the edges are not validated against the new
    nodes, and only the errors of the node builder are triggered. *)
Theorem setNodes_leaves_edges_alone (s : State)
    (arg : OrFunction (list GraphNode) (list Node)) :
  set_nodes (nodes s) (exec (setNodes arg) s) = s
  ∧ edges (exec (setNodes arg) s) = edges s
  ∧ connectionLookup (exec (setNodes arg) s) = connectionLookup s
  ∧ (exists errors, events (setNodes arg) s = map Error errors)
  ∧ (initialized s || hasLength (resolve arg (nodes s)) = true ->
     nodes (exec (setNodes arg) s)
     = (createGraphNodes (resolve arg (nodes s)) (nodes s) (findNode s)).1).
Proof.
  split; [apply setNodes_frame |]. split; [|split; [|split; [apply setNodes_events |]]].
  - unfold exec. rewrite setNodes_run. by destruct (_ && _).
  - unfold exec. rewrite setNodes_run. by destruct (_ && _).
  - intros Hguard. unfold exec. rewrite setNodes_run.
    destruct (initialized s), (hasLength (resolve arg (nodes s))); done.
Qed.

(** [setElements] sets the nodes first and then the edges, so the edges of
    a call are checked against the nodes of the same call: when the node
    builder keeps the declared ids, an edge that passes the validity
    predicate is kept exactly when its source and its target are non-empty
    ids of nodes declared in that call. *)
Theorem setElements_checks_edges_against_its_nodes (s : State) (elements : list Element) :
  (forall l current find, map gn_id (createGraphNodes l current find).1 = map n_id l) ->
  initialized s || hasLength (filterNodes elements) = true ->
  initialized s || hasLength (filterEdges elements) = true ->
  let s1 := exec (setNodes (Literal (filterNodes elements))) s in
  let s' := exec (setElements (Literal elements)) s in
  edges s' = omap (retainedEdge s1) (validEdgesOf s1 (filterEdges elements))
  ∧ map gn_id (nodes s') = map n_id (filterNodes elements)
  ∧ forall e,
      is_Some (retainedEdge s1 e)
      <-> (e_source e ≠ "" ∧ e_source e ∈ map n_id (filterNodes elements))
          ∧ (e_target e ≠ "" ∧ e_target e ∈ map n_id (filterNodes elements)).
Proof.
  intros Hids Hn He s1 s'.
  assert (nodes s1 = (createGraphNodes (filterNodes elements) (nodes s) (findNode s)).1)
    as Hnodes1.
  { subst s1. unfold exec. rewrite setNodes_run. cbn [resolve].
    destruct (initialized s), (hasLength (filterNodes elements)); done. }
  assert (initialized s1 = initialized s) as Hinit1.
  { subst s1. unfold exec. rewrite setNodes_run. by destruct (_ && _). }
  assert (s' = exec (setEdges (Literal (filterEdges elements))) s1) as Hs'.
  { subst s' s1. unfold exec at 1. unfold setElements, bind, get. cbn [resolve fst snd].
    assert (negb (initialized s) && negb (hasLength elements) = false) as ->.
    { destruct (initialized s); [done |]. destruct elements; [done | done]. }
    unfold exec.
    destruct (setNodes (Literal (filterNodes elements)) s) as [[[] s1] l1].
    cbn [fst snd].
    by destruct (setEdges (Literal (filterEdges elements)) s1) as [[[] s2] l2]. }
  split; [|split].
  - rewrite Hs'. unfold exec. rewrite setEdges_run. cbn [resolve]. rewrite Hinit1.
    destruct (initialized s), (hasLength (filterEdges elements)); done.
  - rewrite Hs'. unfold exec. rewrite setEdges_run. cbn [resolve].
    destruct (_ && _); cbn; by rewrite Hnodes1, Hids.
  - intros e. unfold retainedEdge.
    pose proof (findNode_is_Some s1 (e_source e)) as Hsrc.
    pose proof (findNode_is_Some s1 (e_target e)) as Htgt.
    rewrite Hnodes1, Hids in Hsrc, Htgt.
    destruct (findNode s1 (e_source e)) as [sn|], (findNode s1 (e_target e)) as [tn|];
      split.
    all: try (intros _; split; [by apply Hsrc | by apply Htgt]).
    all: try (by intros _; eexists).
    all: try (by intros [? ?]).
    + intros [_ Hb]. apply Htgt in Hb. by destruct Hb.
    + intros [Ha _]. apply Hsrc in Ha. by destruct Ha.
    + intros [Ha _]. apply Hsrc in Ha. by destruct Ha.
Qed.

(** *** Measurements that are not taken *)

(** [updateNodeDimensions] ignores an update whose node is not found and an
    update that measures a width or a height of zero, forced or not: a call
    made of such updates leaves the state as it was and triggers no
    [nodesChange]. *)
Theorem updateNodeDimensions_ignores_zero_sizes (s : State)
    (updates : list UpdateNodeDimensionsParams) :
  (forall u, u ∈ updates ->
             findNode s (u_id u) = None
             ∨ truthy (width (getDimensions (u_nodeElement u))) = false
             ∨ truthy (height (getDimensions (u_nodeElement u))) = false) ->
  exec (updateNodeDimensions updates) s = s
  ∧ (forall ev, ev ∈ events (updateNodeDimensions updates) s -> ev = NextTickFitView).
Proof.
  intros H.
  assert (forall zoom res,
             reduce (updateNodeDimensions_step zoom) updates res s = (res, s, []))
    as Hreduce.
  { intros zoom. induction updates as [|u updates IH]; intros res; [done |].
    simpl. unfold bind.
    assert (updateNodeDimensions_step zoom res u s = (res, s, [])) as ->.
    { unfold updateNodeDimensions_step, bind, get. cbn.
      destruct (H u) as [Hnone | [Hw | Hh]]; [by left | | |].
      - by rewrite Hnone.
      - destruct (findNode s (u_id u)); [|done]. by rewrite Hw.
      - destruct (findNode s (u_id u)); [|done]. rewrite Hh. by rewrite andb_false_r. }
    rewrite IH; [done |]. intros u' Hu'. apply H. by right. }
  assert (exists log, updateNodeDimensions updates s = (tt, s, log)
                      ∧ (log = [] ∨ log = [NextTickFitView])) as (log & Hrun & Hlog).
  { unfold updateNodeDimensions, bind, get. cbn.
    destruct (vueFlowRef s) as [r|]; [|by exists []; split; [|left]]. cbn.
    destruct (querySelector r ".vue-flow__transformationpane") as [v|];
      [|by exists []; split; [|left]].
    rewrite Hreduce. cbn.
    destruct (negb (fitViewOnInitDone s) && fitViewOnInit s);
      eexists; (split; [reflexivity |]); [by right | by left]. }
  unfold exec, events. rewrite Hrun. cbn. split; [done |].
  intros ev Hev. destruct Hlog as [-> | ->].
  - by apply elem_of_nil in Hev.
  - by apply list_elem_of_singleton in Hev.
Qed.

(** *** Lookups after a write *)

Lemma foldl_insert_lookup {V} (entries : list (string * V)) (m : gmap string V)
    (id : string) :
  foldl (fun m kv => <[kv.1 := kv.2]> m) m entries !! id
  = match newMap entries !! id with
    | Some v => Some v
    | None => m !! id
    end.
Proof.
  induction entries as [|[k v] entries IH] using rev_ind.
  - unfold newMap. cbn. by rewrite lookup_empty.
  - rewrite newMap_snoc, foldl_app. cbn.
    destruct (decide (k = id)) as [->|Hne].
    + by rewrite !lookup_insert_eq.
    + by rewrite !lookup_insert_ne.
Qed.

Lemma newMap_app_lookup {V} (l1 l2 : list (string * V)) (id : string) :
  newMap (l1 ++ l2) !! id
  = match newMap l2 !! id with
    | Some v => Some v
    | None => newMap l1 !! id
    end.
Proof. unfold newMap at 1. rewrite foldl_app. apply foldl_insert_lookup. Qed.

Lemma newMap_cons_lookup {V} (k : string) (v : V) (l : list (string * V)) (id : string) :
  newMap ((k, v) :: l) !! id
  = match newMap l !! id with
    | Some w => Some w
    | None => if decide (k = id) then Some v else None
    end.
Proof.
  rewrite (newMap_app_lookup [(k, v)] l). destruct (newMap l !! id); [done |].
  unfold newMap. cbn. destruct (decide (k = id)) as [->|Hne].
  - by rewrite lookup_insert_eq.
  - by rewrite lookup_insert_ne.
Qed.

Lemma existsb_id_is_Some (id : string) (l : list GraphNode) :
  existsb (fun m => bool_decide (gn_id m = id)) l = true
  <-> is_Some (newMap (map (fun n => (gn_id n, n)) l) !! id).
Proof.
  rewrite newMap_lookup_is_Some. rewrite existsb_exists. split.
  - intros (n & Hn & Hid). apply bool_decide_eq_true in Hid. subst id.
    apply (list_elem_of_fmap_2 gn_id). by apply list_elem_of_In.
  - intros Hin. apply list_elem_of_fmap_1 in Hin as (n & -> & Hn).
    exists n. split; [by apply list_elem_of_In | by apply bool_decide_eq_true].
Qed.

(** Writing to the object a lookup returned is seen by the next lookup of
    that id, and by no lookup of another id. *)
Lemma updateNodeObject_lookup (id : string) (f : GraphNode -> GraphNode)
    (l : list GraphNode) (id' : string) :
  (forall n, gn_id n = id -> gn_id (f n) = id) ->
  newMap (map (fun n => (gn_id n, n)) (updateNodeObject id f l)) !! id'
  = if decide (id' = id)
    then f <$> newMap (map (fun n => (gn_id n, n)) l) !! id
    else newMap (map (fun n => (gn_id n, n)) l) !! id'.
Proof.
  intros Hf. induction l as [|n l IH]; [by destruct (decide (id' = id)) |].
  cbn [updateNodeObject].
  destruct (existsb (fun m => bool_decide (gn_id m = id)) l) eqn:Hex.
  - apply existsb_id_is_Some in Hex as [found Hfound].
    cbn [map]. rewrite !newMap_cons_lookup, IH.
    destruct (decide (id' = id)) as [->|Hne].
    + by rewrite Hfound.
    + done.
  - assert (newMap (map (fun n => (gn_id n, n)) l) !! id = None) as Hnone.
    { destruct (newMap (map (fun n => (gn_id n, n)) l) !! id) eqn:Hl; [|done].
      assert (existsb (fun m => bool_decide (gn_id m = id)) l = true) as Habs
        by (apply existsb_id_is_Some; by eexists).
      congruence. }
    destruct (bool_decide (gn_id n = id)) eqn:Hn.
    + apply bool_decide_eq_true in Hn. cbn [map].
      rewrite !newMap_cons_lookup, (Hf n Hn).
      destruct (decide (id' = id)) as [->|Hne].
      * rewrite Hnone. by rewrite !decide_True.
      * destruct (newMap (map (fun n => (gn_id n, n)) l) !! id'); [done |].
        by rewrite !decide_False by congruence.
    + apply bool_decide_eq_false in Hn.
      destruct (decide (id' = id)) as [->|Hne]; [|done].
      cbn [map]. rewrite newMap_cons_lookup, Hnone. by rewrite decide_False.
Qed.

Lemma updateNodeObject_ids (id : string) (f : GraphNode -> GraphNode) (l : list GraphNode) :
  (forall n, gn_id n = id -> gn_id (f n) = id) ->
  map gn_id (updateNodeObject id f l) = map gn_id l.
Proof.
  intros Hf. induction l as [|n l IH]; [done |].
  cbn [updateNodeObject].
  destruct (existsb _ l); [cbn; by rewrite IH |].
  destruct (bool_decide (gn_id n = id)) eqn:Hn; [|done].
  apply bool_decide_eq_true in Hn. cbn. by rewrite (Hf n Hn), Hn.
Qed.

(** *** Measurements that are taken *)

(** When [updateNodeDimensions] takes a measurement (the node is found, the
    measured width and height are not zero, and one of them differs from
    the node's or the update is forced), it writes the measured dimensions
    and handle bounds to the node and marks it initialized before it
    triggers [nodesChange], so that the next lookup of the id returns the
    written node; the lookups of the other ids, the ids of the nodes and
    their order, and the declared fields of the edges stay as they were.
    Nothing is said of the nodes the edges cache: in the source they are
    the node objects themselves and show the measurement. *)
Theorem updateNodeDimensions_writes_measurement (s : State)
    (u : UpdateNodeDimensionsParams) (ref pane : HTMLElement) (n : GraphNode) :
  vueFlowRef s = Some ref ->
  querySelector ref ".vue-flow__transformationpane" = Some pane ->
  findNode s (u_id u) = Some n ->
  truthy (width (getDimensions (u_nodeElement u))) = true ->
  truthy (height (getDimensions (u_nodeElement u))) = true ->
  strict_neq (width (gn_dimensions n)) (width (getDimensions (u_nodeElement u)))
  || strict_neq (height (gn_dimensions n)) (height (getDimensions (u_nodeElement u)))
  || default false (u_forceUpdate u) = true ->
  let s' := exec (updateNodeDimensions [u]) s in
  let measured :=
    gn_measured (getHandleBounds ".source" (u_nodeElement u) (transformM22 pane))
                (getHandleBounds ".target" (u_nodeElement u) (transformM22 pane))
                (getDimensions (u_nodeElement u)) n in
  events (updateNodeDimensions [u]) s
  = (if negb (fitViewOnInitDone s) && fitViewOnInit s then [NextTickFitView] else [])
    ++ [NodesChange [NodeDimensionChange (u_id u) (getDimensions (u_nodeElement u))]]
  ∧ findNode s' (u_id u) = Some measured
  ∧ gn_initialized measured = true
  ∧ gn_dimensions measured = getDimensions (u_nodeElement u)
  ∧ (forall id, id ≠ u_id u -> findNode s' id = findNode s id)
  ∧ map gn_id (nodes s') = map gn_id (nodes s)
  ∧ map edgeRest (edges s') = map edgeRest (edges s).
Proof.
  intros Href Hpane Hfind Hw Hh Hdiff s' measured.
  destruct (findNode_Some _ _ _ Hfind) as (_ & Hid & Hne).
  assert (updateNodeDimensions [u] s
          = (tt,
             set_nodes (updateNodeObject (u_id u)
                          (gn_measured
                             (getHandleBounds ".source" (u_nodeElement u) (transformM22 pane))
                             (getHandleBounds ".target" (u_nodeElement u) (transformM22 pane))
                             (getDimensions (u_nodeElement u)))
                          (nodes s)) s,
             (if negb (fitViewOnInitDone s) && fitViewOnInit s
              then [NextTickFitView] else [])
             ++ [NodesChange [NodeDimensionChange (u_id u)
                                (getDimensions (u_nodeElement u))]])) as Hrun.
  { unfold updateNodeDimensions, bind, get. cbn. rewrite Href. cbn. rewrite Hpane.
    cbn. unfold updateNodeDimensions_step, bind, get. cbn. rewrite Hfind, Hw, Hh.
    cbn. rewrite Hdiff. cbn. rewrite Hid.
    by destruct (negb (fitViewOnInitDone s) && fitViewOnInit s). }
  subst s'. unfold exec, events. rewrite Hrun. cbn [fst snd].
  split; [done |]. split; [|split; [done | split; [done | split; [|split]]]].
  - unfold findNode, nodesMap. cbn [nodes set_nodes].
    destruct (u_id u) as [|c rest] eqn:Hu; [done |]. cbn [nonempty negb].
    rewrite updateNodeObject_lookup by done. rewrite decide_True by done.
    unfold findNode, nodesMap in Hfind. cbn in Hfind.
    by rewrite Hfind.
  - intros id Hother. unfold findNode, nodesMap. cbn [nodes set_nodes].
    destruct (negb (nonempty id)); [done |].
    rewrite updateNodeObject_lookup by done. by rewrite decide_False.
  - cbn. by apply updateNodeObject_ids.
  - done.
Qed.

(** *** Removal of edges *)

Lemma removeEdges_fold (s : State) (items : list (string + Edge)) (changes : list EdgeChange) :
  omap removedId (foldl (removeEdges_item s) changes items)
  = omap removedId changes ++ removableEdgeIds s items.
Proof.
  revert changes. induction items as [|item items IH]; intros changes.
  - cbn. by rewrite app_nil_r.
  - cbn [foldl]. rewrite IH. unfold removeEdges_item, removableEdgeIds.
    cbn [omap list_omap].
    destruct (currEdgeOf s item) as [e|]; [|done].
    destruct (e_deletable e) as [[]|]; try done;
      rewrite omap_app; cbn; by rewrite <- app_assoc.
Qed.

Lemma removeEdges_only_removals (s : State) (items : list (string + Edge))
    (changes : list EdgeChange) :
  Forall (fun c => is_Some (removedId c)) changes ->
  Forall (fun c => is_Some (removedId c)) (foldl (removeEdges_item s) changes items).
Proof.
  revert changes. induction items as [|item items IH]; intros changes Hc; [done |].
  cbn [foldl]. apply IH. unfold removeEdges_item.
  destruct (currEdgeOf s item) as [e|]; [|done].
  destruct (e_deletable e) as [[]|]; try done;
    (apply Forall_app; split; [done |]; by repeat constructor).
Qed.

Lemma foldl_apply_removals (cs : list EdgeChange) (l : list GraphEdge) :
  Forall (fun c => is_Some (removedId c)) cs ->
  foldl applyEdgeChange l cs = filter (fun e => ge_id e ∉ omap removedId cs) l.
Proof.
  revert l. induction cs as [|c cs IH]; intros l Hcs.
  - cbn. symmetry. apply filter_accepts_all. intros e. apply not_elem_of_nil.
  - apply Forall_cons in Hcs as [[rid Hid] Hcs]. cbn [foldl]. rewrite (IH _ Hcs).
    destruct c as [| |cid src tgt sh th]; try done. cbn in Hid. injection Hid as ->. cbn.
    induction l as [|e l IHl]; [done |].
    destruct (decide (ge_id e = rid)) as [Heq|Hne].
    + rewrite (filter_cons_False (fun e => ge_id e ≠ rid)) by (by intros ?).
      rewrite (filter_cons_False _ e l); [exact IHl |].
      intros Hnot. apply Hnot. rewrite Heq. by left.
    + rewrite (filter_cons_True (fun e => ge_id e ≠ rid)) by done.
      destruct (decide (ge_id e ∈ omap removedId cs)) as [Hin|Hnin].
      * rewrite filter_cons_False by (by intros ?).
        rewrite filter_cons_False; [exact IHl |].
        intros Hnot. apply Hnot. by right.
      * rewrite filter_cons_True by done.
        rewrite filter_cons_True; [by rewrite IHl |].
        intros Hin. apply elem_of_cons in Hin as [?|?]; done.
Qed.

(** [removeEdges] triggers [edgesChange] exactly once, with a remove change
    for each item that resolves to an edge whose [deletable] flag is not
    false, and with an empty batch when there is none: unlike [removeNodes]
    it does not test the length of the batch.  Once the default listener
    has applied the batch, the edges with a removed id are gone, the others
    and the nodes are untouched, and the connection index is the one
    rebuilt from the edges that are left (even after an empty
    [removeEdges]). *)
Theorem removeEdges_always_triggers_and_reindexes (s : State)
    (arg : OrFunction (list GraphEdge) (MaybeArray (string + Edge))) :
  let items := toArray (resolve arg (edges s)) in
  exists changes,
    removeEdges arg s = (tt, s, [EdgesChange changes])
    ∧ omap removedId changes = removableEdgeIds s items
    ∧ length changes = length (removableEdgeIds s items)
    ∧ (let s' := deliver [EdgesChange changes] s in
       edges s' = filter (fun e => ge_id e ∉ removableEdgeIds s items) (edges s)
       ∧ nodes s' = nodes s
       ∧ connectionLookup s' = updateConnectionLookup (map edgeRest (edges s'))).
Proof.
  intros items. exists (foldl (removeEdges_item s) [] items).
  pose proof (removeEdges_fold s items []) as Hids. cbn in Hids.
  pose proof (removeEdges_only_removals s items [] (Forall_nil_2 _)) as Honly.
  split; [done |]. split; [done |]. split.
  - rewrite <- Hids. clear Hids. induction Honly as [|c cs [id Hid] _ IH]; [done |].
    cbn. rewrite Hid. cbn. by rewrite IH.
  - unfold deliver, exec. cbn. rewrite (foldl_apply_removals _ _ Honly), Hids. done.
Qed.

(** *** Addition of nodes *)

(** [addNodes] does not write to the state: it triggers the errors of the
    node builder and then, if the builder returned a node, one [nodesChange]
    with an add change per built node.  The default listener appends the
    built nodes after the existing ones and removes nothing, so a node
    added under an id that is already in use leaves the older node in the
    collection while [findNode] and [getNode] answer with the added one;
    the lookups of the ids that are not added answer as before. *)
Theorem addNodes_appends_and_shadows (s : State)
    (arg : OrFunction (list GraphNode) (MaybeArray Node)) :
  let built := createGraphNodes (toArray (resolve arg (nodes s))) (nodes s) (findNode s) in
  let log := map Error built.2 ++ notifyIf NodesChange (map createAdditionChange built.1) in
  let s' := deliver log s in
  addNodes arg s = (tt, s, log)
  ∧ nodes s' = nodes s ++ built.1
  ∧ edges s' = edges s
  ∧ (forall id, getNode s' id
                = match newMap (map (fun n => (gn_id n, n)) built.1) !! id with
                  | Some added => Some added
                  | None => getNode s id
                  end)
  ∧ (forall id, id ∉ map gn_id built.1 -> findNode s' id = findNode s id).
Proof.
  intros built log s'.
  assert (addNodes arg s = (tt, s, log)) as Hrun.
  { unfold addNodes, bind, get. cbn. rewrite forEach_trigger_events. cbn.
    subst log built. unfold notifyIf, when. by destruct (hasLength _). }
  assert (nodes s' = nodes s ++ built.1 ∧ edges s' = edges s) as [Hnodes Hedges].
  { subst s' log. generalize built.2 as errors. intros errors.
    assert (forall t, deliver (map Error errors ++ t) s = deliver t s) as ->.
    { intros t. induction errors as [|e errors IH]; [done |].
      unfold deliver, exec in *. cbn. unfold bind in *. cbn.
      destruct (forEach defaultListener (map Error errors ++ t) s) as [[[] ?] ?] eqn:Hx.
      cbn in *. by rewrite <- IH. }
    unfold notifyIf. destruct built.1 as [|b l] eqn:Hb.
    - cbn. by rewrite app_nil_r.
    - cbn [map hasLength]. unfold deliver, exec. cbn. split; [|done].
      f_equal. clear. revert b. generalize (nodes s).
      induction l as [|c l IH]; intros l0 b; [done |].
      cbn. rewrite (IH (l0 ++ [b]) c). by rewrite <- app_assoc. }
  assert (forall id, getNode s' id
                     = match newMap (map (fun n => (gn_id n, n)) built.1) !! id with
                       | Some added => Some added
                       | None => getNode s id
                       end) as Hget.
  { intros id. unfold getNode, nodesMap. rewrite Hnodes, map_app.
    apply newMap_app_lookup. }
  split; [exact Hrun |]. split; [exact Hnodes |]. split; [exact Hedges |].
  split; [exact Hget |].
  intros id Hid. unfold findNode. destruct (negb (nonempty id)); [done |].
  fold (getNode s' id). fold (getNode s id). rewrite Hget.
  destruct (newMap (map (fun n => (gn_id n, n)) built.1) !! id) eqn:Hl; [|done].
  exfalso. apply Hid. apply newMap_lookup_is_Some. by eexists.
Qed.

(** *** Dragged nodes *)

Lemma foldl_push {A B} (f : A -> B) (init : list B) (l : list A) :
  foldl (fun acc a => acc ++ [f a]) init l = init ++ map f l.
Proof.
  revert init. induction l as [|a l IH]; intros init; cbn.
  - by rewrite app_nil_r.
  - rewrite IH. by rewrite <- app_assoc.
Qed.

Lemma foldl_dragging_nodes (dragging : bool) (ids : list string) (l : list GraphNode) :
  foldl applyNodeChange l
        (map (fun i => NodePositionChange i None (Some dragging)) ids)
  = map (fun n => if bool_decide (gn_id n ∈ ids)
                  then gn_with_dragging dragging n else n) l.
Proof.
  induction ids as [|i ids IH] using rev_ind.
  - cbn. induction l as [|n l IHl]; cbn; [done |]. by rewrite <- IHl.
  - rewrite map_app, foldl_app, IH. cbn. unfold onNode. rewrite map_map.
    apply map_ext. intros n.
    destruct (decide (gn_id n ∈ ids)) as [Hin|Hnin].
    + rewrite (bool_decide_eq_true_2 _ Hin).
      rewrite (bool_decide_eq_true_2 (gn_id n ∈ ids ++ [i])) by (apply elem_of_app; by left).
      cbn. destruct (decide (gn_id n = i)) as [<-|Hne].
      * by rewrite bool_decide_eq_true_2.
      * by rewrite bool_decide_eq_false_2.
    + rewrite (bool_decide_eq_false_2 _ Hnin).
      destruct (decide (gn_id n = i)) as [<-|Hne].
      * rewrite bool_decide_eq_true_2 by done.
        by rewrite bool_decide_eq_true_2
          by (apply elem_of_app; right; by apply list_elem_of_singleton).
      * rewrite bool_decide_eq_false_2 by done.
        rewrite bool_decide_eq_false_2; [done |].
        rewrite elem_of_app, list_elem_of_singleton. by intros [?|?].
Qed.


(** A drag report without a position, once the default listener has applied
    it, sets the dragging flag of exactly the nodes the drag items name and
    leaves every other field, every other node and the order alone. *)
Theorem updateNodePositions_unchanged_sets_dragging_only (s : State)
    (dragItems : list NodeDragItem) (dragging : bool) :
  nodes (deliver (events (updateNodePositions dragItems false dragging) s) s)
  = map (fun n => if bool_decide (gn_id n ∈ map d_id dragItems)
                  then gn_with_dragging dragging n else n) (nodes s).
Proof.
  unfold updateNodePositions, events, bind, get, when, trigger, ret.
  rewrite foldl_push. cbn [app fst snd].
  replace (map (positionChangeOf s false dragging) dragItems)
    with (map (fun i => NodePositionChange i None (Some dragging)) (map d_id dragItems))
    by (by rewrite map_map).
  destruct dragItems as [|item items].
  - cbn. induction (nodes s) as [|n l IHl]; cbn; [done |]. by rewrite <- IHl.
  - cbn -[foldl applyNodeChange bool_decide].
    exact (foldl_dragging_nodes dragging (d_id item :: map d_id items) (nodes s)).
Qed.

(** *** Updating one node *)

Lemma asGraphNode_withData (node : GraphNode) (data : value) :
  asGraphNode (withData (spreadNode node) data) = Some (gn_with_data data node).
Proof. by destruct node. Qed.

Lemma assign_withData (target node : GraphNode) (data : value) :
  assign target (withData (spreadNode node) data) = gn_with_data data node.
Proof. by destruct node. Qed.

(** [updateNodeData] always returns and triggers no hook.  For an id no
    node is found under (the empty string included) the store is left as it
    is.  Otherwise the node found keeps every field but its data, which is
    the new data when [replace] is set and the spread of the old and the new
    data when it is not; every other id finds what it found, and the ids of
    the collection and their order, the declared fields of the edges, and
    everything outside the two collections are unchanged.  Nothing is said
    of the nodes the edges cache: without [replace] they are, in the
    source, the node object that is written to. *)
Theorem updateNodeData_changes_only_the_data (s : State) (id : string)
    (dataUpdate : OrFunction GraphNode value) (options : option UpdateOptions) :
  match findNode s id with
  | None => updateNodeData id dataUpdate options s = Some (tt, s, [])
  | Some node =>
      let data := if replaceOf options then resolve dataUpdate node
                  else spreadData (gn_data node) (resolve dataUpdate node) in
      exists s',
        updateNodeData id dataUpdate options s = Some (tt, s', [])
        /\ findNode s' id = Some (gn_with_data data node)
        /\ (forall id', id' <> id -> findNode s' id' = findNode s id')
        /\ map gn_id (nodes s') = map gn_id (nodes s)
        /\ map edgeRest (edges s') = map edgeRest (edges s)
        /\ set_edges (edges s) (set_nodes (nodes s) s') = s
  end.
Proof.
  unfold updateNodeData, updateNode.
  destruct (findNode s id) as [node|] eqn:Hfind; [|done].
  cbn zeta. cbn [resolve].
  assert (nonempty id = true /\ nodesMap s !! id = Some node) as [Hid Hlook].
  { unfold findNode in Hfind. destruct (nonempty id); [done | discriminate]. }
  destruct (findNode_Some _ _ _ Hfind) as (_ & Hnid & _).
  destruct (replaceOf options) eqn:Hreplace.
  - rewrite asGraphNode_withData.
    eexists. split; [reflexivity |].
    assert (forall n : GraphNode, gn_id n = id ->
              gn_id ((fun _ : GraphNode => gn_with_data (resolve dataUpdate node) node) n) = id)
      as Hf.
    { intros n _. exact Hnid. }
    repeat split.
    + unfold findNode, nodesMap. cbn [nodes set_nodes]. rewrite Hid. cbn [negb].
      rewrite (updateNodeObject_lookup id _ (nodes s) id Hf).
      rewrite decide_True by done. unfold nodesMap in Hlook. by rewrite Hlook.
    + intros id' Hne. unfold findNode, nodesMap. cbn [nodes set_nodes].
      destruct (nonempty id'); [|done]. cbn [negb].
      rewrite (updateNodeObject_lookup id _ (nodes s) id' Hf).
      by rewrite decide_False.
    + cbn [nodes set_nodes]. by apply updateNodeObject_ids.
    + by destruct s.
  - eexists. split; [reflexivity |].
    assert (forall n : GraphNode, gn_id n = id ->
              gn_id ((fun n0 : GraphNode =>
                        assign n0 (withData (spreadNode node)
                                     (spreadData (gn_data node) (resolve dataUpdate node)))) n)
              = id) as Hf.
    { intros n _. rewrite assign_withData. exact Hnid. }
    repeat split.
    + unfold findNode, nodesMap. cbn [nodes set_nodes]. rewrite Hid. cbn [negb].
      rewrite (updateNodeObject_lookup id _ (nodes s) id Hf).
      rewrite decide_True by done. unfold nodesMap in Hlook. rewrite Hlook.
      cbn. by rewrite assign_withData.
    + intros id' Hne. unfold findNode, nodesMap. cbn [nodes set_nodes].
      destruct (nonempty id'); [|done]. cbn [negb].
      rewrite (updateNodeObject_lookup id _ (nodes s) id' Hf).
      by rewrite decide_False.
    + cbn [nodes set_nodes]. by apply updateNodeObject_ids.
    + by destruct s.
Qed.

(** Without [replace], [updateNode] with an update object that has no id
    key merges the object's keys into the node found and leaves the rest of
    the node, every other node, and the order of the collection as they
    were; no hook is triggered. *)
Theorem updateNode_merges_into_found_node (s : State) (id : string)
    (patch : GraphNodePatch) (options : option UpdateOptions) (node : GraphNode) :
  replaceOf options = false ->
  p_id patch = None ->
  findNode s id = Some node ->
  exists s',
    updateNode id (Literal patch) options s = Some (tt, s', [])
    /\ findNode s' id = Some (assign node patch)
    /\ (forall id', id' <> id -> findNode s' id' = findNode s id')
    /\ map gn_id (nodes s') = map gn_id (nodes s).
Proof.
  intros Hreplace Hpid Hfind. unfold updateNode. rewrite Hfind, Hreplace.
  cbn [resolve]. eexists. split; [reflexivity |].
  assert (nonempty id = true /\ nodesMap s !! id = Some node) as [Hid Hlook].
  { unfold findNode in Hfind. destruct (nonempty id); [done | discriminate]. }
  destruct (findNode_Some _ _ _ Hfind) as (_ & Hnid & _).
  assert (forall n : GraphNode, gn_id n = id ->
            gn_id ((fun n0 : GraphNode => assign n0 patch) n) = id) as Hf.
  { intros n Hn. cbn. by rewrite Hpid. }
  repeat split.
  - unfold findNode, nodesMap. cbn [nodes set_nodes]. rewrite Hid. cbn [negb].
    rewrite (updateNodeObject_lookup id _ (nodes s) id Hf).
    rewrite decide_True by done. unfold nodesMap in Hlook. by rewrite Hlook.
  - intros id' Hne. unfold findNode, nodesMap. cbn [nodes set_nodes].
    destruct (nonempty id'); [|done]. cbn [negb].
    rewrite (updateNodeObject_lookup id _ (nodes s) id' Hf).
    by rewrite decide_False.
  - cbn [nodes set_nodes]. by apply updateNodeObject_ids.
Qed.

(** *** Getters *)

Lemma filterA_run {A} (p : A -> Action bool) (keep : A -> bool) (log : A -> list Event)
    (s : State) (l : list A) :
  (forall a, p a s = (keep a, s, log a)) ->
  filterA p l s = (List.filter keep l, s, concat (map log l)).
Proof.
  intros Hp. induction l as [|a l IH]; [done |].
  cbn [filterA List.filter map concat]. unfold bind. rewrite Hp, IH. cbn.
  by rewrite app_nil_r.
Qed.

Lemma concat_map_if {A B} (c : A -> bool) (f : A -> B) (l : list A) :
  concat (map (fun a => if c a then [f a] else []) l) = map f (List.filter c l).
Proof.
  induction l as [|a l IH]; [done |]. cbn. rewrite IH. by destruct (c a).
Qed.

Lemma edgeHidden_run (g : GetterState) (s : State) (e : GraphEdge) :
  edgeHidden e (getNode s (ge_source e)) (getNode s (ge_target e)) s
  = edgeHidden e None None s
  /\ edgeHidden e None None s
     = (match getNode s (ge_source e), getNode s (ge_target e) with
        | Some sourceNode, Some targetNode =>
            Some (negb (isSet (ge_hidden e)) && negb (isSet (gn_hidden targetNode))
                  && negb (isSet (gn_hidden sourceNode)))
        | _, _ => None
        end,
        s,
        if orphaned s e then [Error {| code := EDGE_ORPHANED; args := [ge_id e] |}] else []).
Proof.
  unfold edgeHidden, orphaned, bind, get, trigger, ret. cbn.
  destruct (getNode s (ge_source e)) as [sn|], (getNode s (ge_target e)) as [tn|]; cbn; done.
Qed.

Lemma getEdges_run (g : GetterState) (s : State) :
  getEdges g s
  = (List.filter (rendersEdge g s) (edges s), s,
     concat (map (fun e => if orphaned s e
                           then [Error {| code := EDGE_ORPHANED; args := [ge_id e] |}]
                           else [])
                 (edges s))).
Proof.
  unfold getEdges. unfold bind at 1, get at 1. cbn [fst snd].
  destruct (g_onlyRenderVisibleElements g) eqn:Hmode; cbn [negb].
  - erewrite (filterA_run _ (rendersEdge g s)
                (fun e => if orphaned s e
                          then [Error {| code := EDGE_ORPHANED; args := [ge_id e] |}]
                          else [])); [done |].
    intros e. unfold bind at 1, get at 1. cbn [fst snd].
    destruct (edgeHidden_run g s e) as [Heq Hrun].
    unfold bind. rewrite Heq, Hrun. unfold rendersEdge, ret. rewrite Hmode.
    destruct (getNode s (ge_source e)) as [sn|], (getNode s (ge_target e)) as [tn|];
      cbn; rewrite ?app_nil_r; done.
  - erewrite (filterA_run _ (rendersEdge g s)
                (fun e => if orphaned s e
                          then [Error {| code := EDGE_ORPHANED; args := [ge_id e] |}]
                          else [])); [done |].
    intros e. destruct (edgeHidden_run g s e) as [_ Hrun].
    unfold bind. rewrite Hrun. unfold rendersEdge, ret. rewrite Hmode.
    destruct (getNode s (ge_source e)) as [sn|], (getNode s (ge_target e)) as [tn|];
      cbn; rewrite ?app_nil_r, ?andb_true_r; done.
Qed.

(** [getEdges] leaves the state as it is.  It keeps, in their order, the
    edges both of whose endpoints are keys of the node map, and which are
    not hidden, with neither endpoint hidden, and, with
    [onlyRenderVisibleElements], in view.  It triggers one [EDGE_ORPHANED]
    error, carrying the edge's id, for every edge with an endpoint that is
    no key of the node map, in the order of the edges, and nothing else. *)
Theorem getEdges_reports_every_orphan (g : GetterState) (s : State) :
  getEdges g s
  = (List.filter (rendersEdge g s) (edges s), s,
     map (fun e => Error {| code := EDGE_ORPHANED; args := [ge_id e] |})
         (List.filter (orphaned s) (edges s))).
Proof.
  rewrite getEdges_run. f_equal.
  exact (concat_map_if (orphaned s)
           (fun e => Error {| code := EDGE_ORPHANED; args := [ge_id e] |}) (edges s)).
Qed.

Lemma filter_none {A} (p : A -> bool) (l : list A) :
  (forall a, a ∈ l -> p a = false) -> List.filter p l = [].
Proof.
  intros H. induction l as [|a l IH]; [done |]. cbn.
  rewrite (H a) by apply list_elem_of_here.
  apply IH. intros b Hb. apply H. by apply list_elem_of_further.
Qed.

(** After a [setEdges] that is not skipped, no edge of the store is
    orphaned: [getEdges] triggers no error.  The edge builder is assumed to
    keep the declared source and target. *)
Theorem setEdges_leaves_no_orphan_for_getEdges (g : GetterState) (s : State)
    (arg : OrFunction (list GraphEdge) (list Edge)) :
  (forall e existing defaults,
      ge_source (parseEdge e existing defaults) = e_source e
      /\ ge_target (parseEdge e existing defaults) = e_target e) ->
  initialized s || hasLength (resolve arg (edges s)) = true ->
  events (getEdges g) (exec (setEdges arg) s) = [].
Proof.
  intros Hparse Hguard. unfold events. rewrite getEdges_run. cbn [snd].
  rewrite concat_map_if.
  rewrite filter_none; [done |].
  intros ge Hge. unfold exec in *. rewrite setEdges_run in *.
  assert (negb (initialized s) && negb (hasLength (resolve arg (edges s))) = false) as Hg.
  { destruct (initialized s), (hasLength (resolve arg (edges s))); done. }
  rewrite Hg in *. cbn in Hge.
  apply list_elem_of_omap in Hge as (e & _ & Hret).
  unfold retainedEdge in Hret.
  destruct (findNode s (e_source e)) as [sn|] eqn:Hs; [|done].
  destruct (findNode s (e_target e)) as [tn|] eqn:Ht; [|done].
  injection Hret as <-.
  unfold orphaned, getNode, nodesMap. cbn -[newMap].
  destruct (Hparse e (findEdge s (e_id e)) (defaultEdgeOptions s)) as [-> ->].
  unfold findNode in Hs, Ht.
  destruct (negb (nonempty (e_source e))); [done |].
  destruct (negb (nonempty (e_target e))); [done |].
  unfold nodesMap in Hs, Ht. rewrite Hs, Ht.
  rewrite !bool_decide_eq_true_2 by by eexists. done.
Qed.

Lemma filter_selected_flagged (b : GraphNode -> bool) (l : list GraphNode) :
  List.filter gn_selected (map (fun n => gn_with_selected (b n) n) l)
  = map (gn_with_selected true) (List.filter b l).
Proof.
  induction l as [|n l IH]; [done |]. cbn [map List.filter].
  replace (gn_selected (gn_with_selected (b n) n)) with (b n) by done.
  destruct (b n) eqn:Hb; cbn [map]; by rewrite IH, ?Hb.
Qed.

Lemma filter_selected_flagged_edges (b : GraphEdge -> bool) (l : list GraphEdge) :
  List.filter ge_selected (map (fun e => ge_with_selected (b e) e) l)
  = map (ge_with_selected true) (List.filter b l).
Proof.
  induction l as [|e l IH]; [done |]. cbn [map List.filter].
  replace (ge_selected (ge_with_selected (b e) e)) with (b e) by done.
  destruct (b e) eqn:Hb; cbn [map]; by rewrite IH, ?Hb.
Qed.

(** What the selection getters answer once [addSelectedNodes] has run and
    the default listener has applied its changes.  Without multi selection
    the selected nodes are the nodes with the id of a target, and the
    selected edges the edges with the id of a target, in store order, each
    flagged selected.  With multi selection the selected nodes are those
    that were selected or have the id of a target, and the selected edges
    are the edges that were selected. *)
Theorem getSelected_after_addSelectedNodes (s : State) (targets : list GraphNode) :
  let ids := map gn_id targets in
  let s' := deliver (events (addSelectedNodes targets) s) s in
  getSelectedElements s'
  = map GraphNodeElement (getSelectedNodes s') ++ map GraphEdgeElement (getSelectedEdges s')
  /\ if multiSelectionActive s
     then getSelectedNodes s'
          = map (fun n => if bool_decide (gn_id n ∈ ids) then gn_with_selected true n else n)
                (List.filter (fun n => bool_decide (gn_id n ∈ ids) || gn_selected n) (nodes s))
          /\ getSelectedEdges s' = getSelectedEdges s
     else getSelectedNodes s'
          = map (gn_with_selected true)
                (List.filter (fun n => bool_decide (gn_id n ∈ ids)) (nodes s))
          /\ getSelectedEdges s'
             = map (ge_with_selected true)
                   (List.filter (fun e => bool_decide (ge_id e ∈ ids)) (edges s)).
Proof.
  intros ids s'. split; [done |].
  subst s'. unfold addSelectedNodes, events. rewrite nodeSelectionHandler_run.
  cbn [fst snd]. fold ids. unfold getSelectedNodes, getSelectedEdges.
  destruct (multiSelectionActive s);
    match goal with
    | |- context [deliver (notifyIf NodesChange ?a ++ notifyIf EdgesChange ?b) s] =>
        destruct (deliver_changes a b s) as [Hn He]
    end; rewrite Hn, He.
  - rewrite foldl_select_nodes. cbn [foldl]. split; [|done].
    rewrite filter_map_swap. apply f_equal. apply filter_ext. intros n.
    by destruct (bool_decide (gn_id n ∈ ids)).
  - pose (value := fun i : string => bool_decide (i ∈ ids)).
    pose proof (foldl_select_all_nodes value (nodes s)) as HN.
    pose proof (foldl_select_all_edges value (edges s)) as HE.
    subst value. cbn beta in HN, HE. rewrite HN, HE.
    split.
    + exact (filter_selected_flagged (fun n => bool_decide (gn_id n ∈ ids)) (nodes s)).
    + exact (filter_selected_flagged_edges (fun e => bool_decide (ge_id e ∈ ids)) (edges s)).
Qed.

Lemma filter_length_all {A} (p : A -> bool) (l : list A) :
  length (List.filter p l) = length l <-> Forall (fun a => p a = true) l.
Proof.
  induction l as [|a l IH]; [by split |].
  cbn [List.filter]. destruct (p a) eqn:Hp; cbn [length].
  - split.
    + intros Hlen. constructor; [done |]. apply IH. lia.
    + intros Hall. apply Forall_cons in Hall as [_ Hall]. apply IH in Hall. lia.
  - pose proof (filter_length_le p l) as Hle. split; [lia |].
    intros Hall. apply Forall_cons in Hall as [Hall _]. congruence.
Qed.

(** [areNodesInitialized] holds exactly when there is a node to render and
    every node to render is initialized; in particular it is false for a
    store in which no node is shown. *)
Theorem areNodesInitialized_iff_some_and_all (g : GetterState) (s : State) :
  areNodesInitialized g s = true
  <-> getNodes g s <> []
      /\ Forall (fun n => gn_initialized n = true) (getNodes g s).
Proof.
  unfold areNodesInitialized, getNodesInitialized.
  rewrite andb_true_iff, Nat.ltb_lt, Nat.eqb_eq, filter_length_all.
  split; intros [Hlen Hall]; (split; [|done]).
  - intros Hnil. rewrite Hnil in Hlen. cbn in Hlen. lia.
  - destruct (getNodes g s); [done | cbn; lia].
Qed.

Lemma addOwnTypes_keeps_proto (types : gmap string TypeEntry)
    (elementTypes : list (option string)) :
  addOwnTypes types elementTypes !! "__proto__" = types !! "__proto__".
Proof.
  unfold addOwnTypes. cbn zeta.
  induction elementTypes as [|t l IH] using rev_ind; [done |].
  rewrite foldl_app. cbn [foldl]. destruct t as [t|]; [|exact IH].
  destruct (nonempty t && negb (bool_decide (t ∈ dom types))) eqn:Hcond; [|exact IH].
  apply andb_true_iff in Hcond as [_ Hnew].
  apply negb_true_iff, bool_decide_eq_false, not_elem_of_dom in Hnew.
  unfold assignName at 1. destruct (decide (t = "__proto__")) as [->|Hne].
  - rewrite IH, Hnew. rewrite bool_decide_eq_true_2 by done.
    rewrite (bool_decide_eq_false_2 (is_Some None)) by (by intros [? ?]).
    cbn. by rewrite IH.
  - rewrite (bool_decide_eq_false_2 (t = "__proto__")) by done. cbn.
    by rewrite lookup_insert_ne.
Qed.

Lemma addOwnTypes_lookup (types : gmap string TypeEntry) (elementTypes : list (option string))
    (k : string) :
  addOwnTypes types elementTypes !! k
  = match types !! k with
    | Some v => Some v
    | None => if nonempty k && negb (bool_decide (k = "__proto__"))
                 && bool_decide (Some k ∈ elementTypes)
              then Some (NameEntry k) else None
    end.
Proof.
  destruct (decide (k = "__proto__")) as [->|Hproto].
  { rewrite addOwnTypes_keeps_proto. destruct (types !! "__proto__"); [done |].
    rewrite (bool_decide_eq_true_2 ("__proto__" = "__proto__")) by done.
    by rewrite andb_false_r. }
  rewrite (bool_decide_eq_false_2 (k = "__proto__")) by done. rewrite andb_true_r.
  unfold addOwnTypes. cbn zeta.
  induction elementTypes as [|t l IH] using rev_ind.
  - cbn. destruct (types !! k); [done |].
    rewrite bool_decide_eq_false_2 by apply not_elem_of_nil. by rewrite andb_false_r.
  - rewrite foldl_app. cbn [foldl].
    assert (Some k ∈ l ++ [t] <-> Some k ∈ l \/ t = Some k) as Hmem.
    { rewrite elem_of_app, list_elem_of_singleton. split; intros [?|?]; auto. }
    destruct t as [t|].
    + destruct (nonempty t && negb (bool_decide (t ∈ dom types))) eqn:Hcond.
      * apply andb_true_iff in Hcond as [Hne Hnew].
        apply negb_true_iff, bool_decide_eq_false in Hnew.
        apply not_elem_of_dom in Hnew.
        destruct (decide (k = t)) as [->|Hkt].
        -- unfold assignName.
           rewrite (bool_decide_eq_false_2 (t = "__proto__")) by done. cbn.
           rewrite lookup_insert_eq, Hnew, Hne.
           rewrite bool_decide_eq_true_2; [done |].
           apply Hmem. by right.
        -- assert (forall m : gmap string TypeEntry, assignName t t m !! k = m !! k)
             as Hother.
           { intros m. unfold assignName.
             destruct (bool_decide (t = "__proto__")
                       && negb (bool_decide (is_Some (m !! t)))); [done |].
             by rewrite lookup_insert_ne. }
           rewrite Hother.
           rewrite IH.
           destruct (types !! k); [done |].
           destruct (decide (Some k ∈ l)) as [Hin|Hnin].
           ++ rewrite !bool_decide_eq_true_2; [done | | done]. apply Hmem. by left.
           ++ rewrite !bool_decide_eq_false_2; [done | | done].
              rewrite Hmem. intros [?|[=]]; congruence.
      * rewrite IH. destruct (types !! k) as [v|] eqn:Hk; [done |].
        destruct (decide (Some k ∈ l)) as [Hin|Hnin].
        -- rewrite !bool_decide_eq_true_2; [done | | done]. apply Hmem. by left.
        -- rewrite (bool_decide_eq_false_2 (Some k ∈ l)) by done.
           destruct (decide (t = k)) as [->|Hkt].
           ++ apply andb_false_iff in Hcond as [Hne|Hold].
              ** by rewrite Hne.
              ** apply negb_false_iff, bool_decide_eq_true in Hold.
                 apply elem_of_dom in Hold as [v Hv]. congruence.
           ++ rewrite bool_decide_eq_false_2; [done |].
              rewrite Hmem. intros [?|[=]]; congruence.
    + rewrite IH. destruct (types !! k); [done |].
      destruct (decide (Some k ∈ l)) as [Hin|Hnin].
      * rewrite !bool_decide_eq_true_2; [done | | done]. apply Hmem. by left.
      * rewrite !bool_decide_eq_false_2; [done | | done].
        rewrite Hmem. by intros [?|?].
Qed.

(** The own properties of the object [getNodeTypes] answers with: under a
    key registered in the state, the state's entry; under a key only the
    defaults have, the default entry; under any other non-empty name that
    is the type of some node, that name itself, except for the name
    [__proto__], for which the assignment makes no property; no other own
    property.  So a registered type is never overwritten by a node's type.
    The same holds for [getEdgeTypes] and the types of the edges.  A read
    of a key that is no own property is not covered: it finds what
    [Object.prototype] has. *)
Theorem getNodeTypes_registered_then_default_then_own (g : GetterState) (s : State)
    (k : string) :
  getNodeTypes g s !! k
  = match g_nodeTypes g !! k, defaultNodeTypes !! k with
    | Some v, _ => Some v
    | None, Some v => Some v
    | None, None => if nonempty k && negb (bool_decide (k = "__proto__"))
                       && bool_decide (Some k ∈ map gn_type (nodes s))
                    then Some (NameEntry k) else None
    end
  /\ getEdgeTypes g s !! k
     = match g_edgeTypes g !! k, defaultEdgeTypes !! k with
       | Some v, _ => Some v
       | None, Some v => Some v
       | None, None => if nonempty k && negb (bool_decide (k = "__proto__"))
                          && bool_decide (Some k ∈ map ge_type (edges s))
                       then Some (NameEntry k) else None
       end.
Proof.
  unfold getNodeTypes, getEdgeTypes. rewrite !addOwnTypes_lookup, !lookup_union.
  split.
  - by destruct (g_nodeTypes g !! k), (defaultNodeTypes !! k).
  - by destruct (g_edgeTypes g !! k), (defaultEdgeTypes !! k).
Qed.

(** *** The registry of stores *)

Lemma getIds_run {Flow} (n : nat) (st : Storage Flow) :
  (currentId st + N.of_nat n <= 2 ^ 53)%N ->
  (getIds n st).1
  = map (fun i => "vue-flow-" +:+ pretty (currentId st + N.of_nat i)%N) (seq 0 n)
  /\ currentId (getIds n st).2 = (currentId st + N.of_nat n)%N
  /\ flows (getIds n st).2 = flows st.
Proof.
  revert st. induction n as [|n IH]; intros st Hle.
  - cbn. split; [done |]. split; [lia | done].
  - cbn [getIds getId].
    set (st1 := {| currentId := increment (currentId st); flows := flows st |}).
    assert (currentId st1 = (currentId st + 1)%N) as Hcur.
    { cbn. unfold increment.
      destruct (N.ltb_spec (currentId st) (2 ^ 53)); [done | lia]. }
    destruct (IH st1) as (Hids & Hnext & Hflows); [rewrite Hcur; lia |].
    destruct (getIds n st1) as [ids st2]. cbn [fst snd] in *.
    split; [|split].
    + cbn [seq map]. rewrite N.add_0_r. f_equal.
      rewrite Hids, <- seq_shift, map_map. apply map_ext. intros i.
      rewrite Hcur. do 2 f_equal. lia.
    + rewrite Hnext, Hcur. lia.
    + by rewrite Hflows.
Qed.

(** As long as the counter stays within [2^53], successive calls of
    [getId] answer with pairwise different ids, [vue-flow-] followed by the
    decimal digits of the counter, which grows by one per call; the
    registered stores are not touched. *)
Theorem getId_never_repeats {Flow} (n : nat) (st : Storage Flow) :
  (currentId st + N.of_nat n <= 2 ^ 53)%N ->
  NoDup (getIds n st).1
  /\ (getIds n st).1
     = map (fun i => "vue-flow-" +:+ pretty (currentId st + N.of_nat i)%N) (seq 0 n)
  /\ (getIds n st).2
     = {| currentId := (currentId st + N.of_nat n)%N; flows := flows st |}.
Proof.
  intros Hle. destruct (getIds_run n st Hle) as (Hids & Hcur & Hflows).
  split; [|split; [done |]].
  - rewrite Hids.
    assert (Inj (=) (=) (fun i : nat =>
                           "vue-flow-" +:+ pretty (currentId st + N.of_nat i)%N)) as Hinj.
    { intros i j Hij. cbn in Hij. injection Hij as Hij.
      change (pretty (currentId st + N.of_nat i)%N = pretty (currentId st + N.of_nat j)%N)
        in Hij.
      apply (inj pretty) in Hij. lia. }
    apply (NoDup_fmap_2 _). apply NoDup_seq.
  - destruct (getIds n st).2 as [c f]. cbn in *. by rewrite Hcur, Hflows.
Qed.

End Store.

(** ** The properties on concrete stores *)



Lemma setters_noop_when_uninitialized_and_empty_witness :
  let s := sampleStore [sampleNode "a" None None; sampleNode "b" None None]
                       [sampleEdge "e1" "a" "b" None] false false in
  setNodes sample_createGraphNodes (Literal []) s = (tt, s, [])
  ∧ setEdges sample_parseEdge (Literal []) s = (tt, s, [])
  ∧ setElements sample_parseEdge sample_createGraphNodes (Literal []) s = (tt, s, []).
Proof.
  intros s.
  apply (setters_noop_when_uninitialized_and_empty sample_parseEdge
           sample_createGraphNodes s (Literal []) (Literal []) (Literal []));
    reflexivity.
Defined.

(** The guard is what keeps the collections: on the same store, once it is
    initialized, the same three calls empty them. *)
Example setters_clear_when_initialized :
  let s := sampleStore [sampleNode "a" None None; sampleNode "b" None None]
                       [sampleEdge "e1" "a" "b" None] true false in
  nodes (exec (setNodes sample_createGraphNodes (Literal [])) s) = []
  ∧ edges (exec (setEdges sample_parseEdge (Literal [])) s) = []
  ∧ nodes (exec (setElements sample_parseEdge sample_createGraphNodes (Literal [])) s) = []
  ∧ edges (exec (setElements sample_parseEdge sample_createGraphNodes (Literal [])) s) = [].
Proof. repeat split; vm_compute; reflexivity. Qed.


(** C2 fails on the code: with one node ["a"] in the store, [setEdges] of
    the single edge ["e1"] from ["a"] to a node that does not exist drops
    the edge (and reports it) but leaves its id in the index, under the
    key of its source and under the key of its target. *)
Theorem setEdges_index_keeps_dropped_edge :
  let s := sampleStore [sampleNode "a" None None] [] true false in
  let E := [edgeRest (sampleEdge "e1" "a" "missing" None)] in
  let s' := exec (setEdges sample_parseEdge (Literal E)) s in
  edges s' = []
  ∧ events (setEdges sample_parseEdge (Literal E)) s
    = [Error {| code := EDGE_TARGET_MISSING; args := ["e1"; "missing"] |}]
  ∧ connectionLookup s' !! ("a", None, source) = Some {["e1"]}
  ∧ connectionLookup s' !! ("missing", None, target) = Some {["e1"]}.
Proof. repeat split; vm_compute; reflexivity. Qed.

Lemma updateNodeDimensions_suppresses_unchanged_witness :
  let s := sampleStore [sampleNode "a" None None] [] true false in
  let updates := [{| u_id := "a"; u_nodeElement := 1%nat; u_forceUpdate := None |}] in
  exec (updateNodeDimensions sample_querySelector sample_transformM22
          sample_getDimensions sample_getHandleBounds updates) s = s
  ∧ (forall ev,
        ev ∈ events (updateNodeDimensions sample_querySelector sample_transformM22
                       sample_getDimensions sample_getHandleBounds updates) s ->
        ev = NextTickFitView)
  ∧ (forall changes,
        NodesChange changes
        ∉ events (updateNodeDimensions sample_querySelector sample_transformM22
                    sample_getDimensions sample_getHandleBounds updates) s).
Proof.
  intros s updates.
  apply (updateNodeDimensions_suppresses_unchanged sample_querySelector
           sample_transformM22 sample_getDimensions sample_getHandleBounds s updates).
  intros u n Hu Hfind. apply list_elem_of_singleton in Hu. subst u.
  vm_compute in Hfind. injection Hfind as <-. split; reflexivity.
Defined.

Lemma export_import_roundtrip_witness :
  let s := guardedStore in
  let s' := exec (fromObject sample_parseEdge sample_createGraphNodes (toObject s)) s in
  map nodeCore (nodes s') = map nodeCore (nodes s)
  ∧ map edgeCore (edges s') = [("e1", "a", "b", VNull)]
  ∧ Error {| code := EDGE_TARGET_MISSING; args := ["e2"; "gone"] |}
    ∈ events (fromObject sample_parseEdge sample_createGraphNodes (toObject s)) s.
Proof.
  intros s s'.
  assert (forall l current find,
             map nodeCore (sample_createGraphNodes l current find).1 = map declaredNodeCore l)
    as Hbuild.
  { intros l current find. cbn. rewrite map_map. reflexivity. }
  assert (forall e existing defaults,
             edgeCore (sample_parseEdge e existing defaults) = declaredEdgeCore e) as Hparse.
  { intros e existing defaults. reflexivity. }
  assert (forall n, n ∈ nodes s ->
                    jsonPosition (gn_position n) = gn_position n
                    ∧ jsonValue (gn_data n) = gn_data n) as Hjn.
  { apply Forall_forall. repeat constructor. }
  assert (forall e, e ∈ edges s -> jsonValue (ge_data e) = ge_data e) as Hje.
  { apply Forall_forall. repeat constructor. }
  assert (forall e, e ∈ default [] (fo_edges (toObject s)) ->
                    acceptsEdge
                      (exec (setNodes sample_createGraphNodes
                               (Literal (default [] (fo_nodes (toObject s))))) s) e)
    as Haccept.
  { apply Forall_forall. repeat constructor. }
  pose proof (export_import_roundtrip sample_parseEdge sample_createGraphNodes s
                Hbuild Hparse Hjn Hje Haccept) as H.
  cbv zeta in H. destruct H as (_ & Hnodes & Hedges & _ & Hdropped).
  split; [exact Hnodes |]. split.
  - subst s'. rewrite Hedges. vm_compute. reflexivity.
  - destruct (Hdropped (sampleEdge "e2" "a" "gone" None)) as (err & Herr & Hin).
    + cbn. apply list_elem_of_further, list_elem_of_here.
    + intros [_ [n Hn]]. vm_compute in Hn. discriminate.
    + vm_compute in Herr. injection Herr as <-. exact Hin.
Defined.

(** C6, as stated, fails on a store that holds an edge whose target is not
    among the nodes (the state [removeNodes] leaves behind an edge that is
    not deletable): the export still lists the edge, the import drops and
    reports it. *)
Lemma export_import_drops_dangling_edge :
  let s := sampleStore [sampleNode "a" None None] [sampleEdge "e1" "a" "gone" None]
                       true false in
  map ge_id (edges s) = ["e1"]
  ∧ (e_id <$> default [] (fo_edges (toObject s))) = ["e1"]
  ∧ map ge_id (edges (exec (fromObject sample_parseEdge sample_createGraphNodes
                              (toObject s)) s)) = []
  ∧ events (fromObject sample_parseEdge sample_createGraphNodes (toObject s)) s
    = [Error {| code := EDGE_TARGET_MISSING; args := ["e1"; "gone"] |};
       UntilViewportInitialized {| vx := Fin 0; vy := Fin 0; zoom := Fin 1 |}].
Proof. repeat split; vm_compute; reflexivity. Qed.


Lemma familyBesideCycleStore_descendants (d : GraphNode) :
  descendant familyBesideCycleStore "p" d -> gn_id d = "c" ∨ gn_id d = "g".
Proof.
  induction 1 as [n Hn Hparent | n q Hn _ IH Hparent]; cbn in Hn;
    repeat (apply elem_of_cons in Hn as [->|Hn]); try (by apply elem_of_nil in Hn);
    cbn in Hparent; try discriminate; try (by left); try (by right);
    destruct IH as [Hq|Hq]; rewrite Hq in Hparent; discriminate.
Qed.

Lemma sampleRank_familyBesideCycleStore :
  parentRankBelow familyBesideCycleStore "p" sampleRank.
Proof.
  intros n q Hn Hq Hreach.
  assert (q = "p" ∨ q = "c" ∨ q = "g") as Hcases.
  { destruct Hreach as [->|(d & Hd & <-)]; [by left | right].
    by apply familyBesideCycleStore_descendants. }
  cbn in Hn.
  repeat (apply elem_of_cons in Hn as [->|Hn]); try (by apply elem_of_nil in Hn);
    cbn in Hq; try discriminate; injection Hq as <-;
    try (cbn; lia); destruct Hcases as [?|[?|?]]; discriminate.
Qed.

Lemma removeNodes_cascades_to_descendants_and_edges_witness :
  exists nc ec,
    removeNodes 3 (Literal (Single (inl "p"))) (Some true) (Some true) familyBesideCycleStore
    = Some (tt, familyBesideCycleStore, notifyIf EdgesChange ec ++ [NodesChange nc])
    ∧ NodeRemoveChange "p" ∈ nc
    ∧ (forall d, descendant familyBesideCycleStore "p" d -> NodeRemoveChange (gn_id d) ∈ nc)
    ∧ (forall e, e ∈ edges familyBesideCycleStore -> ge_deletable e ≠ Some false ->
                 incidentOn e "p"
                 ∨ (exists d, descendant familyBesideCycleStore "p" d
                              ∧ incidentOn e (gn_id d)) ->
                 edgeRemoveChangeOf e ∈ ec).
Proof.
  apply (proj1 (removeNodes_cascades_to_descendants_and_edges familyBesideCycleStore
                  sampleRank 3 (Literal (Single (inl "p"))) (inl "p")
                  (nodeRest (sampleNode "p" None None)))).
  - apply sampleRank_familyBesideCycleStore.
  - cbn. lia.
  - reflexivity.
  - vm_compute. reflexivity.
  - discriminate.
Defined.

(** What the call of the witness above evaluates to: the two edges go
    first, then the target and its two descendants. *)
Example removeNodes_family_trace :
  removeNodes 3 (Literal (Single (inl "p"))) (Some true) (Some true) (familyStore None None)
  = Some (tt, familyStore None None,
          [EdgesChange [EdgeRemoveChange "e1" "p" "x" None None;
                        EdgeRemoveChange "e2" "x" "g" None None];
           NodesChange [NodeRemoveChange "p"; NodeRemoveChange "c"; NodeRemoveChange "g"]]).
Proof. vm_compute. reflexivity. Qed.

(** C3, as stated, fails in three ways.  A target whose [deletable] flag is
    false is skipped: nothing is triggered, for it, for its descendants or
    for their edges.  An incident edge whose [deletable] flag is false gets
    no remove change.  And on parent links that form a cycle the descent
    into the children never ends, whatever the fuel. *)
Lemma removeNodes_skips_undeletable_and_loops_on_cycles :
  removeNodes 3 (Literal (Single (inl "p"))) (Some true) (Some true)
    (familyStore (Some false) None)
  = Some (tt, familyStore (Some false) None, [])
  ∧ removeNodes 3 (Literal (Single (inl "p"))) (Some true) (Some true)
      (familyStore None (Some false))
    = Some (tt, familyStore None (Some false),
            [EdgesChange [EdgeRemoveChange "e1" "p" "x" None None];
             NodesChange [NodeRemoveChange "p"; NodeRemoveChange "c"; NodeRemoveChange "g"]])
  ∧ (forall fuel,
        removeNodes fuel (Literal (Single (inl "a"))) (Some true) (Some true) cyclicStore
        = None).
Proof.
  split; [vm_compute; reflexivity |]. split; [vm_compute; reflexivity |].
  assert (forall fuel changes,
             createChildrenRemovalChanges fuel cyclicStore true "a" changes = None
             ∧ createChildrenRemovalChanges fuel cyclicStore true "b" changes = None) as Hloop.
  { induction fuel as [|fuel IH]; intros changes; [done |].
    rewrite !createChildrenRemovalChanges_S.
    assert (filter (fun n => gn_parentNode n = Some "a") (nodes cyclicStore)
            = [sampleNode "b" (Some "a") None]) as -> by (vm_compute; reflexivity).
    assert (filter (fun n => gn_parentNode n = Some "b") (nodes cyclicStore)
            = [sampleNode "a" (Some "b") None]) as -> by (vm_compute; reflexivity).
    cbv zeta. cbn [hasLength foldl mbind option_bind gn_id sampleNode].
    split; apply IH. }
  intros fuel. unfold removeNodes.
  cbn -[removeNodes_item bind when]. unfold removeNodes_item.
  assert (currNodeOf cyclicStore (inl "a") = Some (nodeRest (sampleNode "a" (Some "b") None)))
    as -> by (vm_compute; reflexivity).
  cbn [n_deletable nodeRest sampleNode gn_deletable n_id gn_id].
  by rewrite (proj1 (Hloop fuel _)).
Qed.



(** What is left in the store of the witness above once the default
    listener has applied the changes: the edge that is not deletable, with
    its target node gone. *)
Example removeNodes_family_leaves_undeletable_edge :
  let s := familyStore None (Some false) in
  let log := [EdgesChange [EdgeRemoveChange "e1" "p" "x" None None];
              NodesChange [NodeRemoveChange "p"; NodeRemoveChange "c"; NodeRemoveChange "g"]] in
  removeNodes 3 (Literal (Single (inl "p"))) None (Some true) s = Some (tt, s, log)
  ∧ map ge_id (edges (deliver log s)) = ["e2"]
  ∧ map gn_id (nodes (deliver log s)) = ["x"].
Proof. repeat split; vm_compute; reflexivity. Qed.

(** The other branch of [updateNodeDimensions]: a forced update of the same
    measurement writes to the node and triggers the change. *)
Example updateNodeDimensions_forced :
  let s := sampleStore [sampleNode "a" None None] [] true false in
  let updates := [{| u_id := "a"; u_nodeElement := 1%nat; u_forceUpdate := Some true |}] in
  events (updateNodeDimensions sample_querySelector sample_transformM22
            sample_getDimensions sample_getHandleBounds updates) s
  = [NodesChange [NodeDimensionChange "a" {| width := Fin 10; height := Fin 10 |}]]
  ∧ map gn_initialized
        (nodes (exec (updateNodeDimensions sample_querySelector sample_transformM22
                        sample_getDimensions sample_getHandleBounds updates) s))
    = [true].
Proof. split; vm_compute; reflexivity. Qed.

(** Single selection on a store with a selected node and a selected edge:
    selecting ["b"] unselects both and selects ["b"]. *)
Example addSelectedNodes_single :
  let s := sampleStore [gn_with_selected true (sampleNode "a" None None);
                        sampleNode "b" None None]
                       [ge_with_selected true (sampleEdge "e1" "a" "b" None)] true false in
  let log := events (addSelectedNodes [sampleNode "b" None None]) s in
  log = [NodesChange [NodeSelectionChange {| sc_id := "a"; sc_selected := false |};
                      NodeSelectionChange {| sc_id := "b"; sc_selected := true |}];
         EdgesChange [EdgeSelectionChange {| sc_id := "e1"; sc_selected := false |}]]
  ∧ map gn_selected (nodes (deliver log s)) = [false; true]
  ∧ map ge_selected (edges (deliver log s)) = [false].
Proof. repeat split; vm_compute; reflexivity. Qed.

(** C4, as stated, fails for an edge that shares its id with a target
    node: the edge is outside the target set of nodes, yet it receives a
    select change and is selected afterwards. *)
Lemma addSelectedNodes_selects_edge_with_target_id :
  let s := sampleStore [sampleNode "a" None None; sampleNode "b" None None]
                       [sampleEdge "a" "a" "b" None] true false in
  let log := events (addSelectedNodes [sampleNode "a" None None]) s in
  log = [NodesChange [NodeSelectionChange {| sc_id := "a"; sc_selected := true |};
                      NodeSelectionChange {| sc_id := "b"; sc_selected := false |}];
         EdgesChange [EdgeSelectionChange {| sc_id := "a"; sc_selected := true |}]]
  ∧ map gn_selected (nodes (deliver log s)) = [true; false]
  ∧ map ge_selected (edges (deliver log s)) = [true].
Proof. repeat split; vm_compute; reflexivity. Qed.

Lemma removeSelected_unselects_only_listed_witness :
  let s := sampleStore [gn_with_selected true (sampleNode "a" None None);
                        gn_with_selected true (sampleNode "b" None None)]
                       [ge_with_selected true (sampleEdge "e1" "a" "b" None)] true true in
  let targets := [NodeElement (nodeRest (sampleNode "a" None None));
                  EdgeElement (edgeRest (sampleEdge "e1" "a" "b" None))] in
  let s' := deliver (events (removeSelectedElements (Some targets)) s) s in
  map gn_selected (nodes s') = [false; true] ∧ map ge_selected (edges s') = [false].
Proof.
  intros s targets s'.
  assert ([sampleNode "a" None None] ≠ []) as Hn by discriminate.
  assert ([sampleEdge "e1" "a" "b" None] ≠ []) as He by discriminate.
  assert (targets ≠ []) as Ht by discriminate.
  pose proof (removeSelected_unselects_only_listed s _ _ targets Hn He Ht) as [_ H].
  cbv zeta in H. destruct H as [Hnodes Hedges].
  subst s'. rewrite Hnodes, Hedges. split; vm_compute; reflexivity.
Defined.

Lemma removeNodes_without_edges_triggers_no_edge_change_witness :
  removeNodes 3 (Literal (Single (inl "p"))) (Some false) (Some true) (familyStore None None)
  = Some (tt, familyStore None None,
          [NodesChange [NodeRemoveChange "p"; NodeRemoveChange "c"; NodeRemoveChange "g"]])
  ∧ exists nodeChanges,
      (tt, familyStore None None,
       [NodesChange [NodeRemoveChange "p"; NodeRemoveChange "c"; NodeRemoveChange "g"]])
      = (tt, familyStore None None, notifyIf NodesChange nodeChanges).
Proof.
  split; [vm_compute; reflexivity |].
  apply (removeNodes_without_edges_triggers_no_edge_change 3 (familyStore None None)
           (Literal (Single (inl "p"))) (Some true)).
  vm_compute. reflexivity.
Defined.

Lemma fromObject_skips_viewport_with_zero_coordinate_witness :
  let s := sampleStore [] [] true false in
  let obj := {| fo_nodes := Some [nodeRest (sampleNode "a" None None)];
                fo_edges := Some [];
                fo_position := None;
                fo_zoom := Some (Fin 2);
                fo_viewport := Some {| vx := Fin 0; vy := Fin 5; zoom := Fin 2 |} |} in
  Forall (fun ev => exists e, ev = Error e)
         (events (fromObject sample_parseEdge sample_createGraphNodes obj) s).
Proof.
  intros s obj. apply Forall_forall.
  apply (fromObject_skips_viewport_with_zero_coordinate sample_parseEdge
           sample_createGraphNodes obj s); reflexivity.
Defined.

Lemma fromObject_toObject_restores_viewport_witness :
  let s := sampleStore [sampleNode "a" None None] [] true false in
  exists errors,
    events (fromObject sample_parseEdge sample_createGraphNodes (toObject s)) s
    = map Error errors ++ [UntilViewportInitialized (viewport s)].
Proof.
  intros s.
  apply (fromObject_toObject_restores_viewport sample_parseEdge sample_createGraphNodes
           s 0 0 1).
  reflexivity.
Defined.

Lemma setElements_checks_edges_against_its_nodes_witness :
  let s := sampleStore [] [] true false in
  let elements := [EdgeElement (edgeRest (sampleEdge "e1" "a" "b" None));
                   EdgeElement (edgeRest (sampleEdge "e2" "a" "missing" None));
                   NodeElement (nodeRest (sampleNode "a" None None));
                   NodeElement (nodeRest (sampleNode "b" None None))] in
  let s' := exec (setElements sample_parseEdge sample_createGraphNodes (Literal elements)) s in
  map ge_id (edges s') = ["e1"] ∧ map gn_id (nodes s') = ["a"; "b"].
Proof.
  intros s elements s'.
  assert (forall l current find,
             map gn_id (sample_createGraphNodes l current find).1 = map n_id l) as Hids.
  { intros l current find. cbn. rewrite map_map. reflexivity. }
  assert (initialized s || hasLength (filterNodes elements) = true) as Hn by reflexivity.
  assert (initialized s || hasLength (filterEdges elements) = true) as He by reflexivity.
  pose proof (setElements_checks_edges_against_its_nodes sample_parseEdge
                sample_createGraphNodes s elements Hids Hn He) as H.
  cbv zeta in H. destruct H as (Hedges & Hnodes & _).
  subst s'. rewrite Hedges, Hnodes. split; vm_compute; reflexivity.
Defined.

Lemma updateNodeDimensions_ignores_zero_sizes_witness :
  let s := sampleStore [sampleNode "a" None None] [] true false in
  let updates := [{| u_id := "a"; u_nodeElement := 1%nat; u_forceUpdate := Some true |};
                  {| u_id := "missing"; u_nodeElement := 2%nat; u_forceUpdate := None |}] in
  exec (updateNodeDimensions sample_querySelector sample_transformM22
          (fun _ => {| width := Fin 0; height := Fin 10 |}) sample_getHandleBounds updates) s
  = s.
Proof.
  intros s updates.
  apply (updateNodeDimensions_ignores_zero_sizes sample_querySelector sample_transformM22
           (fun _ => {| width := Fin 0; height := Fin 10 |}) sample_getHandleBounds
           s updates).
  intros u Hu. right. left. reflexivity.
Defined.

Lemma updateNodeDimensions_writes_measurement_witness :
  let s := sampleStore [sampleNode "a" None None; sampleNode "b" None None] [] true false in
  let u := {| u_id := "a"; u_nodeElement := 1%nat; u_forceUpdate := Some true |} in
  let run := updateNodeDimensions sample_querySelector sample_transformM22
               sample_getDimensions sample_getHandleBounds [u] in
  events run s
  = [NodesChange [NodeDimensionChange "a" {| width := Fin 10; height := Fin 10 |}]]
  ∧ (gn_initialized <$> findNode (exec run s) "a") = Some true
  ∧ findNode (exec run s) "b" = findNode s "b".
Proof.
  intros s u run.
  assert (vueFlowRef s = Some 0%nat) as Href by reflexivity.
  assert (sample_querySelector 0%nat ".vue-flow__transformationpane" = Some 0%nat)
    as Hpane by reflexivity.
  assert (findNode s (u_id u) = Some (sampleNode "a" None None)) as Hfind
    by (vm_compute; reflexivity).
  pose proof (updateNodeDimensions_writes_measurement sample_querySelector
                sample_transformM22 sample_getDimensions sample_getHandleBounds
                s u 0%nat 0%nat (sampleNode "a" None None)
                Href Hpane Hfind eq_refl eq_refl eq_refl) as H.
  cbv zeta in H. destruct H as (Hev & Hnode & _ & _ & Hother & _).
  subst run. split; [rewrite Hev; reflexivity |]. split.
  - etrans; [exact (f_equal (fmap gn_initialized) Hnode) | reflexivity].
  - apply Hother. discriminate.
Defined.

Lemma updateNode_merges_into_found_node_witness :
  let s := sampleStore [sampleNode "a" None None; sampleNode "b" None None] [] true false in
  exists s',
    updateNode "a" (Literal samplePatch) None s = Some (tt, s', [])
    ∧ findNode s' "a" = Some (assign (sampleNode "a" None None) samplePatch)
    ∧ (forall id', id' ≠ "a" -> findNode s' id' = findNode s id')
    ∧ map gn_id (nodes s') = map gn_id (nodes s).
Proof.
  intros s.
  apply (updateNode_merges_into_found_node s "a" samplePatch None
           (sampleNode "a" None None)).
  - reflexivity.
  - reflexivity.
  - vm_compute. reflexivity.
Defined.

Lemma setEdges_leaves_no_orphan_for_getEdges_witness :
  let s := sampleStore [sampleNode "a" None None; sampleNode "b" None None] [] true false in
  let E := [edgeRest (sampleEdge "e1" "a" "b" None);
            edgeRest (sampleEdge "e2" "a" "missing" None)] in
  events (getEdges (fun _ => true) sampleGetters)
         (exec (setEdges sample_parseEdge (Literal E)) s)
  = [].
Proof.
  intros s E.
  apply (setEdges_leaves_no_orphan_for_getEdges sample_parseEdge (fun _ => true)
           sampleGetters s (Literal E)).
  - intros e existing defaults. split; reflexivity.
  - reflexivity.
Defined.

Lemma getId_never_repeats_witness :
  let st := {| currentId := 0%N; flows := (∅ : gmap string unit) |} in
  NoDup (getIds 3 st).1
  ∧ (getIds 3 st).1 = ["vue-flow-0"; "vue-flow-1"; "vue-flow-2"].
Proof.
  intros st. split; [|vm_compute; reflexivity].
  apply (getId_never_repeats 3 st). vm_compute. discriminate.
Defined.

(** Past [2^53] the counter no longer grows, and [getId] answers with the
    same id again. *)
Example getId_repeats_past_two_to_the_53 :
  let st := {| currentId := (2 ^ 53)%N; flows := (∅ : gmap string unit) |} in
  (getIds 2 st).1 = ["vue-flow-9007199254740992"; "vue-flow-9007199254740992"].
Proof. vm_compute. reflexivity. Qed.

(** An edge left behind with a missing endpoint is reported by [getEdges]
    every time it is evaluated, and not rendered; [getNode] finds the node
    with the empty id that [findNode] refuses, so an edge from it is not
    orphaned for [getEdges]. *)
Example getEdges_orphans :
  let s := sampleStore [sampleNode "" None None; sampleNode "a" None None]
                       [sampleEdge "e1" "a" "gone" None; sampleEdge "e2" "" "a" None]
                       true false in
  getEdges (fun _ => true) sampleGetters s
  = ([sampleEdge "e2" "" "a" None], s,
     [Error {| code := EDGE_ORPHANED; args := ["e1"] |}]).
Proof. vm_compute. reflexivity. Qed.

(** A drag of a child: the reported position is relative to the parent's
    computed position. *)
Example updateNodePositions_child :
  let s := sampleStore [sampleNode "p" None None; sampleNode "c" (Some "p") None]
                       [] true false in
  let item := {| d_id := "c"; d_position := {| x := Fin 7; y := Fin 9 |};
                 d_from := origin; d_parentNode := Some "p" |} in
  let minus := fun a b => match a, b with
                          | Fin a, Fin b => Fin (a - b)
                          | _, _ => NaN
                          end in
  events (updateNodePositions minus [item] true true) s
  = [NodesChange [NodePositionChange "c" (Some {| x := Fin 7; y := Fin 9 |}) (Some true)]].
Proof. vm_compute. reflexivity. Qed.

(** The names that become own properties: a node type [__proto__] makes
    none, a node type that [Object.prototype] has as a method does. *)
Example getNodeTypes_own_names :
  let typed := fun id t =>
    sample_parseNode {| n_id := id; n_type := Some t; n_position := origin;
                        n_data := VNull; n_parentNode := None; n_hidden := None;
                        n_deletable := None |} None in
  let s := sampleStore [typed "a" "__proto__"; typed "b" "toString"; typed "c" "custom"]
                       [] true false in
  map (fun k => getNodeTypes ∅ sampleGetters s !! k)
      ["__proto__"; "toString"; "custom"; "other"]
  = [None; Some (NameEntry "toString"); Some (NameEntry "custom"); None].
Proof. vm_compute. reflexivity. Qed.
